(** * bluesky-nexus: the NeXus definition converter [convert_nexus.py]

    A shallow embedding of [src/bluesky_nexus/convert_nexus.py] and the
    properties of it that the specification states.

    Conventions of the embedding.

    - A Python object handled by the converter (what [yaml.safe_load]
      returns) is a [value]: [None], a [bool], an [int], a [str], a [list]
      or a [dict].  YAML floats and timestamps are not represented.
    - A [dict] is the list of its items in insertion order.  Its keys are
      strings (the parser applies [str] to every key it reads) and pairwise
      distinct; the predicate [wf] states the second fact where a proof
      needs it.
    - A [str] is a [string] whose characters are the code points below
      256, each by its own number (so the character 233 is the letter e
      with an acute accent, whatever the encoding of this file).  The
      classes of characters that the source uses without naming them, the
      word characters of [re] and the whitespace of [str.strip], are the
      ones of Python on these code points; a [str] with a code point above
      255 is not represented.
    - A function that can raise returns [exc]; the exception carries the
      arguments the source gives it.  [NotModelled] stands for a run that
      leaves these conventions, by a dictionary key that is not a string.
    - [convert_nxyaml], [resolve_nxdlrefs] and [convert_groups] call each
      other through the files they load; they take the remaining call depth
      as [fuel] and raise [OutOfFuel] when it is used up.
    - The file system, [pathlib] and numpy's dtype inference are parameters
      of the development. *)

From Stdlib Require Import String Ascii List ZArith Bool Lia.
From Stdlib Require Import Permutation Sorted DecimalString.
Import ListNotations.
Local Open Scope string_scope.
Local Open Scope list_scope.

Set Implicit Arguments.
Set Warnings "-register-all,-notation-for-abbreviation".

(** ** Python values *)

Inductive value : Type :=
| VNone
| VBool (b : bool)
| VInt (z : Z)
| VStr (s : string)
| VList (l : list value)
| VDict (items : list (string * value)).

Notation dict := (list (string * value)).

(** Exceptions, with the argument tuple where the source gives one. *)
Inductive exn : Type :=
| ValueError (args : list value)
| RuntimeError (args : list value)
| AttributeError
| KeyError (key : string)
| TypeError
| OSError
| OutOfFuel
| NotModelled.

Inductive exc (A : Type) : Type :=
| Ok (a : A)
| Raise (e : exn).

Arguments Ok {A} a.
Arguments Raise {A} e.

Definition bind {A B : Type} (m : exc A) (k : A -> exc B) : exc B :=
  match m with
  | Ok a => k a
  | Raise e => Raise e
  end.

Notation "x <- m ;; k" := (bind m (fun x => k))
  (at level 61, m at next level, right associativity).

Fixpoint mapM {A B : Type} (f : A -> exc B) (l : list A) : exc (list B) :=
  match l with
  | [] => Ok []
  | a :: tl => b <- f a ;; bs <- mapM f tl ;; Ok (b :: bs)
  end.

(** [bool(v)] *)
Definition truthy (v : value) : bool :=
  match v with
  | VNone => false
  | VBool b => b
  | VInt z => negb (Z.eqb z 0)
  | VStr s => negb (String.eqb s EmptyString)
  | VList l => negb (Nat.eqb (List.length l) 0)
  | VDict d => negb (Nat.eqb (List.length d) 0)
  end.

(** [isinstance(v, dict)] *)
Definition is_dict (v : value) : bool :=
  match v with VDict _ => true | _ => false end.

(** ** Dictionaries *)

Definition keys (d : dict) : list string := map fst d.

Fixpoint lookup (k : string) (d : dict) : option value :=
  match d with
  | [] => None
  | (k', v) :: tl => if String.eqb k k' then Some v else lookup k tl
  end.

(** [k in d.keys()] *)
Definition mem (k : string) (d : dict) : bool :=
  match lookup k d with Some _ => true | None => false end.

(** [d[k] = v]: an existing key keeps its place, a new one goes last. *)
Fixpoint dict_set (d : dict) (k : string) (v : value) : dict :=
  match d with
  | [] => [(k, v)]
  | (k', v') :: tl =>
      if String.eqb k k' then (k', v) :: tl else (k', v') :: dict_set tl k v
  end.

(** The dictionary left by [d.pop(k, None)]: [d] without the key [k]. *)
Definition dict_remove (k : string) (d : dict) : dict :=
  filter (fun kv => negb (String.eqb (fst kv) k)) d.

(** [d.update(u)] *)
Definition dict_update (d u : dict) : dict :=
  fold_left (fun acc kv => dict_set acc (fst kv) (snd kv)) u d.

(** [v.get(k, default)] *)
Definition py_get (v : value) (k : string) (default : value) : exc value :=
  match v with
  | VDict d => Ok (match lookup k d with Some x => x | None => default end)
  | _ => Raise AttributeError
  end.

(** [v[k]] for a string [k] *)
Definition py_getitem (v : value) (k : string) : exc value :=
  match v with
  | VDict d => match lookup k d with Some x => Ok x | None => Raise (KeyError k) end
  | _ => Raise TypeError
  end.

(** [v[k] = x] for a string [k]; the updated container is returned. *)
Definition py_setitem (v : value) (k : string) (x : value) : exc value :=
  match v with
  | VDict d => Ok (VDict (dict_set d k x))
  | _ => Raise TypeError
  end.

(** [v.items()] *)
Definition py_items (v : value) : exc dict :=
  match v with
  | VDict d => Ok d
  | _ => Raise AttributeError
  end.

(** [v.pop(k, None)]: the popped value and what is left. *)
Definition py_pop (v : value) (k : string) : exc (value * dict) :=
  match v with
  | VDict d =>
      Ok (match lookup k d with Some x => x | None => VNone end, dict_remove k d)
  | VList _ => Raise TypeError
  | _ => Raise AttributeError
  end.

(** [for x in v] *)
Definition py_iter (v : value) : exc (list value) :=
  match v with
  | VList l => Ok l
  | VDict d => Ok (map VStr (keys d))
  | VStr s => Ok (map (fun c => VStr (String c EmptyString)) (list_ascii_of_string s))
  | _ => Raise TypeError
  end.

(** A value used as a dictionary key; only strings are keys here. *)
Definition as_key (v : value) : exc string :=
  match v with
  | VStr s => Ok s
  | VList _ | VDict _ => Raise TypeError
  | _ => Raise NotModelled
  end.

(** ** Strings *)

Definition nl : ascii := "010"%char.
Definition dquote : ascii := "034"%char.
Definition squote : ascii := "039"%char.

Definition nonempty (s : string) : bool := negb (String.eqb s EmptyString).

(** [s[n:]] *)
Fixpoint drop (n : nat) (s : string) : string :=
  match n, s with
  | O, _ => s
  | S _, EmptyString => EmptyString
  | S m, String _ tl => drop m tl
  end.


Definition code (c : ascii) : nat := nat_of_ascii c.

Definition in_range (lo hi : nat) (c : ascii) : bool :=
  Nat.leb lo (code c) && Nat.leb (code c) hi.

Definition is_upper (c : ascii) : bool := in_range 65 90 c.
Definition is_lower (c : ascii) : bool := in_range 97 122 c.
Definition is_digit (c : ascii) : bool := in_range 48 57 c.
Definition is_underscore (c : ascii) : bool := Ascii.eqb c "_"%char.

(** A letter or a number above the ASCII range: the feminine and the
    masculine ordinal (170, 186), the superscripts 2, 3 and 1 (178, 179,
    185), the micro sign (181), the fractions (188-190) and the letters
    192-255 but for the multiplication and the division sign (215, 247). *)
Definition is_latin_alnum (c : ascii) : bool :=
  Nat.eqb (code c) 170 || in_range 178 179 c || Nat.eqb (code c) 181
  || in_range 185 186 c || in_range 188 190 c || in_range 192 214 c
  || in_range 216 246 c || in_range 248 255 c.

(** A word character, for a pattern on [str] compiled without flags: what
    is alphanumeric for Python, or the underscore. *)
Definition is_word (c : ascii) : bool :=
  is_upper c || is_lower c || is_digit c || is_underscore c
  || is_latin_alnum c.

(** The classes [a-z_] and [A-Z_]. *)
Definition is_lower_us (c : ascii) : bool := is_lower c || is_underscore c.
Definition is_upper_us (c : ascii) : bool := is_upper c || is_underscore c.

(** The longest prefix of [s] made of characters of the class [p], and the
    rest: a greedy repetition of the class. *)
Fixpoint span (p : ascii -> bool) (s : string) : string * string :=
  match s with
  | EmptyString => (EmptyString, EmptyString)
  | String c tl =>
      if p c then let (a, b) := span p tl in (String c a, b)
      else (EmptyString, s)
  end.

(** [$] also matches before a newline that ends the string. *)
Fixpoint chomp (s : string) : string :=
  match s with
  | EmptyString => EmptyString
  | String c EmptyString => if Ascii.eqb c nl then EmptyString else s
  | String c tl => String c (chomp tl)
  end.

(** [Some r] when [s] is [p] followed by [r]: a literal in a pattern. *)
Fixpoint strip_prefix (p s : string) : option string :=
  match p, s with
  | EmptyString, _ => Some s
  | String a p', String b s' => if Ascii.eqb a b then strip_prefix p' s' else None
  | String _ _, EmptyString => None
  end.

(** [s.startswith(p)] *)
Definition startswith (p s : string) : bool :=
  match strip_prefix p s with Some _ => true | None => false end.

(** ** The key grammar

    Each pattern is anchored at both ends, and each greedy class in it is
    followed by a character outside the class (or by the end), so a match
    never backtracks: it is read off by [span]. *)

(** What follows a name in RE_FIELD and RE_ATTRIBUTE: nothing, or a
    parenthesised NX_ followed by capitals and underscores (at least one);
    then the end. *)
Definition re_type_suffix (r : string) : option (option string) :=
  match r with
  | EmptyString => Some None
  | _ =>
      match strip_prefix "(NX_" r with
      | Some r1 =>
          let (t, r2) := span is_upper_us r1 in
          if nonempty t && String.eqb r2 ")" then Some (Some (String.append "NX_" t))
          else None
      | None => None
      end
  end.

(** RE_GROUP, its parts set apart:
    ^ ( [\w]* ) \( ( NX [^_] [a-z_]+ ) \) ( [\w]* ) $ *)
Definition re_group (key : string) : option (string * string * string) :=
  let (name_beg, r1) := span is_word (chomp key) in
  match strip_prefix "(NX" r1 with
  | Some (String c r2) =>
      if is_underscore c then None
      else
        let (cls, r3) := span is_lower_us r2 in
        if nonempty cls then
          match strip_prefix ")" r3 with
          | Some r4 =>
              let (name_end, r5) := span is_word r4 in
              if nonempty r5 then None
              else Some (name_beg, String.append "NX" (String c cls), name_end)
          | None => None
          end
        else None
  | _ => None
  end.

(** RE_FIELD, its parts set apart:
    ^ ( [\w]+ ) (?: \( ( NX_ [A-Z_]+ ) \) )? $ *)
Definition re_field (key : string) : option (string * option string) :=
  let (name, r1) := span is_word (chomp key) in
  if nonempty name then
    match re_type_suffix r1 with
    | Some t => Some (name, t)
    | None => None
    end
  else None.

(** Up to two backslashes, taken greedily. *)
Definition skip_backslashes (s : string) : string :=
  match strip_prefix "\\" s with
  | Some r => r
  | None => match strip_prefix "\" s with Some r => r | None => s end
  end.

(** RE_ATTRIBUTE, its parts set apart:
    ^ \\{0,2} \@ ( [\w]+ ) (?: \( ( NX_ [A-Z_]+ ) \) )? $ *)
Definition re_attribute (key : string) : option (string * option string) :=
  match strip_prefix "@" (skip_backslashes (chomp key)) with
  | Some r =>
      let (name, r1) := span is_word r in
      if nonempty name then
        match re_type_suffix r1 with
        | Some t => Some (name, t)
        | None => None
        end
      else None
  | None => None
  end.

(** A name followed by a parenthesised literal word and the end. *)
Definition re_suffixed (word key : string) : option string :=
  let (name, r1) := span is_word (chomp key) in
  if nonempty name && String.eqb r1 (String.append "(" (String.append word ")"))
  then Some name else None.

(** RE_LINK: ^ ( [\w]+ ) \(link\) $ *)
Definition re_link (key : string) : option string := re_suffixed "link" key.

(** RE_CHOICE: ^ ( [\w]+ ) \(choice\) $ *)
Definition re_choice (key : string) : option string := re_suffixed "choice" key.

(** ** [str] and [repr] *)

Definition hex_digit (n : nat) : ascii :=
  nth n (list_ascii_of_string "0123456789abcdef") "0"%char.

Fixpoint contains (c : ascii) (s : string) : bool :=
  match s with
  | EmptyString => false
  | String c' tl => Ascii.eqb c c' || contains c tl
  end.

(** One character inside [repr(s)], quoted with [q]: the controls (0-31
    and 127-159), the no-break space and the soft hyphen (173) are
    escaped. *)
Definition repr_char (q c : ascii) : string :=
  if Ascii.eqb c "\"%char then "\\"
  else if Ascii.eqb c q then String "\"%char (String q EmptyString)
  else if Ascii.eqb c "009"%char then "\t"
  else if Ascii.eqb c nl then "\n"
  else if Ascii.eqb c "013"%char then "\r"
  else if Nat.ltb (code c) 32 || in_range 127 160 c || Nat.eqb (code c) 173 then
    String "\"%char (String "x"%char
      (String (hex_digit (code c / 16)) (String (hex_digit (code c mod 16)) EmptyString)))
  else String c EmptyString.

Fixpoint repr_chars (q : ascii) (s : string) : string :=
  match s with
  | EmptyString => EmptyString
  | String c tl => String.append (repr_char q c) (repr_chars q tl)
  end.

(** [repr(s)] of a [str]: single quotes, unless [s] holds a single quote
    and no double quote. *)
Definition repr_str (s : string) : string :=
  let q := if contains squote s && negb (contains dquote s) then dquote else squote in
  String q (String.append (repr_chars q s) (String q EmptyString)).

(** [repr(v)] *)
Fixpoint py_repr (v : value) : string :=
  match v with
  | VNone => "None"
  | VBool true => "True"
  | VBool false => "False"
  | VInt z => NilZero.string_of_int (Z.to_int z)
  | VStr s => repr_str s
  | VList l =>
      String.append "[" (String.append (String.concat ", " (map py_repr l)) "]")
  | VDict d =>
      String.append "{"
        (String.append
           (String.concat ", "
              (map (fun kv : string * value => let (k, x) := kv in
                              String.append (repr_str k) (String.append ": " (py_repr x)))
                   d))
           "}")
  end.

(** [str(v)], which is what an f-string puts for [{v}]. *)
Definition py_str (v : value) : string :=
  match v with
  | VStr s => s
  | _ => py_repr v
  end.

(** [sep.join(l)]: every item has to be a [str]. *)
Definition py_join (sep : string) (l : list value) : exc string :=
  ss <- mapM (fun v => match v with VStr s => Ok s | _ => Raise TypeError end) l ;;
  Ok (String.concat sep ss).

(** ** [parse_nxdlyml_level] *)

(** The local variables of one call. *)
Record level_state : Type := mk_level_state {
  groups : list value;
  fields : list value;
  attributes : list value;
  links : list value;
  result : dict
}.

Definition level_init : level_state := mk_level_state [] [] [] [] [].

Definition opt_str (o : option string) : value :=
  match o with Some s => VStr s | None => VNone end.

(** The name and class of a group, from what RE_GROUP captured. *)
Definition group_name_class (nx_name_beg nx_class nx_name_end : string)
  : string * string :=
  let nx_name :=
    if nonempty nx_name_beg then nx_name_beg
    else if nonempty nx_name_end then nx_name_end
    else drop 2 nx_class in
  if String.eqb nx_class "NXobject" && startswith "NX" nx_name
  then (drop 2 nx_name, nx_name)
  else (nx_name, nx_class).

(** The record a choice key stands for, from the parsed nested level. *)
Definition choice_record (nx_name : string) (sub : dict) : exc dict :=
  gs <- py_getitem (VDict sub) "groups" ;;
  vs <- py_iter gs ;;
  classes <- mapM (fun v => py_get v "nx_class" VNone) vs ;;
  nx_class <- py_join " | " classes ;;
  lines <- mapM (fun v =>
                   c <- py_get v "nx_class" VNone ;;
                   d <- py_get v "doc" VNone ;;
                   Ok (String.append (py_str c) (String.append ": " (py_str d)))) vs ;;
  Ok [("nx_term", VStr "field"); ("nx_name", VStr nx_name);
      ("nx_class", VStr nx_class);
      ("doc", VStr (String.concat (String nl EmptyString) lines))].

(** One turn of the loop over [level.items()].  [sub] is what
    [parse_nxdlyml_level(val or {})] returns; a branch that does not make
    that call does not look at it. *)
Definition parse_step (key : string) (val : value) (sub : exc dict)
    (st : level_state) : exc level_state :=
  match re_group key with
  | Some (nx_name_beg, nx_class, nx_name_end) =>
      let nc := group_name_class nx_name_beg nx_class nx_name_end in
      let nx_name := fst nc in
      let nx_class := snd nc in
      s <- sub ;;
      let subdict :=
        dict_update [("nx_term", VStr "group"); ("nx_name", VStr nx_name);
                     ("nx_class", VStr nx_class)] s in
      Ok (mk_level_state (groups st ++ [VDict subdict]) (fields st)
            (attributes st) (links st) (result st))
  | None =>
  match re_field key with
  | Some (nx_name, nx_type) =>
      if (match nx_type with None => true | Some _ => false end) && negb (is_dict val)
      then
        Ok (mk_level_state (groups st) (fields st) (attributes st) (links st)
              (dict_set (result st) key val))
      else if String.eqb nx_name "enumeration" then
        d <- py_items val ;;
        Ok (mk_level_state (groups st) (fields st) (attributes st) (links st)
              (dict_set (result st) key (VList (map VStr (keys d)))))
      else
        s <- sub ;;
        let subdict :=
          dict_update [("nx_term", VStr "field"); ("nx_name", VStr nx_name);
                       ("nx_type", opt_str nx_type)] s in
        Ok (mk_level_state (groups st) (fields st ++ [VDict subdict])
              (attributes st) (links st) (result st))
  | None =>
  match re_attribute key with
  | Some (nx_name, nx_type) =>
      s <- sub ;;
      let subdict :=
        dict_update [("nx_term", VStr "attribute"); ("nx_name", VStr nx_name);
                     ("nx_type", opt_str nx_type)] s in
      Ok (mk_level_state (groups st) (fields st) (attributes st ++ [VDict subdict])
            (links st) (result st))
  | None =>
  match re_link key with
  | Some nx_name =>
      s <- sub ;;
      let subdict :=
        dict_update [("nx_term", VStr "link"); ("nx_name", VStr nx_name);
                     ("nx_type", VNone)] s in
      Ok (mk_level_state (groups st) (fields st) (attributes st)
            (links st ++ [VDict subdict]) (result st))
  | None =>
  match re_choice key with
  | Some nx_name =>
      s <- sub ;;
      subdict <- choice_record nx_name s ;;
      Ok (mk_level_state (groups st ++ [VDict subdict]) (fields st)
            (attributes st) (links st) (result st))
  | None =>
      if startswith "$" key then
        (* [result[key] = val], then [match.groups()] with [match] the
           [None] that the failed RE_CHOICE test left in it *)
        Raise AttributeError
      else
        Raise (ValueError [VStr (String.append "Unknown NeXus term: " key)])
  end end end end end.

(** The four [if ...: result[...] = ...] after the loop. *)
Definition level_finish (st : level_state) : dict :=
  let r := result st in
  let r := if truthy (VList (groups st)) then dict_set r "groups" (VList (groups st)) else r in
  let r := if truthy (VList (fields st)) then dict_set r "fields" (VList (fields st)) else r in
  let r := if truthy (VList (attributes st))
           then dict_set r "attributes" (VList (attributes st)) else r in
  if truthy (VList (links st)) then dict_set r "links" (VList (links st)) else r.

(** [parse_nxdlyml_level(level)].  The loop is [parse_items]; the nested
    call on [val or {}] is [parse_nxdlyml_level val] for a true [val] and
    the empty level for a false one. *)
Fixpoint parse_nxdlyml_level (level : value) : exc dict :=
  match level with
  | VDict items =>
      (fix parse_items (l : dict) (st : level_state) {struct l} : exc dict :=
         match l with
         | [] => Ok (level_finish st)
         | (key, val) :: tl =>
             st' <- parse_step key val
                      (if truthy val then parse_nxdlyml_level val
                       else Ok (level_finish level_init)) st ;;
             parse_items tl st'
         end) items level_init
  | _ => Raise AttributeError
  end.


(** The loop of [parse_nxdlyml_level], from any state of its variables. *)
Fixpoint parse_items (l : dict) (st : level_state) {struct l} : exc dict :=
  match l with
  | [] => Ok (level_finish st)
  | (key, val) :: tl =>
      st' <- parse_step key val
               (if truthy val then parse_nxdlyml_level val
                else Ok (level_finish level_init)) st ;;
      parse_items tl st'
  end.

(** ** [deep_update] *)

(** [deep_update(d, u)]: the loop over [u.items()] is [merge_items], which
    carries [d]. *)
Fixpoint deep_update (d : value) (u : value) : exc value :=
  match u with
  | VDict items =>
      (fix merge_items (l : dict) (d : value) {struct l} : exc value :=
         match l with
         | [] => Ok d
         | (k, v) :: tl =>
             d' <- (if is_dict v then
                      base <- py_get d k (VDict []) ;;
                      merged <- deep_update base v ;;
                      py_setitem d k merged
                    else py_setitem d k v) ;;
             merge_items tl d'
         end) items d
  | _ => Raise AttributeError
  end.

(** ** The post-processors

    [reduce_converted] and [sort_converted] take a [dict] (their
    annotation, and every call is on one); the embedding gives the empty
    dictionary for the other values, which no call passes. *)

(** [set(ks) == {"nxclass"}] *)
Definition only_nxclass (ks : list string) : bool :=
  negb (Nat.eqb (List.length ks) 0) && forallb (String.eqb "nxclass") ks.

(** [reduce_converted(dinput)].  The keys of [dinput] are distinct, so each
    [result[key] = ...] adds a last item. *)
Fixpoint reduce_converted (dinput : value) : dict :=
  match dinput with
  | VDict items =>
      let result :=
        (fix reduce_items (l : dict) {struct l} : dict :=
           match l with
           | [] => []
           | (key, val) :: tl =>
               if is_dict val then
                 let reduced := reduce_converted val in
                 if truthy (VDict reduced) then (key, VDict reduced) :: reduce_items tl
                 else reduce_items tl
               else (key, val) :: reduce_items tl
           end) items in
      if only_nxclass (keys result) then [] else result
  | _ => []
  end.

(** Whitespace for [str.strip()]: 9-13, 28-32 (the last is the blank),
    the next-line control 133 and the no-break space 160. *)
Definition is_space (c : ascii) : bool :=
  in_range 9 13 c || in_range 28 32 c || Nat.eqb (code c) 133
  || Nat.eqb (code c) 160.

(** [s.replace("\n", " ")] *)
Fixpoint replace_nl (s : string) : string :=
  match s with
  | EmptyString => EmptyString
  | String c tl => String (if Ascii.eqb c nl then " "%char else c) (replace_nl tl)
  end.

Fixpoint lstrip (s : string) : string :=
  match s with
  | EmptyString => EmptyString
  | String c tl => if is_space c then lstrip tl else s
  end.

Fixpoint rstrip (s : string) : string :=
  match s with
  | EmptyString => EmptyString
  | String c tl =>
      match rstrip tl with
      | EmptyString => if is_space c then EmptyString else String c EmptyString
      | r => String c r
      end
  end.

(** [s.strip()] *)
Definition strip (s : string) : string := lstrip (rstrip s).

(** [clean_docs(dinput, keep_docs)] *)
Fixpoint clean_docs (dinput : value) (keep_docs : bool) : exc dict :=
  match dinput with
  | VDict items =>
      (fix clean_items (l : dict) {struct l} : exc dict :=
         match l with
         | [] => Ok []
         | (key, val) :: tl =>
             if is_dict val then
               c <- clean_docs val keep_docs ;;
               r <- clean_items tl ;;
               Ok ((key, VDict c) :: r)
             else if String.eqb key "doc" then
               if keep_docs then
                 match val with
                 | VStr s =>
                     r <- clean_items tl ;;
                     Ok ((key, VStr (strip (replace_nl s))) :: r)
                 | _ => Raise AttributeError
                 end
               else clean_items tl
             else
               r <- clean_items tl ;;
               Ok ((key, val) :: r)
         end) items
  | _ => Raise AttributeError
  end.

(** [sorted(l)] on strings: the order is that of the character codes. *)
Fixpoint insert_sorted (k : string) (l : list string) : list string :=
  match l with
  | [] => [k]
  | h :: tl => if String.leb k h then k :: l else h :: insert_sorted k tl
  end.

Definition sorted (l : list string) : list string :=
  fold_right insert_sorted [] l.

(** [k in l] for a list of keys *)
Definition in_list (k : string) (l : list string) : bool :=
  existsb (String.eqb k) l.

(** [v.get("nxclass") != "NXfield"]; it is evaluated on dictionaries
    only. *)
Definition not_a_field (v : value) : bool :=
  match v with
  | VDict d =>
      match lookup "nxclass" d with
      | Some (VStr c) => negb (String.eqb c "NXfield")
      | _ => true
      end
  | _ => true
  end.

Definition first_keys (dinput : dict) : list string :=
  filter (fun k => mem k dinput) ["nxclass"].

Definition last_keys (dinput : dict) : list string :=
  filter (fun k => mem k dinput) ["attrs"].

Definition string_keys (dinput : dict) : list string :=
  keys (filter (fun kv => negb (is_dict (snd kv))
                          && negb (in_list (fst kv) (first_keys dinput ++ last_keys dinput)))
               dinput).

Definition group_keys (dinput : dict) : list string :=
  keys (filter (fun kv =>
                  negb (in_list (fst kv)
                          (first_keys dinput ++ last_keys dinput ++ string_keys dinput))
                  && not_a_field (snd kv))
               dinput).

Definition other_keys (dinput : dict) : list string :=
  filter (fun k =>
            negb (in_list k (first_keys dinput ++ last_keys dinput
                             ++ string_keys dinput ++ group_keys dinput)))
         (keys dinput).

Definition sorted_keys (dinput : dict) : list string :=
  first_keys dinput ++ sorted (string_keys dinput) ++ sorted (group_keys dinput)
  ++ sorted (other_keys dinput) ++ last_keys dinput.

(** [dinput[k]] for a key of [dinput] *)
Definition item (dinput : dict) (k : string) : value :=
  match lookup k dinput with Some v => v | None => VNone end.

(** The rest of [sort_converted] once the values are sorted: the key
    lists and the final comprehension. *)
Definition reorder (dinput : dict) : dict :=
  map (fun k => (k, item dinput k)) (sorted_keys dinput).

(** [sort_converted(dinput)].  The first loop assigns to keys that are
    there, so it keeps the places. *)
Fixpoint sort_converted (dinput : value) : dict :=
  match dinput with
  | VDict items =>
      reorder
        ((fix sort_items (l : dict) {struct l} : dict :=
            match l with
            | [] => []
            | (key, val) :: tl =>
                (key, if is_dict val then VDict (sort_converted val) else val)
                  :: sort_items tl
            end) items)
  | _ => []
  end.

(** ** The converters *)

Definition NX_DTYPES : list (string * string) :=
  [("NX_FLOAT", "float32"); ("NX_INT", "int16"); ("NX_BOOLEAN", "bool");
   ("NX_CHAR", "str"); ("NX_NUMBER", "float32"); ("NX_DATE_TIME", "datetime64")].

Fixpoint assoc (k : string) (l : list (string * string)) : option string :=
  match l with
  | [] => None
  | (k', v) :: tl => if String.eqb k k' then Some v else assoc k tl
  end.

(** [NX_DTYPES.get(v, None)]; a list or a dictionary is not hashable. *)
Definition nx_dtypes_get (v : value) : exc value :=
  match v with
  | VStr s => Ok (opt_str (assoc s NX_DTYPES))
  | VList _ | VDict _ => Raise TypeError
  | _ => Ok VNone
  end.

Fixpoint foldM {A B : Type} (f : B -> A -> exc B) (l : list A) (b : B) : exc B :=
  match l with
  | [] => Ok b
  | a :: tl => b' <- f b a ;; foldM f tl b'
  end.

Section Converter.

(** [np.array(enum).dtype.name] *)
Variable np_dtype_name : value -> exc string.
(** [yaml.safe_load] of the file at a path, when it can be read. *)
Variable load_yaml : string -> option value.
(** [Path(root_dir) / fname] and [str(Path(fpath).parent)] *)
Variable path_join : string -> string -> string.
Variable path_parent : string -> string.

(** The lines that fill ["dtype"] from the type of [x]. *)
Definition add_dtype (x : value) (d : dict) : exc dict :=
  nx_type <- py_get x "nx_type" VNone ;;
  type <- py_get x "type" nx_type ;;
  dtype <- nx_dtypes_get type ;;
  Ok (if truthy dtype then dict_set d "dtype" dtype else d).

(** The lines that fill ["enumeration"], and ["dtype"] from it. *)
Definition add_enumeration (x : value) (d : dict) : exc dict :=
  enum <- py_get x "enumeration" VNone ;;
  if truthy enum then
    let d := dict_set d "enumeration" enum in
    dtype <- (match lookup "dtype" d with
              | Some (VStr t) => if nonempty t then Ok t else np_dtype_name enum
              | _ => np_dtype_name enum
              end) ;;
    Ok (dict_set d "dtype" (VStr (if startswith "str" dtype then "char" else dtype)))
  else Ok d.

(** The lines that keep ["doc"]. *)
Definition add_doc (x : value) (d : dict) : exc dict :=
  doc <- py_get x "doc" VNone ;;
  Ok (if truthy doc then dict_set d "doc" doc else d).

(** The body of the loop of [convert_attributes]. *)
Definition convert_attribute (result : dict) (attr : value) : exc dict :=
  val <- py_get attr "$value" VNone ;;
  let attr_dict := if truthy val then [("value", val)] else [] in
  attr_dict <- add_dtype attr attr_dict ;;
  attr_dict <- add_enumeration attr attr_dict ;;
  attr_dict <- add_doc attr attr_dict ;;
  nx_name <- py_getitem attr "nx_name" ;;
  name <- as_key nx_name ;;
  Ok (dict_set result name (if truthy (VDict attr_dict) then VDict attr_dict else VNone)).

(** [convert_attributes(attributes)] *)
Definition convert_attributes (attributes : value) : exc dict :=
  attrs <- py_iter attributes ;;
  foldM convert_attribute attrs [].

(** The body of the loop of [convert_fields]. *)
Definition convert_field (reduce : bool) (result : dict) (fld : value) : exc dict :=
  val <- py_get fld "$value" VNone ;;
  if negb (truthy val) && reduce then Ok result
  else
    let fld_dict := [("nxclass", VStr "NXfield")] in
    let fld_dict := if truthy val then dict_set fld_dict "value" val else fld_dict in
    fld_dict <- add_dtype fld fld_dict ;;
    fld_dict <- add_enumeration fld fld_dict ;;
    attrs <- py_get fld "attributes" VNone ;;
    atr_dict <- (if truthy attrs then
                   c <- convert_attributes attrs ;; Ok (dict_update [] c)
                 else Ok []) ;;
    units <- py_get fld "$units" VNone ;;
    let atr_dict := if truthy units then dict_set atr_dict "units" units else atr_dict in
    let fld_dict :=
      if truthy (VDict atr_dict) then dict_set fld_dict "attrs" (VDict atr_dict)
      else fld_dict in
    fld_dict <- add_doc fld fld_dict ;;
    nx_name <- py_getitem fld "nx_name" ;;
    name <- as_key nx_name ;;
    Ok (dict_set result name (VDict fld_dict)).

(** [convert_fields(fields, reduce)] *)
Definition convert_fields (fields : value) (reduce : bool) : exc dict :=
  flds <- py_iter fields ;;
  foldM (convert_field reduce) flds [].

(** The body of the loop of [convert_links]. *)
Definition convert_link (result : dict) (lnk : value) : exc dict :=
  target0 <- py_get lnk "target" VNone ;;
  target <- py_get lnk "$value" target0 ;;
  let lnk_dict := [("nxclass", VStr "NXlink"); ("target", target)] in
  lnk_dict <- add_doc lnk lnk_dict ;;
  nx_name <- py_getitem lnk "nx_name" ;;
  name <- as_key nx_name ;;
  Ok (dict_set result name (VDict lnk_dict)).

(** [convert_links(links)] *)
Definition convert_links (links : value) : exc dict :=
  lnks <- py_iter links ;;
  foldM convert_link lnks [].

(** ** Files and references *)

Definition msg_single_group : string :=
  "A referenced nxdl file %s can only include a single NXGroup object".
Definition msg_incompatible : string :=
  "Incompatible NX class %s of a referenced object".
Definition msg_root_keys : string :=
  "Unexpected or missing keys on the root level of nxdl.yml specification.".

(** [a == b] on Python values: [True] and [False] are the integers 1 and 0,
    lists compare item by item, dictionaries whatever the order of their
    items. *)
Fixpoint py_eq (a b : value) : bool :=
  match a, b with
  | VNone, VNone => true
  | VBool x, VBool y => Bool.eqb x y
  | VBool x, VInt y => Z.eqb (if x then 1 else 0) y
  | VInt x, VBool y => Z.eqb x (if y then 1 else 0)
  | VInt x, VInt y => Z.eqb x y
  | VStr x, VStr y => String.eqb x y
  | VList x, VList y =>
      (fix eq_list (l : list value) (m : list value) {struct l} : bool :=
         match l, m with
         | [], [] => true
         | v :: l', w :: m' => py_eq v w && eq_list l' m'
         | _, _ => false
         end) x y
  | VDict x, VDict y =>
      Nat.eqb (List.length x) (List.length y)
      && (fix eq_items (l : dict) {struct l} : bool :=
            match l with
            | [] => true
            | (k, v) :: l' =>
                match lookup k y with
                | Some w => py_eq v w && eq_items l'
                | None => false
                end
            end) x
  | _, _ => false
  end.

(** The recursion into the nested groups at the end of
    [resolve_nxdlrefs]; each assignment is to the key being visited. *)
Definition resolve_children (resolve : value -> exc dict) (grp_dict : dict)
  : exc dict :=
  mapM (fun kv : string * value =>
          let (key, val) := kv in
          if is_dict val then r <- resolve val ;; Ok (key, VDict r)
          else Ok (key, val))
       grp_dict.

(** The root-level keys that [convert_nxyaml] pops after ["type"]. *)
Definition root_metadata : list string :=
  ["symbols"; "deprecated"; "ignoreExtraFields"; "ignoreExtraAttributes";
   "ignoreExtraGroups"; "doc"].

(** [convert_nxyaml(fpath, reduce, sort, keep_docs)],
    [resolve_nxdlrefs(grp_dict, root_dir)] and
    [convert_groups(groups, root_dir, reduce)]. *)
Fixpoint convert_nxyaml (fuel : nat) (fpath : string) (reduce sort keep_docs : bool)
    {struct fuel} : exc dict :=
  match fuel with
  | O => Raise OutOfFuel
  | S fuel' =>
      match load_yaml fpath with
      | None => Raise OSError
      | Some loaded =>
          popped <- py_pop loaded "category" ;;
          let category := fst popped in
          let fdict := snd popped in
          result <-
            (if truthy category then
               match lookup "type" fdict with
               | None => Raise (KeyError "type")
               | Some _ =>
                   let fdict :=
                     fold_left (fun d k => dict_remove k d) root_metadata
                       (dict_remove "type" fdict) in
                   if negb (Nat.eqb (List.length fdict) 1) then
                     Raise (ValueError [VStr msg_root_keys])
                   else
                     parsed <- parse_nxdlyml_level (VDict fdict) ;;
                     gs <- py_get (VDict parsed) "groups" (VList []) ;;
                     convert_groups fuel' gs (path_parent fpath) reduce
               end
             else resolve_nxdlrefs fuel' (VDict fdict) (path_parent fpath)) ;;
          let result := if reduce then reduce_converted (VDict result) else result in
          let result := if sort then sort_converted (VDict result) else result in
          clean_docs (VDict result) keep_docs
      end
  end

with resolve_nxdlrefs (fuel : nat) (grp_dict : value) (root_dir : string)
    {struct fuel} : exc dict :=
  match fuel with
  | O => Raise OutOfFuel
  | S fuel' =>
      popped <- py_pop grp_dict "$nxdlref" ;;
      let fname := fst popped in
      let grp_dict := snd popped in
      grp_dict <-
        (if truthy fname then
           match fname with
           | VStr name =>
               refgrp <- convert_nxyaml fuel' (path_join root_dir name) false true false ;;
               match refgrp with
               | [(refgrp_name, refgrp_dict)] =>
                   ref_class <- py_getitem refgrp_dict "nxclass" ;;
                   grp_class <- py_getitem (VDict grp_dict) "nxclass" ;;
                   if negb (py_eq ref_class grp_class) then
                     Raise (RuntimeError [VStr msg_incompatible; ref_class])
                   else
                     merged <- deep_update refgrp_dict (VDict grp_dict) ;;
                     py_items merged
               | _ => Raise (ValueError [VStr msg_single_group; fname])
               end
           | _ => Raise TypeError
           end
         else Ok grp_dict) ;;
      resolve_children (fun val => resolve_nxdlrefs fuel' val root_dir) grp_dict
  end

with convert_groups (fuel : nat) (groups : value) (root_dir : string) (reduce : bool)
    {struct fuel} : exc dict :=
  match fuel with
  | O => Raise OutOfFuel
  | S fuel' =>
      grps <- py_iter groups ;;
      foldM
        (fun (result : dict) (grp : value) =>
           nx_class <- py_getitem grp "nx_class" ;;
           ref <- py_get grp "$nxdlref" VNone ;;
           resolved <- resolve_nxdlrefs fuel'
                         (VDict [("nxclass", nx_class); ("$nxdlref", ref)]) root_dir ;;
           let grp_dict := VDict resolved in
           sub_groups <- py_get grp "groups" VNone ;;
           grp_dict <-
             (if truthy sub_groups then
                c <- convert_groups fuel' sub_groups root_dir reduce ;;
                deep_update grp_dict (VDict c)
              else Ok grp_dict) ;;
           flds <- py_get grp "fields" VNone ;;
           grp_dict <-
             (if truthy flds then
                c <- convert_fields flds reduce ;;
                deep_update grp_dict (VDict c)
              else Ok grp_dict) ;;
           atts <- py_get grp "attributes" (VList []) ;;
           attrs <- convert_attributes atts ;;
           grp_dict <-
             (if truthy (VDict attrs) then
                old <- py_get grp_dict "attrs" (VDict []) ;;
                merged <- deep_update old (VDict attrs) ;;
                py_setitem grp_dict "attrs" merged
              else Ok grp_dict) ;;
           lnks <- py_get grp "links" VNone ;;
           grp_dict <-
             (if truthy lnks then
                c <- convert_links lnks ;;
                deep_update grp_dict (VDict c)
              else Ok grp_dict) ;;
           doc <- py_get grp "doc" VNone ;;
           grp_dict <- (if truthy doc then py_setitem grp_dict "doc" doc else Ok grp_dict) ;;
           nx_name <- py_getitem grp "nx_name" ;;
           name <- as_key nx_name ;;
           Ok (dict_set result name grp_dict))
        grps []
  end.

End Converter.

(** [np.array(enum).dtype.name] for a list of strings: "str" and 32 times
    the longest length (at least one character). *)
Definition np_dtype_name_of_strings (v : value) : exc string :=
  match v with
  | VList l =>
      if forallb (fun x => match x with VStr _ => true | _ => false end) l then
        let n := fold_right (fun x m => match x with
                                        | VStr s => Nat.max (String.length s) m
                                        | _ => m
                                        end) 1 l in
        Ok (String.append "str" (NilZero.string_of_uint (Nat.to_uint (32 * n))))
      else Raise NotModelled
  | _ => Raise NotModelled
  end.

(** The scenarios of section 8. *)
Definition scenario_A : value :=
  VDict [("source(NXsource)", VDict [("name", VDict [("$value", VStr "synchrotron")])])].

Definition scenario_A_expected : dict :=
  [("source", VDict [("nxclass", VStr "NXsource");
                     ("name", VDict [("nxclass", VStr "NXfield");
                                     ("value", VStr "synchrotron")])])].

Definition scenario_B : value := VDict [("@default(NX_CHAR)", VNone)].

Definition scenario_B_untyped : value := VDict [("@default", VNone)].

(** A level parsed and its attributes converted. *)
Definition convert_level_attributes (np : value -> exc string) (level : value)
  : exc dict :=
  parsed <- parse_nxdlyml_level level ;;
  atts <- py_get (VDict parsed) "attributes" (VList []) ;;
  convert_attributes np atts.

(** A level parsed and its groups converted, as [convert_nxyaml] does. *)
Definition convert_level_groups (np : value -> exc string)
    (load_yaml : string -> option value) (path_join : string -> string -> string)
    (path_parent : string -> string) (fuel : nat) (level : value)
    (root_dir : string) (reduce : bool) : exc dict :=
  parsed <- parse_nxdlyml_level level ;;
  gs <- py_get (VDict parsed) "groups" (VList []) ;;
  convert_groups np load_yaml path_join path_parent fuel gs root_dir reduce.

(** ** Well-formed dictionaries *)

Fixpoint distinct (l : list string) : bool :=
  match l with
  | [] => true
  | k :: tl => negb (in_list k tl) && distinct tl
  end.

(** The keys of a dictionary are pairwise distinct, and so are those of
    the dictionaries under its keys. *)
Fixpoint wf (v : value) : bool :=
  match v with
  | VDict d => distinct (keys d) && forallb (fun kv => wf (snd kv)) d
  | _ => true
  end.

(** [u] can be merged into [d]: where [u] has a dictionary, [d] has one
    too or has nothing. *)
Fixpoint mergeable (d : value) (u : value) {struct u} : bool :=
  match u, d with
  | VDict items, VDict base =>
      forallb (fun kv : string * value =>
                 let (k, v) := kv in
                 if is_dict v then
                   match lookup k base with
                   | None => true
                   | Some b => mergeable b v
                   end
                 else true)
              items
  | _, _ => false
  end.

(** The loop of [deep_update]. *)
Fixpoint merge_items (l : dict) (d : value) {struct l} : exc value :=
  match l with
  | [] => Ok d
  | (k, v) :: tl =>
      d' <- (if is_dict v then
               base <- py_get d k (VDict []) ;;
               merged <- deep_update base v ;;
               py_setitem d k merged
             else py_setitem d k v) ;;
      merge_items tl d'
  end.

(** The loop of [reduce_converted]. *)
Fixpoint reduce_items (l : dict) {struct l} : dict :=
  match l with
  | [] => []
  | (key, val) :: tl =>
      if is_dict val then
        let reduced := reduce_converted val in
        if truthy (VDict reduced) then (key, VDict reduced) :: reduce_items tl
        else reduce_items tl
      else (key, val) :: reduce_items tl
  end.

(** A mapping with nothing in it but class tags: each of its items is the
    key ["nxclass"] with a value that is not a mapping, or a mapping of
    the same kind. *)
Fixpoint vacuous (v : value) : bool :=
  match v with
  | VDict items =>
      forallb (fun kv : string * value =>
                 let (k, x) := kv in
                 if is_dict x then vacuous x else String.eqb "nxclass" k)
              items
  | _ => false
  end.

(** A field without value, attribute or child, as [convert_fields] gives
    it when nothing is reduced. *)
Definition bare_field : value := VDict [("nxclass", VStr "NXfield")].

(** A group that holds only a bare field, under [n] more groups. *)
Fixpoint nested_group (n : nat) : value :=
  match n with
  | O => VDict [("nxclass", VStr "NXcollection"); ("field", bare_field)]
  | S m => VDict [("nxclass", VStr "NXcollection"); ("inner", nested_group m)]
  end.

(** ** Worked inputs *)

Definition choice_alternatives : value :=
  VDict [("(NXmirror)", VDict [("doc", VStr "A mirror")]); ("(NXcrystal)", VNone)].

Definition choice_alternatives_parsed : dict :=
  [("groups",
    VList [VDict [("nx_term", VStr "group"); ("nx_name", VStr "mirror");
                  ("nx_class", VStr "NXmirror"); ("doc", VStr "A mirror")];
           VDict [("nx_term", VStr "group"); ("nx_name", VStr "crystal");
                  ("nx_class", VStr "NXcrystal")]])].

Definition choice_alternatives_groups : list value :=
  match choice_alternatives_parsed with
  | [(_, VList gs)] => gs
  | _ => []
  end.

(** A field record whose value, documentation and enumeration are there
    and false. *)
Definition falsy_record : dict :=
  [("nx_term", VStr "field"); ("nx_name", VStr "energy"); ("nx_type", VStr "NX_FLOAT");
   ("$value", VInt 0); ("doc", VStr EmptyString); ("enumeration", VList [])].

Definition typed_attribute : value :=
  VDict [("nx_term", VStr "attribute"); ("nx_name", VStr "default");
         ("nx_type", VStr "NX_CHAR")].

Definition entry_with_vacuous_group : dict :=
  [("nxclass", VStr "NXentry"); ("title", VStr "scan"); ("sample", nested_group 2)].

(** ** The order of [sort_converted] *)

(** The loop of [sort_converted] over the values. *)
Fixpoint sort_items (l : dict) {struct l} : dict :=
  match l with
  | [] => []
  | (key, val) :: tl =>
      (key, if is_dict val then VDict (sort_converted val) else val) :: sort_items tl
  end.

(** A value with its dictionaries sorted. *)
Definition sort_value (v : value) : value :=
  if is_dict v then VDict (sort_converted v) else v.

(** The place of a key among its siblings: 0 for the class tag, 1 for a
    value that is not a mapping, 2 for a mapping that is not a field, 3 for
    a field, 4 for the attributes. *)
Definition rank (k : string) (v : value) : nat :=
  if String.eqb k "nxclass" then 0
  else if String.eqb k "attrs" then 4
  else if negb (is_dict v) then 1
  else if not_a_field v then 2
  else 3.

Definition key_rank (d : dict) (k : string) : nat := rank k (item d k).

(** [k1] comes before [k2]: by rank, then by the order of strings. *)
Definition key_before (d : dict) (k1 k2 : string) : Prop :=
  key_rank d k1 < key_rank d k2
  \/ (key_rank d k1 = key_rank d k2 /\ String.leb k1 k2 = true /\ k1 <> k2).

Definition str_le (a b : string) : Prop := String.leb a b = true.

Definition str_lt (a b : string) : Prop := String.leb a b = true /\ a <> b.

(** ** The pipeline of an already simplified file *)

(** What [convert_nxyaml] does to the content [fdict] of a simplified file
    when nothing is reduced: references, then the order, then the
    documentation. *)
Definition convert_simplified (np : value -> exc string)
    (load_yaml : string -> option value) (path_join : string -> string -> string)
    (path_parent : string -> string) (fuel : nat) (fdict : value)
    (root_dir : string) (keep_docs : bool) : exc dict :=
  result <- resolve_nxdlrefs np load_yaml path_join path_parent fuel fdict root_dir ;;
  clean_docs (VDict (sort_converted (VDict result))) keep_docs.

(** No mapping of [v] holds the key of a reference. *)
Fixpoint no_refs (v : value) : bool :=
  match v with
  | VDict d => negb (mem "$nxdlref" d) && forallb (fun kv => no_refs (snd kv)) d
  | _ => true
  end.

(** How deep the mappings of [v] are nested. *)
Fixpoint depth (v : value) : nat :=
  match v with
  | VDict d => S (fold_right (fun kv m => Nat.max (depth (snd kv)) m) 0 d)
  | _ => 0
  end.

(** A file system with one file of the original kind, whose group holds a
    group named by its class alone. *)
Definition odd_definition : value :=
  VDict [("category", VStr "base"); ("type", VStr "group");
         ("(NXsource)", VDict [("(NX$nxdlref)", VNone)])].

Definition odd_files (p : string) : option value :=
  if String.eqb p "NXsource.yml" then Some odd_definition else None.

Definition odd_reference : value :=
  VDict [("$nxdlref", VStr "NXsource.yml"); ("nxclass", VStr "NXsource")].

Definition odd_output : dict :=
  [("nxclass", VStr "NXsource");
   ("$nxdlref", VDict [("nxclass", VStr "NX$nxdlref")])].

(** Paths for the worked inputs: every file is in one directory. *)
Definition flat_join (root_dir name : string) : string := name.
Definition flat_parent (fpath : string) : string := EmptyString.

Definition unsorted_entry : dict :=
  [("title", VStr "scan"); ("attrs", VDict [("default", VStr "data")]);
   ("data", VDict [("nxclass", VStr "NXdata")]); ("nxclass", VStr "NXentry");
   ("energy", VDict [("nxclass", VStr "NXfield"); ("value", VInt 8)]);
   ("date", VStr "2024")].

(** Simplified files: one with two top-level groups, one with a source. *)
Definition sample_files (p : string) : option value :=
  if String.eqb p "two.yml" then
    Some (VDict [("first", VDict [("nxclass", VStr "NXsource")]);
                 ("second", VDict [("nxclass", VStr "NXsource")])])
  else if String.eqb p "source.yml" then
    Some (VDict [("source",
                  VDict [("nxclass", VStr "NXsource");
                         ("probe", VDict [("nxclass", VStr "NXfield");
                                          ("value", VStr "neutron")])])])
  else None.

Definition refers_to_two : dict :=
  [("$nxdlref", VStr "two.yml"); ("nxclass", VStr "NXsource")].

Definition refers_to_source_as_detector : dict :=
  [("$nxdlref", VStr "source.yml"); ("nxclass", VStr "NXdetector")].

Definition plain_node : dict :=
  [("nxclass", VStr "NXsource");
   ("probe", VDict [("nxclass", VStr "NXfield"); ("value", VStr "x-ray")])].

(** ** Notions used by the statements *)

(** An alternative of a choice: a record with a class that is a string. *)
Definition is_alternative (g : value) : bool :=
  match g with
  | VDict d => match lookup "nx_class" d with Some (VStr _) => true | _ => false end
  | _ => false
  end.

Definition alt_class (g : value) : string :=
  match g with
  | VDict d => match lookup "nx_class" d with Some (VStr c) => c | _ => EmptyString end
  | _ => EmptyString
  end.

Definition alt_doc (g : value) : value :=
  match g with
  | VDict d => match lookup "doc" d with Some x => x | None => VNone end
  | _ => VNone
  end.

(** The line of an alternative in the documentation of the choice. *)
Definition alt_line (g : value) : string :=
  String.append (alt_class g) (String.append ": " (py_str (alt_doc g))).

Definition choice_of (nx_name : string) (gs : list value) : value :=
  VDict [("nx_term", VStr "field"); ("nx_name", VStr nx_name);
         ("nx_class", VStr (String.concat " | " (map alt_class gs)));
         ("doc", VStr (String.concat (String nl EmptyString) (map alt_line gs)))].

(** [d.get(k)] *)
Definition get (d : dict) (k : string) : value :=
  match lookup k d with Some x => x | None => VNone end.

(** What the loop of [convert_attributes] stores under a name. *)
Definition attribute_entry (attr_dict : dict) : value :=
  if truthy (VDict attr_dict) then VDict attr_dict else VNone.

(** A value that is not a dictionary holding the key [k]. *)
Definition lacks (k : string) (v : value) : Prop :=
  match v with
  | VDict d => lookup k d = None
  | _ => True
  end.

(** What [deep_update] promises of its result [r], for a base [d] and an
    override [u]. *)
Definition merge_rules (d u r : dict) : Prop :=
  (forall k v, lookup k u = Some v -> is_dict v = false -> lookup k r = Some v)
  /\ (forall k d' u',
        lookup k u = Some (VDict u') -> lookup k d = Some (VDict d') ->
        exists m,
          deep_update (VDict d') (VDict u') = Ok (VDict m)
          /\ lookup k r = Some (VDict m))
  /\ (forall k v, lookup k u = Some v -> lookup k d = None -> lookup k r = Some v)
  /\ (forall k, lookup k u = None -> lookup k r = lookup k d).

Definition merge_check (base : dict) (kv : string * value) : bool :=
  let (k, v) := kv in
  if is_dict v then
    match lookup k base with
    | None => true
    | Some b => mergeable b v
    end
  else true.

Definition merge_base : value :=
  VDict [("a", VInt 1); ("b", VDict [("x", VInt 1)])].
Definition merge_override : value :=
  VDict [("b", VDict [("y", VInt 2)]); ("c", VInt 3)].
Definition merge_expected : value :=
  VDict [("a", VInt 1); ("b", VDict [("x", VInt 1); ("y", VInt 2)]); ("c", VInt 3)].

(** The loop of [clean_docs]. *)
Fixpoint clean_items (l : dict) (keep_docs : bool) {struct l} : exc dict :=
  match l with
  | [] => Ok []
  | (key, val) :: tl =>
      if is_dict val then
        c <- clean_docs val keep_docs ;;
        r <- clean_items tl keep_docs ;;
        Ok ((key, VDict c) :: r)
      else if String.eqb key "doc" then
        if keep_docs then
          match val with
          | VStr s =>
              r <- clean_items tl keep_docs ;;
              Ok ((key, VStr (strip (replace_nl s))) :: r)
          | _ => Raise AttributeError
          end
        else clean_items tl keep_docs
      else
        r <- clean_items tl keep_docs ;;
        Ok ((key, val) :: r)
  end.

(** A value whose mappings have their keys in the order of
    [sort_converted], at every level. *)
Inductive ordered : value -> Prop :=
| ordered_dict (d : dict) :
    StronglySorted (key_before d) (keys d) ->
    (forall k v, In (k, v) d -> ordered v) ->
    ordered (VDict d)
| ordered_other (v : value) : is_dict v = false -> ordered v.

(** A value that [resolve_nxdlrefs] returns as it is with the fuel [fuel]:
    no mapping of it holds the key of a reference, and they are nested
    less than [fuel] deep. *)
Fixpoint settled (fuel : nat) (v : value) {struct fuel} : Prop :=
  match v with
  | VDict d =>
      match fuel with
      | O => False
      | S fuel' =>
          lookup "$nxdlref" d = None /\ forall k x, In (k, x) d -> settled fuel' x
      end
  | _ => True
  end.

(** Every file that can be loaded is a simplified one, with distinct
    keys. *)
Definition simplified_files (load_yaml : string -> option value) : Prop :=
  forall p v,
    load_yaml p = Some v ->
    wf v = true /\ forall d, v = VDict d -> truthy (get d "category") = false.

(** ** More notions for the statements *)

(** Every character of [s] is in the class [p]. *)
Fixpoint all_chars (p : ascii -> bool) (s : string) : bool :=
  match s with
  | EmptyString => true
  | String c tl => p c && all_chars p tl
  end.

(** A class token as RE_GROUP takes it: NX, a character other than the
    underscore, then lowercase letters and underscores, at least one. *)
Definition is_class_token (cls : string) : bool :=
  match strip_prefix "NX" cls with
  | Some (String c rest) =>
      negb (is_underscore c) && nonempty rest && all_chars is_lower_us rest
  | _ => false
  end.

(** The key of a group, from its parts. *)
Definition group_key (name_beg cls name_end : string) : string :=
  String.append name_beg
    (String.append "(" (String.append cls (String.append ")" name_end))).

(** How many of the five patterns a key matches. *)
Definition hit (A : Type) (o : option A) : nat :=
  match o with
  | Some _ => 1
  | None => 0
  end.

Definition matches (key : string) : nat :=
  hit (re_group key) + hit (re_field key) + hit (re_attribute key)
  + hit (re_link key) + hit (re_choice key).

(** The record of a group in the parsed level. *)
Definition group_record (nx_name nx_class : string) (sub : dict) : value :=
  VDict (dict_update [("nx_term", VStr "group"); ("nx_name", VStr nx_name);
                      ("nx_class", VStr nx_class)] sub).

(** A plain property: a key made of word characters with a value that is
    not a mapping. *)
Definition is_plain_item (kv : string * value) : bool :=
  nonempty (fst kv) && all_chars is_word (fst kv) && negb (is_dict (snd kv)).

(** The level parsed for a nested value: [parse_nxdlyml_level(val or {})]. *)
Definition nested (val : value) : exc dict :=
  if truthy val then parse_nxdlyml_level val else Ok (level_finish level_init).

(** The state after [groups.append(g)], and after [result[key] = x]. *)
Definition add_group (st : level_state) (g : value) : level_state :=
  mk_level_state (groups st ++ [g]) (fields st) (attributes st) (links st)
    (result st).

Definition set_result (st : level_state) (key : string) (x : value)
  : level_state :=
  mk_level_state (groups st) (fields st) (attributes st) (links st)
    (dict_set (result st) key x).

(** A key that is empty, or whose first character is neither a word
    character nor one of the four that open a pattern or a dollar key. *)
Definition is_stray (key : string) : bool :=
  match key with
  | EmptyString => true
  | String c _ =>
      negb (is_word c) && negb (Ascii.eqb "(" c) && negb (Ascii.eqb "@" c)
      && negb (Ascii.eqb "\" c) && negb (Ascii.eqb "$" c)
  end.

(** No mapping under a key of [v] is empty or holds class tags only, at any
    depth. *)
Fixpoint reduced_form (v : value) : bool :=
  match v with
  | VDict items =>
      forallb (fun kv : string * value =>
                 if is_dict (snd kv) then
                   truthy (snd kv)
                   && negb (match snd kv with
                            | VDict c => only_nxclass (keys c)
                            | _ => false
                            end)
                   && reduced_form (snd kv)
                 else true)
              items
  | _ => true
  end.

(** No key "doc" of [v] has a value that is not a mapping, at any depth. *)
Fixpoint no_docs (v : value) : bool :=
  match v with
  | VDict items =>
      forallb (fun kv : string * value =>
                 if is_dict (snd kv) then no_docs (snd kv)
                 else negb (String.eqb (fst kv) "doc"))
              items
  | _ => true
  end.

(** Every value under a key "doc" of [v] is a string or a mapping, at any
    depth. *)
Fixpoint docs_are_text (v : value) : bool :=
  match v with
  | VDict items =>
      forallb (fun kv : string * value =>
                 if is_dict (snd kv) then docs_are_text (snd kv)
                 else if String.eqb (fst kv) "doc"
                      then match snd kv with VStr _ => true | _ => false end
                      else true)
              items
  | _ => true
  end.

(** A record that holds no "$value" key. *)
Definition no_value (v : value) : Prop :=
  exists d, v = VDict d /\ lookup "$value" d = None.

(** What [convert_links] stores for a link whose nested level is [d]. *)
Definition link_entry (d : dict) : value :=
  VDict ([("nxclass", VStr "NXlink"); ("target", get d "target")]
         ++ (if truthy (get d "doc") then [("doc", get d "doc")] else [])).

(** The root-level keys that [convert_nxyaml] pops from an original file,
    and what is left of the file's mapping without them. *)
Definition is_root_metadata (k : string) : bool :=
  in_list k ("category" :: "type" :: root_metadata).

Definition root_rest (d : dict) : dict :=
  filter (fun kv => negb (is_root_metadata (fst kv))) d.

(** A node that refers to the source of [sample_files] and names it. *)
Definition refers_to_source : dict :=
  [("$nxdlref", VStr "source.yml"); ("nxclass", VStr "NXsource");
   ("name", VStr "BESSY II")].

(** ** More worked inputs *)

Definition plain_level : dict :=
  [("doc", VStr "A detector"); ("unit", VStr "NX_LENGTH"); ("deprecated", VNone)].

(** A documentation string in two lines that ends with a blank, a
    no-break space (160) and a next-line control (133). *)
Definition two_line_doc : string :=
  String.append "  The beam"
    (String nl (String.append " energy " (String "160" (String "133" EmptyString)))).

(** Names with the letter e with an acute accent (233). *)
Definition accented_name : string := String "d" (String "233" "tecteur").

Definition accented_level : dict :=
  [(String "233" "nergie", VStr "8 keV"); ("unit", VStr "NX_ENERGY")].

Definition doc_level : dict :=
  [("nxclass", VStr "NXfield"); ("doc", VStr two_line_doc)].

(** What the reference of [refers_to_source] resolves to, and the same
    sorted. *)
Definition merged_source : dict :=
  [("nxclass", VStr "NXsource");
   ("probe", VDict [("nxclass", VStr "NXfield"); ("value", VStr "neutron")]);
   ("name", VStr "BESSY II")].

Definition resolved_source : dict :=
  [("nxclass", VStr "NXsource"); ("name", VStr "BESSY II");
   ("probe", VDict [("nxclass", VStr "NXfield"); ("value", VStr "neutron")])].

(** A file of the original kind with two groups at its root. *)
Definition two_roots : dict :=
  [("category", VStr "base"); ("type", VStr "group"); ("doc", VStr "Two groups");
   ("(NXentry)", VNone); ("(NXsample)", VNone)].

Definition two_roots_files (p : string) : option value :=
  if String.eqb p "NXtwo.yml" then Some (VDict two_roots) else None.

Definition typed_field_level : dict :=
  [("energy(NX_FLOAT)", VDict [("unit", VStr "NX_ENERGY")])].

Definition typed_field_records : value :=
  VList [VDict [("nx_term", VStr "field"); ("nx_name", VStr "energy");
                ("nx_type", VStr "NX_FLOAT"); ("unit", VStr "NX_ENERGY")]].

Definition link_level : dict :=
  [("target", VStr "/entry/instrument/detector/data"); ("doc", VStr "The data")].

Definition probe_attribute : dict :=
  [("nx_name", VStr "probe"); ("type", VStr "NX_CHAR");
   ("enumeration", VList [VStr "x-ray"; VStr "neutron"])].

Definition probe_kinds : dict := [("x-ray", VNone); ("neutron", VNone)].

(** A simplified file that refers to itself. *)
Definition loop_node : dict :=
  [("$nxdlref", VStr "self.yml"); ("nxclass", VStr "NXsource")].

Definition loop_files (p : string) : option value :=
  if String.eqb p "self.yml" then Some (VDict loop_node) else None.

(** The post-processing at the end of [convert_nxyaml]. *)
Definition post_process (result : dict) (reduce sort keep_docs : bool)
  : exc dict :=
  let result := if reduce then reduce_converted (VDict result) else result in
  let result := if sort then sort_converted (VDict result) else result in
  clean_docs (VDict result) keep_docs.

(** What the last loop of [resolve_nxdlrefs] makes of an item, with [r] the
    recursive call: the key is kept; a value that is a mapping is replaced
    by what [r] returns for it, any other value is kept. *)
Definition child_resolved (r : value -> exc dict) (kv ky : string * value)
  : Prop :=
  fst ky = fst kv
  /\ if is_dict (snd kv)
     then exists c, r (snd kv) = Ok c /\ snd ky = VDict c
     else snd ky = snd kv.

(** [y] is [g] with its children resolved, item by item and in order. *)
Definition children_resolved (r : value -> exc dict) (g y : dict) : Prop :=
  Forall2 (child_resolved r) g y.

(** An instrument whose source is a reference. *)
Definition instrument_node : dict :=
  [("nxclass", VStr "NXinstrument"); ("source", VDict refers_to_source)].

(** The body of the loop of [convert_groups], with [fuel] left for the
    calls it makes. *)
Definition convert_group (np : value -> exc string)
    (load_yaml : string -> option value) (path_join : string -> string -> string)
    (path_parent : string -> string) (fuel : nat) (root_dir : string)
    (reduce : bool) (result : dict) (grp : value) : exc dict :=
  nx_class <- py_getitem grp "nx_class" ;;
  ref <- py_get grp "$nxdlref" VNone ;;
  resolved <- resolve_nxdlrefs np load_yaml path_join path_parent fuel
                (VDict [("nxclass", nx_class); ("$nxdlref", ref)]) root_dir ;;
  let grp_dict := VDict resolved in
  sub_groups <- py_get grp "groups" VNone ;;
  grp_dict <-
    (if truthy sub_groups then
       c <- convert_groups np load_yaml path_join path_parent fuel sub_groups
              root_dir reduce ;;
       deep_update grp_dict (VDict c)
     else Ok grp_dict) ;;
  flds <- py_get grp "fields" VNone ;;
  grp_dict <-
    (if truthy flds then
       c <- convert_fields np flds reduce ;;
       deep_update grp_dict (VDict c)
     else Ok grp_dict) ;;
  atts <- py_get grp "attributes" (VList []) ;;
  attrs <- convert_attributes np atts ;;
  grp_dict <-
    (if truthy (VDict attrs) then
       old <- py_get grp_dict "attrs" (VDict []) ;;
       merged <- deep_update old (VDict attrs) ;;
       py_setitem grp_dict "attrs" merged
     else Ok grp_dict) ;;
  lnks <- py_get grp "links" VNone ;;
  grp_dict <-
    (if truthy lnks then
       c <- convert_links lnks ;;
       deep_update grp_dict (VDict c)
     else Ok grp_dict) ;;
  doc <- py_get grp "doc" VNone ;;
  grp_dict <- (if truthy doc then py_setitem grp_dict "doc" doc else Ok grp_dict) ;;
  nx_name <- py_getitem grp "nx_name" ;;
  name <- as_key nx_name ;;
  Ok (dict_set result name grp_dict).

(** A field record without a true ["$value"], whatever else it holds. *)
Definition valueless (f : value) : bool :=
  match f with
  | VDict d => negb (truthy (get d "$value"))
  | _ => false
  end.

(** A group record, as the parser builds them, that holds nothing but
    fields without a value and groups of the same kind, nested at most [n]
    deep: it has a name and a class that are strings, no true reference,
    no attributes, no true links and no true documentation.  The name is
    not the key of the class tag. *)
Fixpoint hollow (n : nat) (g : value) {struct n} : bool :=
  match g with
  | VDict rec =>
      match lookup "nx_name" rec, lookup "nx_class" rec with
      | Some (VStr name), Some (VStr _) =>
          negb (String.eqb name "nxclass")
          && negb (truthy (get rec "$nxdlref"))
          && negb (mem "attributes" rec)
          && negb (truthy (get rec "links"))
          && negb (truthy (get rec "doc"))
          && match get rec "fields" with
             | VNone => true
             | VList fl => forallb valueless fl
             | _ => false
             end
          && match get rec "groups" with
             | VNone => true
             | VList gs =>
                 match n with
                 | O => Nat.eqb (List.length gs) 0
                 | S m => forallb (hollow m) gs
                 end
             | _ => false
             end
      | _, _ => false
      end
  | _ => false
  end.

(** The keys of [r] are distinct and none is the key of the class tag, and
    every value of [r] is a mapping that holds only class tags. *)
Definition class_tags_only (r : dict) : Prop :=
  wf (VDict r) = true
  /\ forall k v, In (k, v) r -> k <> "nxclass" /\ vacuous v = true.

(** A level of the original kind: an entry whose instrument holds a typed
    field and a source that holds a typed field with a unit. *)
Definition hollow_level : dict :=
  [("(NXentry)",
    VDict [("(NXinstrument)",
            VDict [("energy(NX_FLOAT)", VNone);
                   ("(NXsource)",
                    VDict [("probe(NX_CHAR)",
                            VDict [("unit", VStr "NX_ANY")])])])])].

(** A definition of the original kind whose group holds one typed field,
    and a simplified file that refers to it. *)
Definition beamline_files (p : string) : option value :=
  if String.eqb p "NXsource.yml" then
    Some (VDict [("category", VStr "base"); ("type", VStr "group");
                 ("NXsource(NXobject)", VDict [("name(NX_CHAR)", VNone)])])
  else if String.eqb p "beamline.yml" then
    Some (VDict [("source", VDict [("$nxdlref", VStr "NXsource.yml");
                                   ("nxclass", VStr "NXsource")])])
  else None.

(** A simplified group that holds only a field with a type and no value. *)
Definition typed_field_group : dict :=
  [("source", VDict [("nxclass", VStr "NXsource");
                     ("name", VDict [("nxclass", VStr "NXfield");
                                     ("dtype", VStr "str")])])].

(** * Properties *)

(** ** Dictionaries *)

Lemma lookup_dict_set_eq (d : dict) (k : string) (v : value) :
  lookup k (dict_set d k v) = Some v.
Proof.
  induction d as [|[k' v'] tl IH]; simpl.
  - now rewrite String.eqb_refl.
  - destruct (String.eqb k k') eqn:E; simpl; rewrite E; auto.
Qed.

Lemma lookup_dict_set_ne (d : dict) (k k' : string) (v : value) :
  k' <> k -> lookup k' (dict_set d k v) = lookup k' d.
Proof.
  intros Hne. induction d as [|[k0 v0] tl IH]; simpl.
  - destruct (String.eqb_spec k' k); congruence.
  - destruct (String.eqb_spec k k0) as [->|Hk]; simpl.
    + destruct (String.eqb_spec k' k0); congruence.
    + now rewrite IH.
Qed.

(** ** The key grammar *)

Lemma chomp_dollar (rest : string) :
  exists r, chomp (String "$" rest) = String "$" r.
Proof.
  destruct rest as [|c tl].
  - exists EmptyString. reflexivity.
  - exists (chomp (String c tl)). reflexivity.
Qed.

Lemma dollar_no_group (rest : string) : re_group (String "$" rest) = None.
Proof.
  unfold re_group. destruct (chomp_dollar rest) as [r ->]. reflexivity.
Qed.

Lemma dollar_no_field (rest : string) : re_field (String "$" rest) = None.
Proof.
  unfold re_field. destruct (chomp_dollar rest) as [r ->]. reflexivity.
Qed.

Lemma dollar_no_attribute (rest : string) : re_attribute (String "$" rest) = None.
Proof.
  unfold re_attribute. destruct (chomp_dollar rest) as [r ->]. reflexivity.
Qed.

Lemma dollar_no_suffixed (word rest : string) :
  re_suffixed word (String "$" rest) = None.
Proof.
  unfold re_suffixed. destruct (chomp_dollar rest) as [r ->]. reflexivity.
Qed.

Lemma parse_step_dollar (rest : string) (val : value) (sub : exc dict)
    (st : level_state) :
  parse_step (String "$" rest) val sub st = Raise AttributeError.
Proof.
  unfold parse_step, re_link, re_choice.
  rewrite dollar_no_group, dollar_no_field, dollar_no_attribute.
  rewrite !dollar_no_suffixed. reflexivity.
Qed.

Lemma parse_nxdlyml_level_dict (items : dict) :
  parse_nxdlyml_level (VDict items) = parse_items items level_init.
Proof.
  unfold parse_nxdlyml_level at 1. fold parse_nxdlyml_level.
  generalize level_init at 2 3.
  induction items as [|[key val] tl IH]; intro st; simpl; [reflexivity|].
  destruct (parse_step key val _ st); simpl; auto.
Qed.

Lemma parse_items_raises_at (pre post : dict) (key : string) (val : value) :
  (forall sub st, exists e, parse_step key val sub st = Raise e) ->
  forall st, exists e, parse_items (pre ++ (key, val) :: post) st = Raise e.
Proof.
  intros Hstep. induction pre as [|[k v] tl IH]; intro st; simpl.
  - destruct (Hstep (if truthy val then parse_nxdlyml_level val
                     else Ok (level_finish level_init)) st) as [e ->].
    exists e. reflexivity.
  - destruct (parse_step k v _ st) as [st'|e]; simpl.
    + apply IH.
    + exists e. reflexivity.
Qed.

(** ** Scenario A and the keys that start with the value marker *)

(** C1.  On the input of Scenario A,
    [{"source(NXsource)": {"name": {"$value": "synchrotron"}}}], the level
    parser raises [AttributeError] at the key ["$value"], so parsing
    followed by [convert_groups] raises too and does not yield the mapping
    of the scenario. *)
Theorem scenario_A_raises :
  parse_nxdlyml_level scenario_A = Raise AttributeError
  /\ forall np load_yaml path_join path_parent fuel root_dir reduce,
       convert_level_groups np load_yaml path_join path_parent fuel
         scenario_A root_dir reduce = Raise AttributeError
       /\ convert_level_groups np load_yaml path_join path_parent fuel
            scenario_A root_dir reduce <> Ok scenario_A_expected.
Proof.
  assert (H : parse_nxdlyml_level scenario_A = Raise AttributeError)
    by (vm_compute; reflexivity).
  split; [exact H|]. intros. unfold convert_level_groups. rewrite H. simpl.
  split; [reflexivity|discriminate].
Qed.

(** C2.  A key that begins with ["$"] matches none of the five patterns,
    and a level that holds such a key is not parsed: the call raises
    (with [AttributeError] when the key is the only one), so the key does
    not reach the residual properties. *)
Theorem dollar_key_raises (rest : string) (val : value) :
  (re_group (String "$" rest) = None
   /\ re_field (String "$" rest) = None
   /\ re_attribute (String "$" rest) = None
   /\ re_link (String "$" rest) = None
   /\ re_choice (String "$" rest) = None)
  /\ parse_nxdlyml_level (VDict [(String "$" rest, val)]) = Raise AttributeError
  /\ forall pre post,
       exists e,
         parse_nxdlyml_level (VDict (pre ++ (String "$" rest, val) :: post)) = Raise e.
Proof.
  split; [|split].
  - unfold re_link, re_choice.
    now rewrite dollar_no_group, dollar_no_field, dollar_no_attribute,
      !dollar_no_suffixed.
  - rewrite parse_nxdlyml_level_dict. simpl.
    now rewrite parse_step_dollar.
  - intros pre post. rewrite parse_nxdlyml_level_dict.
    apply parse_items_raises_at. intros sub st.
    exists AttributeError. apply parse_step_dollar.
Qed.

(** ** Choice keys *)

Lemma span_head (p : ascii -> bool) (s : string) (c : ascii) (a b : string) :
  span p s = (String c a, b) -> exists s', s = String c s' /\ p c = true.
Proof.
  destruct s as [|c' tl]; simpl; [discriminate|].
  destruct (p c') eqn:E.
  - destruct (span p tl). intros H. inversion H; subst. eauto.
  - intros H. discriminate H.
Qed.

Lemma re_suffixed_inv (word key name : string) :
  re_suffixed word key = Some name ->
  exists c a,
    name = String c a
    /\ span is_word (chomp key) = (name, String.append "(" (String.append word ")")).
Proof.
  unfold re_suffixed. destruct (span is_word (chomp key)) as [n r1].
  destruct (nonempty n) eqn:Hn; cbn [andb]; [|intros H; discriminate H].
  destruct (String.eqb_spec r1 (String.append "(" (String.append word ")")));
    [|intros H; discriminate H].
  intros H. inversion H; subst. destruct name as [|c a]; [discriminate Hn|]. eauto.
Qed.

(** A key that matches RE_CHOICE matches none of the patterns tried
    before it. *)
Lemma re_choice_only (key name : string) :
  re_choice key = Some name ->
  re_group key = None /\ re_field key = None /\ re_attribute key = None
  /\ re_link key = None.
Proof.
  intros H. apply re_suffixed_inv in H. destruct H as (c & a & -> & Hs).
  destruct (span_head _ _ Hs) as (s' & Hk & Hc).
  repeat split.
  - unfold re_group. rewrite Hs. reflexivity.
  - unfold re_field. rewrite Hs. reflexivity.
  - unfold re_attribute, skip_backslashes. rewrite Hk. cbn [strip_prefix].
    destruct (Ascii.eqb_spec "\"%char c) as [<-|_]; [discriminate Hc|].
    cbn [strip_prefix].
    destruct (Ascii.eqb_spec "@"%char c) as [<-|_]; [discriminate Hc|].
    reflexivity.
  - unfold re_link, re_suffixed. rewrite Hs. reflexivity.
Qed.

Lemma choice_classes (gs : list value) :
  forallb is_alternative gs = true ->
  mapM (fun v => py_get v "nx_class" VNone) gs
  = Ok (map (fun g => VStr (alt_class g)) gs).
Proof.
  induction gs as [|g tl IH]; simpl; [reflexivity|].
  intros H. apply andb_true_iff in H. destruct H as [Hg Htl].
  rewrite (IH Htl). destruct g as [| | | | |d]; try discriminate. simpl in *.
  destruct (lookup "nx_class" d) as [[| | |c| |]|]; try discriminate. reflexivity.
Qed.

Lemma join_strings (sep : string) (ss : list string) :
  py_join sep (map VStr ss) = Ok (String.concat sep ss).
Proof.
  unfold py_join.
  assert (H : mapM (fun v => match v with VStr s => Ok s | _ => Raise TypeError end)
                (map VStr ss) = Ok ss).
  { induction ss as [|s tl IH]; simpl; [reflexivity|]. now rewrite IH. }
  now rewrite H.
Qed.

Lemma choice_lines (gs : list value) :
  forallb is_alternative gs = true ->
  mapM (fun v =>
          c <- py_get v "nx_class" VNone ;;
          d <- py_get v "doc" VNone ;;
          Ok (String.append (py_str c) (String.append ": " (py_str d)))) gs
  = Ok (map alt_line gs).
Proof.
  induction gs as [|g tl IH]; [reflexivity|].
  intros H. cbn [forallb] in H. apply andb_true_iff in H. destruct H as [Hg Htl].
  cbn [mapM map]. rewrite (IH Htl). destruct g as [| | | | |d]; try discriminate Hg.
  unfold alt_line, alt_class, alt_doc, py_get. cbn [is_alternative] in Hg.
  destruct (lookup "nx_class" d) as [[| | |c| |]|]; try discriminate Hg. reflexivity.
Qed.

Lemma choice_record_ok (nx_name : string) (sub : dict) (gs : list value) :
  lookup "groups" sub = Some (VList gs) ->
  forallb is_alternative gs = true ->
  choice_record nx_name sub = Ok (match choice_of nx_name gs with
                                  | VDict d => d
                                  | _ => []
                                  end).
Proof.
  intros Hg Ha. unfold choice_record, py_getitem. rewrite Hg.
  cbn [bind py_iter]. rewrite (choice_classes _ Ha). cbn [bind].
  rewrite <- (map_map alt_class VStr), join_strings. cbn [bind].
  now rewrite (choice_lines _ Ha).
Qed.

(** C9.  At a key that matches RE_CHOICE (and so none of the patterns
    tried before it), when the nested value parses to a level whose
    ["groups"] are records with a class, the loop goes on with one record
    added at the end of [groups]: its term is ["field"], its class the
    classes of the alternatives joined by [" | "], its documentation one
    line [class: doc] per alternative. *)
Theorem choice_appends_synthesized_field
    (key nx_name : string) (val : value) (tl sub : dict) (gs : list value)
    (st : level_state) :
  re_choice key = Some nx_name ->
  (if truthy val then parse_nxdlyml_level val else Ok (level_finish level_init))
  = Ok sub ->
  lookup "groups" sub = Some (VList gs) ->
  forallb is_alternative gs = true ->
  (re_group key = None /\ re_field key = None /\ re_attribute key = None
   /\ re_link key = None)
  /\ parse_items ((key, val) :: tl) st
     = parse_items tl
         (mk_level_state (groups st ++ [choice_of nx_name gs]) (fields st)
            (attributes st) (links st) (result st)).
Proof.
  intros Hc Hsub Hg Ha.
  destruct (re_choice_only _ Hc) as (H1 & H2 & H3 & H4).
  split; [auto|].
  cbn [parse_items]. rewrite Hsub. unfold parse_step.
  rewrite H1, H2, H3, H4, Hc. cbn [bind].
  rewrite (choice_record_ok nx_name _ Hg Ha). reflexivity.
Qed.

(** ** Attributes and fields *)

Lemma bind_ok {A B : Type} (m : exc A) (k : A -> exc B) (b : B) :
  bind m k = Ok b -> exists a, m = Ok a /\ k a = Ok b.
Proof.
  destruct m as [a|e]; simpl; [eauto|discriminate].
Qed.

Ltac bind_inv H :=
  let a := fresh "a" in
  let Ha := fresh "Ha" in
  apply bind_ok in H; destruct H as (a & Ha & H).

Ltac str_ne := apply String.eqb_neq; reflexivity.

Lemma lookup_remove_eq (k : string) (d : dict) : lookup k (dict_remove k d) = None.
Proof.
  induction d as [|[k' v] tl IH]; simpl; [reflexivity|].
  destruct (String.eqb_spec k' k) as [->|Hne]; simpl; [exact IH|].
  destruct (String.eqb_spec k k'); [congruence|exact IH].
Qed.

Lemma lookup_remove_ne (k k' : string) (d : dict) :
  k' <> k -> lookup k' (dict_remove k d) = lookup k' d.
Proof.
  intros Hne. induction d as [|[k0 v] tl IH]; simpl; [reflexivity|].
  destruct (String.eqb_spec k0 k) as [->|Hk]; simpl.
  - destruct (String.eqb_spec k' k); [congruence|exact IH].
  - now rewrite IH.
Qed.

Lemma get_remove_ne (k k' : string) (d : dict) :
  k' <> k -> get (dict_remove k d) k' = get d k'.
Proof.
  intros H. unfold get. now rewrite lookup_remove_ne.
Qed.

Lemma get_remove_eq (k : string) (d : dict) : get (dict_remove k d) k = VNone.
Proof.
  unfold get. now rewrite lookup_remove_eq.
Qed.

Lemma py_get_dict (d : dict) (k : string) :
  py_get (VDict d) k VNone = Ok (get d k).
Proof. reflexivity. Qed.

Section Presence.

Variable np : value -> exc string.

Lemma add_dtype_lookup (x : value) (d d' : dict) (k : string) :
  add_dtype x d = Ok d' -> k <> "dtype" -> lookup k d' = lookup k d.
Proof.
  unfold add_dtype. intros H Hk. do 3 bind_inv H. inversion H; subst.
  destruct (truthy a1); [now apply lookup_dict_set_ne|reflexivity].
Qed.

Lemma add_enumeration_lookup (x : value) (d d' : dict) (k : string) :
  add_enumeration np x d = Ok d' -> k <> "dtype" -> k <> "enumeration" ->
  lookup k d' = lookup k d.
Proof.
  unfold add_enumeration. intros H Hk Hk'. bind_inv H.
  destruct (truthy a).
  - bind_inv H. inversion H; subst.
    now rewrite !lookup_dict_set_ne.
  - now inversion H.
Qed.

Lemma add_enumeration_falsy (x d : dict) :
  truthy (get x "enumeration") = false ->
  add_enumeration np (VDict x) d = Ok d.
Proof.
  intros H. unfold add_enumeration. rewrite py_get_dict. cbn [bind].
  now rewrite H.
Qed.

Lemma add_doc_lookup (x : value) (d d' : dict) (k : string) :
  add_doc x d = Ok d' -> k <> "doc" -> lookup k d' = lookup k d.
Proof.
  unfold add_doc. intros H Hk. bind_inv H. inversion H; subst.
  destruct (truthy a); [now apply lookup_dict_set_ne|reflexivity].
Qed.

Lemma add_doc_falsy (x d : dict) :
  truthy (get x "doc") = false -> add_doc (VDict x) d = Ok d.
Proof.
  intros H. unfold add_doc. rewrite py_get_dict. cbn [bind]. now rewrite H.
Qed.

Lemma convert_attribute_inv (result r : dict) (attr : value) :
  convert_attribute np result attr = Ok r ->
  exists x name attr_dict d1 d2,
    attr = VDict x
    /\ lookup "nx_name" x = Some (VStr name)
    /\ add_dtype attr (if truthy (get x "$value") then [("value", get x "$value")] else [])
       = Ok d1
    /\ add_enumeration np attr d1 = Ok d2
    /\ add_doc attr d2 = Ok attr_dict
    /\ r = dict_set result name (attribute_entry attr_dict).
Proof.
  unfold convert_attribute. intros H.
  destruct attr as [| | | | |x]; try discriminate H.
  rewrite py_get_dict in H. cbn [bind] in H.
  do 5 bind_inv H. inversion H; subst; clear H.
  unfold py_getitem in Ha2. destruct (lookup "nx_name" x) as [n|] eqn:Hn;
    [|discriminate Ha2].
  inversion Ha2; subst. destruct a2; try discriminate Ha3.
  inversion Ha3; subst.
  exists x, a3, a1, a, a0. repeat split; auto.
Qed.

Lemma convert_field_inv (result r : dict) (fld : value) :
  convert_field np false result fld = Ok r ->
  exists x name fld_dict d1 d2 atr_dict,
    fld = VDict x
    /\ lookup "nx_name" x = Some (VStr name)
    /\ add_dtype fld
         (if truthy (get x "$value")
          then dict_set [("nxclass", VStr "NXfield")] "value" (get x "$value")
          else [("nxclass", VStr "NXfield")]) = Ok d1
    /\ add_enumeration np fld d1 = Ok d2
    /\ add_doc fld (if truthy (VDict atr_dict) then dict_set d2 "attrs" (VDict atr_dict)
                    else d2) = Ok fld_dict
    /\ r = dict_set result name (VDict fld_dict).
Proof.
  unfold convert_field. intros H.
  destruct fld as [| | | | |x]; try discriminate H.
  rewrite py_get_dict in H. cbn [bind] in H.
  rewrite andb_false_r in H.
  do 8 bind_inv H. inversion H; subst; clear H.
  unfold py_getitem in Ha5. destruct (lookup "nx_name" x) as [n|] eqn:Hn;
    [|discriminate Ha5].
  inversion Ha5; subst. destruct a5; try discriminate Ha6.
  inversion Ha6; subst.
  exists x, a6, a4, a, a0.
  exists (if truthy a3 then dict_set a2 "units" a3 else a2).
  repeat split; auto.
Qed.



Ltac as_absent H :=
  unfold convert_field, convert_attribute, add_dtype, add_enumeration, add_doc,
    py_get, py_getitem;
  rewrite ?lookup_remove_eq; rewrite ?lookup_remove_ne by str_ne;
  unfold get in H;
  match type of H with
  | context [lookup ?k ?d] =>
      destruct (lookup k d) as [?v|]; [cbn [bind]; rewrite ?H|]; reflexivity
  end.

Lemma field_value_as_absent (d result : dict) (reduce : bool) :
  truthy (get d "$value") = false ->
  convert_field np reduce result (VDict d)
  = convert_field np reduce result (VDict (dict_remove "$value" d)).
Proof. intros H. as_absent H. Qed.

Lemma field_doc_as_absent (d result : dict) (reduce : bool) :
  truthy (get d "doc") = false ->
  convert_field np reduce result (VDict d)
  = convert_field np reduce result (VDict (dict_remove "doc" d)).
Proof. intros H. as_absent H. Qed.

Lemma field_enumeration_as_absent (d result : dict) (reduce : bool) :
  truthy (get d "enumeration") = false ->
  convert_field np reduce result (VDict d)
  = convert_field np reduce result (VDict (dict_remove "enumeration" d)).
Proof. intros H. as_absent H. Qed.

Lemma attribute_value_as_absent (d result : dict) :
  truthy (get d "$value") = false ->
  convert_attribute np result (VDict d)
  = convert_attribute np result (VDict (dict_remove "$value" d)).
Proof. intros H. as_absent H. Qed.

Lemma attribute_doc_as_absent (d result : dict) :
  truthy (get d "doc") = false ->
  convert_attribute np result (VDict d)
  = convert_attribute np result (VDict (dict_remove "doc" d)).
Proof. intros H. as_absent H. Qed.

Lemma attribute_enumeration_as_absent (d result : dict) :
  truthy (get d "enumeration") = false ->
  convert_attribute np result (VDict d)
  = convert_attribute np result (VDict (dict_remove "enumeration" d)).
Proof. intros H. as_absent H. Qed.

Lemma field_dropped (d result : dict) :
  truthy (get d "$value") = false ->
  convert_field np true result (VDict d) = Ok result.
Proof.
  intros H. unfold convert_field. rewrite py_get_dict. cbn [bind].
  now rewrite H.
Qed.

Lemma field_no_value (d result r : dict) :
  truthy (get d "$value") = false ->
  convert_field np false result (VDict d) = Ok r ->
  exists name fld_dict,
    r = dict_set result name (VDict fld_dict) /\ lookup "value" fld_dict = None.
Proof.
  intros Hf H. apply convert_field_inv in H.
  destruct H as (x & name & fd & d1 & d2 & ad & Hx & _ & H1 & H2 & H3 & ->).
  inversion Hx; subst x. rewrite Hf in H1.
  exists name, fd. split; [reflexivity|].
  rewrite (add_doc_lookup _ _ H3) by str_ne.
  assert (Hd2 : lookup "value" d2 = None).
  { rewrite (add_enumeration_lookup _ _ H2) by str_ne.
    now rewrite (add_dtype_lookup _ _ H1) by str_ne. }
  match goal with |- context [if ?c then _ else _] => destruct c end;
    [rewrite lookup_dict_set_ne by str_ne|]; exact Hd2.
Qed.

Lemma field_no_doc (d result r : dict) :
  truthy (get d "doc") = false ->
  convert_field np false result (VDict d) = Ok r ->
  exists name fld_dict,
    r = dict_set result name (VDict fld_dict) /\ lookup "doc" fld_dict = None.
Proof.
  intros Hf H. apply convert_field_inv in H.
  destruct H as (x & name & fd & d1 & d2 & ad & Hx & _ & H1 & H2 & H3 & ->).
  inversion Hx; subst x. rewrite (add_doc_falsy _ _ Hf) in H3.
  injection H3 as H3. subst fd.
  eexists name, _. split; [reflexivity|].
  assert (Hd2 : lookup "doc" d2 = None).
  { rewrite (add_enumeration_lookup _ _ H2) by str_ne.
    rewrite (add_dtype_lookup _ _ H1) by str_ne.
    destruct (truthy (get d "$value")); reflexivity. }
  match goal with |- context [if ?c then _ else _] => destruct c end;
    [rewrite lookup_dict_set_ne by str_ne|]; exact Hd2.
Qed.

Lemma field_no_enumeration (d result r : dict) :
  truthy (get d "enumeration") = false ->
  convert_field np false result (VDict d) = Ok r ->
  exists name fld_dict,
    r = dict_set result name (VDict fld_dict) /\ lookup "enumeration" fld_dict = None.
Proof.
  intros Hf H. apply convert_field_inv in H.
  destruct H as (x & name & fd & d1 & d2 & ad & Hx & _ & H1 & H2 & H3 & ->).
  inversion Hx; subst x. rewrite (add_enumeration_falsy _ _ Hf) in H2.
  injection H2 as H2. subst d2.
  exists name, fd. split; [reflexivity|].
  rewrite (add_doc_lookup _ _ H3) by str_ne.
  assert (Hd1 : lookup "enumeration" d1 = None).
  { rewrite (add_dtype_lookup _ _ H1) by str_ne.
    destruct (truthy (get d "$value")); reflexivity. }
  match goal with |- context [if ?c then _ else _] => destruct c end;
    [rewrite lookup_dict_set_ne by str_ne|]; exact Hd1.
Qed.

Lemma lacks_attribute_entry (k : string) (attr_dict : dict) :
  lookup k attr_dict = None -> lacks k (attribute_entry attr_dict).
Proof.
  intros H. unfold attribute_entry. destruct (truthy (VDict attr_dict)); simpl; auto.
Qed.

Lemma attribute_no_value (d result r : dict) :
  truthy (get d "$value") = false ->
  convert_attribute np result (VDict d) = Ok r ->
  exists name entry, r = dict_set result name entry /\ lacks "value" entry.
Proof.
  intros Hf H. apply convert_attribute_inv in H.
  destruct H as (x & name & ad & d1 & d2 & Hx & _ & H1 & H2 & H3 & ->).
  inversion Hx; subst x. rewrite Hf in H1.
  eexists name, _. split; [reflexivity|]. apply lacks_attribute_entry.
  rewrite (add_doc_lookup _ _ H3) by str_ne.
  rewrite (add_enumeration_lookup _ _ H2) by str_ne.
  now rewrite (add_dtype_lookup _ _ H1) by str_ne.
Qed.

Lemma attribute_no_doc (d result r : dict) :
  truthy (get d "doc") = false ->
  convert_attribute np result (VDict d) = Ok r ->
  exists name entry, r = dict_set result name entry /\ lacks "doc" entry.
Proof.
  intros Hf H. apply convert_attribute_inv in H.
  destruct H as (x & name & ad & d1 & d2 & Hx & _ & H1 & H2 & H3 & ->).
  inversion Hx; subst x. rewrite (add_doc_falsy _ _ Hf) in H3.
  injection H3 as H3. subst ad.
  eexists name, _. split; [reflexivity|]. apply lacks_attribute_entry.
  rewrite (add_enumeration_lookup _ _ H2) by str_ne.
  rewrite (add_dtype_lookup _ _ H1) by str_ne.
  destruct (truthy (get d "$value")); reflexivity.
Qed.

Lemma attribute_no_enumeration (d result r : dict) :
  truthy (get d "enumeration") = false ->
  convert_attribute np result (VDict d) = Ok r ->
  exists name entry, r = dict_set result name entry /\ lacks "enumeration" entry.
Proof.
  intros Hf H. apply convert_attribute_inv in H.
  destruct H as (x & name & ad & d1 & d2 & Hx & _ & H1 & H2 & H3 & ->).
  inversion Hx; subst x. rewrite (add_enumeration_falsy _ _ Hf) in H2.
  injection H2 as H2. subst d2.
  eexists name, _. split; [reflexivity|]. apply lacks_attribute_entry.
  rewrite (add_doc_lookup _ _ H3) by str_ne.
  rewrite (add_dtype_lookup _ _ H1) by str_ne.
  destruct (truthy (get d "$value")); reflexivity.
Qed.

(** C10.  The converters test by truth value, not by membership.  For a
    record [d] whose ["$value"] is present but false: under reduction
    [convert_fields] drops the field, and both converters give what they
    give for [d] without that key; the converted field or attribute has
    no ["value"].  The same holds of ["doc"] and of ["enumeration"]. *)
Theorem falsy_property_counts_as_absent (d result : dict) :
  (truthy (get d "$value") = false ->
   convert_field np true result (VDict d) = Ok result
   /\ convert_fields np (VList [VDict d]) true = Ok []
   /\ (forall reduce,
         convert_field np reduce result (VDict d)
         = convert_field np reduce result (VDict (dict_remove "$value" d)))
   /\ convert_attribute np result (VDict d)
      = convert_attribute np result (VDict (dict_remove "$value" d))
   /\ (forall r, convert_field np false result (VDict d) = Ok r ->
         exists name fld_dict,
           r = dict_set result name (VDict fld_dict)
           /\ lookup "value" fld_dict = None)
   /\ (forall r, convert_attribute np result (VDict d) = Ok r ->
         exists name entry, r = dict_set result name entry /\ lacks "value" entry))
  /\ (truthy (get d "doc") = false ->
      (forall reduce,
         convert_field np reduce result (VDict d)
         = convert_field np reduce result (VDict (dict_remove "doc" d)))
      /\ convert_attribute np result (VDict d)
         = convert_attribute np result (VDict (dict_remove "doc" d))
      /\ (forall r, convert_field np false result (VDict d) = Ok r ->
            exists name fld_dict,
              r = dict_set result name (VDict fld_dict)
              /\ lookup "doc" fld_dict = None)
      /\ (forall r, convert_attribute np result (VDict d) = Ok r ->
            exists name entry, r = dict_set result name entry /\ lacks "doc" entry))
  /\ (truthy (get d "enumeration") = false ->
      (forall reduce,
         convert_field np reduce result (VDict d)
         = convert_field np reduce result (VDict (dict_remove "enumeration" d)))
      /\ convert_attribute np result (VDict d)
         = convert_attribute np result (VDict (dict_remove "enumeration" d))
      /\ (forall r, convert_field np false result (VDict d) = Ok r ->
            exists name fld_dict,
              r = dict_set result name (VDict fld_dict)
              /\ lookup "enumeration" fld_dict = None)
      /\ (forall r, convert_attribute np result (VDict d) = Ok r ->
            exists name entry,
              r = dict_set result name entry /\ lacks "enumeration" entry)).
Proof.
  repeat split; intros.
  - now apply field_dropped.
  - unfold convert_fields. cbn [py_iter bind foldM].
    now rewrite field_dropped.
  - now apply field_value_as_absent.
  - now apply attribute_value_as_absent.
  - eapply field_no_value; eassumption.
  - eapply attribute_no_value; eassumption.
  - now apply field_doc_as_absent.
  - now apply attribute_doc_as_absent.
  - eapply field_no_doc; eassumption.
  - eapply attribute_no_doc; eassumption.
  - now apply field_enumeration_as_absent.
  - now apply attribute_enumeration_as_absent.
  - eapply field_no_enumeration; eassumption.
  - eapply attribute_no_enumeration; eassumption.
Qed.

(** C7, as the code has it.  The key ["@default(NX_CHAR)"] with no nested
    value converts to [{"default": {"dtype": "str"}}]: its type fills the
    storage type.  The key ["@default"], with no type either, converts to
    [{"default": None}].  Whatever the attribute, its name is in the result
    and the value under it is not an empty mapping. *)
Theorem attribute_entry_present_never_empty :
  convert_level_attributes np scenario_B
  = Ok [("default", VDict [("dtype", VStr "str")])]
  /\ convert_level_attributes np scenario_B_untyped = Ok [("default", VNone)]
  /\ forall result attr r,
       convert_attribute np result attr = Ok r ->
       exists name entry,
         py_getitem attr "nx_name" = Ok (VStr name)
         /\ lookup name r = Some entry
         /\ entry <> VDict [].
Proof.
  split; [reflexivity|]. split; [reflexivity|].
  intros result attr r H. apply convert_attribute_inv in H.
  destruct H as (x & name & ad & d1 & d2 & -> & Hn & _ & _ & _ & ->).
  exists name, (attribute_entry ad). split; [|split].
  - unfold py_getitem. now rewrite Hn.
  - apply lookup_dict_set_eq.
  - unfold attribute_entry. destruct ad; simpl; discriminate.
Qed.

End Presence.

(** ** Induction on values *)

Section ValueInduction.

Variable P : value -> Prop.
Hypothesis HNone : P VNone.
Hypothesis HBool : forall b, P (VBool b).
Hypothesis HInt : forall z, P (VInt z).
Hypothesis HStr : forall s, P (VStr s).
Hypothesis HList : forall l, Forall P l -> P (VList l).
Hypothesis HDict : forall d, Forall (fun kv => P (snd kv)) d -> P (VDict d).

Fixpoint value_induction (v : value) : P v :=
  match v with
  | VNone => HNone
  | VBool b => HBool b
  | VInt z => HInt z
  | VStr s => HStr s
  | VList l =>
      HList ((fix all (l : list value) : Forall P l :=
                match l with
                | [] => Forall_nil P
                | x :: tl => Forall_cons x (value_induction x) (all tl)
                end) l)
  | VDict d =>
      HDict ((fix all (l : dict) : Forall (fun kv => P (snd kv)) l :=
                match l with
                | [] => Forall_nil _
                | (k, x) :: tl =>
                    Forall_cons (k, x) (value_induction x) (all tl)
                end) d)
  end.

End ValueInduction.

(** ** More on dictionaries *)

Lemma in_list_In (k : string) (l : list string) : in_list k l = true <-> In k l.
Proof.
  unfold in_list. rewrite existsb_exists. split.
  - intros (x & Hx & E). apply String.eqb_eq in E. now subst.
  - intros H. exists k. split; [assumption|apply String.eqb_refl].
Qed.

Lemma distinct_NoDup (l : list string) : distinct l = true <-> NoDup l.
Proof.
  induction l as [|k tl IH]; simpl.
  - split; [constructor|reflexivity].
  - rewrite andb_true_iff, negb_true_iff, IH. split.
    + intros [Hk Htl]. constructor; [|assumption].
      intros Hin. apply in_list_In in Hin. congruence.
    + intros H. inversion H; subst. split; [|assumption].
      destruct (in_list k tl) eqn:E; [|reflexivity].
      apply in_list_In in E. contradiction.
Qed.

Lemma lookup_None (k : string) (d : dict) : lookup k d = None <-> ~ In k (keys d).
Proof.
  induction d as [|[k' v] tl IH]; simpl.
  - tauto.
  - destruct (String.eqb_spec k k') as [->|Hne].
    + split; [discriminate|]. intros H. exfalso. auto.
    + rewrite IH. split; [intros H [E|Hin]; [congruence|auto]|tauto].
Qed.

Lemma lookup_In (k : string) (v : value) (d : dict) :
  lookup k d = Some v -> In (k, v) d.
Proof.
  induction d as [|[k' v'] tl IH]; simpl; [discriminate|].
  destruct (String.eqb_spec k k') as [->|Hne].
  - intros [= ->]. now left.
  - auto.
Qed.

Lemma In_lookup (k : string) (v : value) (d : dict) :
  NoDup (keys d) -> In (k, v) d -> lookup k d = Some v.
Proof.
  induction d as [|[k' v'] tl IH]; simpl; [tauto|].
  intros Hnd. inversion Hnd; subst. intros [E|Hin].
  - inversion E; subst. now rewrite String.eqb_refl.
  - destruct (String.eqb_spec k k') as [->|Hne]; [|auto].
    exfalso. apply H1. change k' with (fst (k', v)). now apply in_map.
Qed.

Lemma wf_dict (d : dict) :
  wf (VDict d) = true <->
  NoDup (keys d) /\ forall k v, In (k, v) d -> wf v = true.
Proof.
  cbn [wf]. rewrite andb_true_iff, distinct_NoDup, forallb_forall.
  split; intros [H1 H2]; (split; [assumption|]).
  - intros k v Hin. exact (H2 (k, v) Hin).
  - intros [k v] Hin. exact (H2 k v Hin).
Qed.

Lemma dict_set_fresh (d : dict) (k : string) (v : value) :
  lookup k d = None -> dict_set d k v = d ++ [(k, v)].
Proof.
  induction d as [|[k' v'] tl IH]; simpl; [reflexivity|].
  destruct (String.eqb_spec k k'); [discriminate|].
  intros H. now rewrite IH.
Qed.

Lemma lookup_app_None (k : string) (d1 d2 : dict) :
  lookup k (d1 ++ d2) = None <-> lookup k d1 = None /\ lookup k d2 = None.
Proof.
  rewrite !lookup_None. unfold keys. rewrite map_app, in_app_iff. tauto.
Qed.

Lemma deep_update_dict (d : value) (items : dict) :
  deep_update d (VDict items) = merge_items items d.
Proof.
  unfold deep_update at 1. fold deep_update. revert d.
  induction items as [|[k v] tl IH]; intro d; simpl; [reflexivity|].
  destruct (if is_dict v then _ else _); simpl; auto.
Qed.

(** ** [deep_update] *)

Lemma merge_items_fresh (l : dict) :
  Forall (fun kv => wf (snd kv) = true -> is_dict (snd kv) = true ->
                    deep_update (VDict []) (snd kv) = Ok (snd kv)) l ->
  NoDup (keys l) ->
  (forall k v, In (k, v) l -> wf v = true) ->
  forall acc,
    (forall k, In k (keys l) -> lookup k acc = None) ->
    merge_items l (VDict acc) = Ok (VDict (acc ++ l)).
Proof.
  induction l as [|[k v] tl IH]; intros HP Hnd Hwf acc Hfresh.
  - simpl. now rewrite app_nil_r.
  - inversion HP as [|? ? Hv HP']; subst. inversion Hnd as [|? ? Hk Hnd']; subst.
    cbn [snd] in Hv.
    assert (Hstep : (if is_dict v
                     then base <- py_get (VDict acc) k (VDict []) ;;
                          merged <- deep_update base v ;;
                          py_setitem (VDict acc) k merged
                     else py_setitem (VDict acc) k v)
                    = Ok (VDict (acc ++ [(k, v)]))).
    { assert (Hna : lookup k acc = None) by (apply Hfresh; now left).
      destruct (is_dict v) eqn:Hd.
      - unfold py_get. rewrite Hna. cbn [bind].
        rewrite Hv; [|apply (Hwf k v); now left|reflexivity].
        cbn [bind py_setitem]. now rewrite dict_set_fresh.
      - cbn [py_setitem]. now rewrite dict_set_fresh. }
    cbn [merge_items]. rewrite Hstep. cbn [bind].
    rewrite IH; auto.
    + now rewrite <- app_assoc.
    + intros k' v' Hin. apply (Hwf k' v'). now right.
    + intros k' Hin. apply lookup_app_None. split.
      * apply Hfresh. now right.
      * simpl. destruct (String.eqb_spec k' k); [subst; contradiction|reflexivity].
Qed.

(** Merging a well-formed dictionary into an empty one copies it. *)
Lemma deep_update_fresh (v : value) :
  wf v = true -> is_dict v = true -> deep_update (VDict []) v = Ok v.
Proof.
  induction v as [| | | |l _|d IH] using value_induction; try discriminate.
  intros Hwf _. rewrite deep_update_dict. apply wf_dict in Hwf.
  destruct Hwf as [Hnd Hwf].
  exact (merge_items_fresh IH Hnd Hwf [] (fun _ _ => eq_refl)).
Qed.

Lemma mergeable_dict (base items : dict) :
  mergeable (VDict base) (VDict items) = forallb (merge_check base) items.
Proof. reflexivity. Qed.

Lemma mergeable_is_dict (d u : value) :
  mergeable d u = true -> is_dict d = true /\ is_dict u = true.
Proof.
  destruct u, d; simpl; try discriminate; auto.
Qed.

Lemma merge_items_rules (l : dict) :
  Forall (fun kv => forall d, wf (snd kv) = true -> mergeable d (snd kv) = true ->
                    exists m, deep_update d (snd kv) = Ok (VDict m)) l ->
  NoDup (keys l) ->
  (forall k v, In (k, v) l -> wf v = true) ->
  forall acc,
    forallb (merge_check acc) l = true ->
    exists r, merge_items l (VDict acc) = Ok (VDict r) /\ merge_rules acc l r.
Proof.
  induction l as [|[k0 v0] tl IH]; intros HP Hnd Hwf acc Hc.
  - exists acc. split; [reflexivity|].
    repeat split; intros; try discriminate; auto.
  - inversion HP as [|? ? Hv HP']; subst. inversion Hnd as [|? ? Hk Hnd']; subst.
    cbn [snd] in Hv. cbn [forallb] in Hc. apply andb_true_iff in Hc.
    destruct Hc as [Hc0 Hc].
    assert (Hwf0 : wf v0 = true) by (apply (Hwf k0 v0); now left).
    assert (Hstep : exists x0,
               (if is_dict v0
                then base <- py_get (VDict acc) k0 (VDict []) ;;
                     merged <- deep_update base v0 ;;
                     py_setitem (VDict acc) k0 merged
                else py_setitem (VDict acc) k0 v0)
               = Ok (VDict (dict_set acc k0 x0))
               /\ (is_dict v0 = false -> x0 = v0)
               /\ (lookup k0 acc = None -> x0 = v0)
               /\ (forall d' u', v0 = VDict u' -> lookup k0 acc = Some (VDict d') ->
                     exists m, deep_update (VDict d') (VDict u') = Ok (VDict m)
                               /\ x0 = VDict m)).
    { unfold merge_check in Hc0. destruct (is_dict v0) eqn:Hd.
      - unfold py_get. destruct (lookup k0 acc) as [b|] eqn:Hb.
        + destruct (Hv b Hwf0 Hc0) as [m Hm]. exists (VDict m).
          cbn [bind]. rewrite Hm. cbn [bind py_setitem].
          repeat split; try discriminate.
          intros d' u' -> [= ->]. eauto.
        + exists v0. cbn [bind]. rewrite deep_update_fresh by assumption.
          cbn [bind py_setitem]. repeat split; try discriminate.
      - exists v0. cbn [py_setitem]. repeat split; try discriminate.
        intros d' u' ->. discriminate Hd. }
    destruct Hstep as (x0 & Hstep & Hx_scalar & Hx_fresh & Hx_both).
    assert (Hother : forall k, In k (keys tl) -> lookup k (dict_set acc k0 x0) = lookup k acc).
    { intros k Hin. apply lookup_dict_set_ne. intros ->. contradiction. }
    destruct (IH HP' Hnd' (fun k v H => Hwf k v (or_intror H)) (dict_set acc k0 x0))
      as (r & Hr & Ha & Hb & Hd & Hn).
    { rewrite forallb_forall in *. intros [k v] Hin. specialize (Hc _ Hin).
      unfold merge_check in *. rewrite Hother; [assumption|].
      change k with (fst (k, v)). now apply in_map. }
    exists r. split; [cbn [merge_items]; rewrite Hstep; exact Hr|].
    assert (Hk0 : lookup k0 r = Some x0).
    { rewrite Hn; [apply lookup_dict_set_eq|now apply lookup_None]. }
    assert (Hin_tl : forall k v, lookup k tl = Some v -> In k (keys tl)).
    { intros k v H. apply lookup_In in H. change k with (fst (k, v)).
      now apply in_map. }
    repeat split.
    + intros k v. cbn [lookup]. destruct (String.eqb_spec k k0) as [->|Hne].
      * intros [= <-] Hs. now rewrite Hk0, Hx_scalar.
      * apply Ha.
    + intros k d' u'. cbn [lookup]. destruct (String.eqb_spec k k0) as [->|Hne].
      * intros [= ->] Hacc. destruct (Hx_both d' u' eq_refl Hacc) as (m & Hm & ->).
        eauto.
      * intros Hl Hacc. apply Hb; [assumption|].
        rewrite Hother; [assumption|eauto].
    + intros k v. cbn [lookup]. destruct (String.eqb_spec k k0) as [->|Hne].
      * intros [= <-] Hacc. now rewrite Hk0, Hx_fresh.
      * intros Hl Hacc. apply Hd; [assumption|]. rewrite Hother; [assumption|eauto].
    + intros k. cbn [lookup]. destruct (String.eqb_spec k k0) as [->|Hne];
        [discriminate|].
      intros Hl. rewrite Hn by assumption. now apply lookup_dict_set_ne.
Qed.

Lemma deep_update_total (u : value) :
  forall d, wf u = true -> mergeable d u = true ->
            exists m, deep_update d u = Ok (VDict m).
Proof.
  induction u as [| | | |l _|l IH] using value_induction; intros d Hwf Hm;
    try (destruct (mergeable_is_dict _ _ Hm) as [_ H]; discriminate H).
  destruct (mergeable_is_dict _ _ Hm) as [Hd _].
  destruct d as [| | | | |acc]; try discriminate Hd.
  rewrite mergeable_dict in Hm. apply wf_dict in Hwf. destruct Hwf as [Hnd Hwf].
  destruct (merge_items_rules IH Hnd Hwf acc Hm) as (r & Hr & _).
  exists r. now rewrite deep_update_dict.
Qed.

(** C3, as the code has it.  For a base [d] and an override [u] such that
    no key holds a dictionary in [u] and something else in [d],
    [deep_update] returns a dictionary [r] in which: a key of [u] with a
    scalar or a list has the value of [u]; a key with a dictionary on
    both sides has the merge of the two; a key of one side only has the
    value of that side.  The merge of section 8 is as stated. *)
Theorem deep_update_merge_rules :
  (forall d u : dict,
     wf (VDict u) = true ->
     mergeable (VDict d) (VDict u) = true ->
     exists r,
       deep_update (VDict d) (VDict u) = Ok (VDict r) /\ merge_rules d u r)
  /\ deep_update merge_base merge_override = Ok merge_expected.
Proof.
  split; [|reflexivity].
  intros d u Hwf Hm. rewrite deep_update_dict.
  rewrite mergeable_dict in Hm. apply wf_dict in Hwf. destruct Hwf as [Hnd Hwf].
  apply merge_items_rules; auto.
  apply Forall_forall. intros [k v] _. cbn [snd]. intros d0.
  apply deep_update_total.
Qed.

(** C3, as stated, fails where the base has a scalar and the override a
    dictionary: the call raises, or keeps the scalar of the base. *)
Lemma deep_update_scalar_against_dict :
  deep_update (VDict [("a", VInt 1)]) (VDict [("a", VDict [("x", VInt 2)])])
  = Raise TypeError
  /\ deep_update (VDict [("a", VInt 1)]) (VDict [("a", VDict [])])
     = Ok (VDict [("a", VInt 1)]).
Proof. split; reflexivity. Qed.

(** ** [reduce_converted] *)

Lemma reduce_converted_dict (items : dict) :
  reduce_converted (VDict items)
  = if only_nxclass (keys (reduce_items items)) then [] else reduce_items items.
Proof.
  unfold reduce_converted at 1. fold reduce_converted.
  assert (H : forall l,
             (fix reduce_items (l : dict) : dict :=
                match l with
                | [] => []
                | (key, val) :: tl =>
                    if is_dict val
                    then
                      let reduced := reduce_converted val in
                      if truthy (VDict reduced)
                      then (key, VDict reduced) :: reduce_items tl
                      else reduce_items tl
                    else (key, val) :: reduce_items tl
                end) l = reduce_items l).
  { induction l as [|[k v] tl IH]; [reflexivity|].
    cbn [reduce_items]. rewrite <- IH. reflexivity. }
  now rewrite H.
Qed.

Lemma truthy_dict_false (d : dict) : truthy (VDict d) = false <-> d = [].
Proof.
  destruct d; simpl; split; intros H; try reflexivity; discriminate H.
Qed.

(** The loop keeps the items that are not mappings, and the mappings that
    do not reduce to nothing, reduced. *)
Lemma reduce_items_In (items : dict) (key : string) (val : value) :
  In (key, val) (reduce_items items) <->
  exists v,
    In (key, v) items
    /\ ((is_dict v = false /\ val = v)
        \/ (is_dict v = true /\ val = VDict (reduce_converted v)
            /\ reduce_converted v <> [])).
Proof.
  induction items as [|[k x] tl IH]; cbn [reduce_items].
  - split; [intros []|intros (v & [] & _)].
  - destruct (is_dict x) eqn:Hd; [destruct (truthy (VDict (reduce_converted x))) eqn:Ht|].
    + cbn [In]. rewrite IH. split.
      * intros [E|(v & Hin & Hv)].
        -- inversion E; subst. exists x. split; [now left|]. right.
           repeat split; auto. intros Hn. rewrite Hn in Ht. discriminate Ht.
        -- exists v. split; [now right|assumption].
      * intros (v & [E|Hin] & Hv).
        -- inversion E; subst. left.
           destruct Hv as [[Hf _]|(_ & -> & _)]; [congruence|reflexivity].
        -- right. eauto.
    + rewrite IH. apply truthy_dict_false in Ht. split.
      * intros (v & Hin & Hv). exists v. split; [now right|assumption].
      * intros (v & [E|Hin] & Hv).
        -- inversion E; subst.
           destruct Hv as [[Hf _]|(_ & _ & Hn)]; [congruence|contradiction].
        -- eauto.
    + cbn [In]. rewrite IH. split.
      * intros [E|(v & Hin & Hv)].
        -- inversion E; subst. exists val. split; [now left|]. left. auto.
        -- exists v. split; [now right|assumption].
      * intros (v & [E|Hin] & Hv).
        -- inversion E; subst. left.
           destruct Hv as [[_ ->]|(Ht & _)]; [reflexivity|congruence].
        -- right. eauto.
Qed.

Lemma reduce_converted_keys (items : dict) (key : string) :
  In key (keys (reduce_converted (VDict items))) ->
  In key (keys (reduce_items items)).
Proof.
  rewrite reduce_converted_dict.
  destruct (only_nxclass (keys (reduce_items items))); [intros []|auto].
Qed.

Lemma reduce_items_vacuous (items : dict) :
  Forall (fun kv => vacuous (snd kv) = true -> reduce_converted (snd kv) = []) items ->
  vacuous (VDict items) = true ->
  forallb (String.eqb "nxclass") (keys (reduce_items items)) = true.
Proof.
  cbn [vacuous].
  induction items as [|[k x] tl IH]; intros HP Hv; [reflexivity|].
  inversion HP as [|? ? Hx HP']; subst. cbn [snd] in Hx.
  cbn [forallb] in Hv. apply andb_true_iff in Hv. destruct Hv as [Hk Htl].
  cbn [reduce_items]. destruct (is_dict x).
  - rewrite (Hx Hk). cbn [truthy List.length Nat.eqb negb]. auto.
  - cbn [keys map fst forallb]. rewrite Hk. cbn [andb]. apply IH; auto.
Qed.

Lemma reduce_converted_vacuous (v : value) :
  vacuous v = true -> reduce_converted v = [].
Proof.
  induction v as [| | | |l _|items IH] using value_induction; try discriminate.
  intros Hv. rewrite reduce_converted_dict.
  pose proof (reduce_items_vacuous IH Hv) as Hall. unfold only_nxclass.
  rewrite Hall. destruct (reduce_items items); reflexivity.
Qed.

Lemma nested_group_vacuous (n : nat) : vacuous (nested_group n) = true.
Proof.
  induction n as [|n IH]; [reflexivity|].
  cbn [nested_group vacuous forallb is_dict]. fold vacuous. rewrite IH.
  destruct n; reflexivity.
Qed.

Lemma reduce_converted_drops_key (items : dict) (key : string) (x : value) :
  NoDup (keys items) -> In (key, x) items -> vacuous x = true ->
  ~ In key (keys (reduce_converted (VDict items))).
Proof.
  intros Hnd Hin Hv Hk. apply reduce_converted_keys in Hk.
  unfold keys in Hk. apply in_map_iff in Hk. destruct Hk as ([k val] & E & Hk).
  cbn [fst] in E. subst k. apply reduce_items_In in Hk.
  destruct Hk as (v & Hin' & Hcase).
  assert (v = x) as ->.
  { apply In_lookup in Hin, Hin'; auto. congruence. }
  destruct Hcase as [[Hf _]|(_ & _ & Hn)].
  - destruct x; discriminate.
  - apply Hn. now apply reduce_converted_vacuous.
Qed.

Lemma nested_group_reduces (n : nat) :
  reduce_converted (nested_group n) = []
  /\ reduce_converted
       (VDict [("entry",
                VDict [("nxclass", VStr "NXentry");
                       ("title", VStr "scan");
                       ("sample", nested_group n)])])
     = [("entry", VDict [("nxclass", VStr "NXentry"); ("title", VStr "scan")])].
Proof.
  pose proof (reduce_converted_vacuous _ (nested_group_vacuous n)) as Hn.
  split; [exact Hn|].
  rewrite reduce_converted_dict. cbn [reduce_items is_dict].
  assert (Hd : is_dict (nested_group n) = true) by (destruct n; reflexivity).
  rewrite reduce_converted_dict. cbn [reduce_items is_dict]. rewrite Hd, Hn.
  reflexivity.
Qed.

Unset Implicit Arguments.

(** ** The order of strings and [sorted] *)

Lemma leb_trans (s1 s2 s3 : string) :
  String.leb s1 s2 = true -> String.leb s2 s3 = true -> String.leb s1 s3 = true.
Proof.
  unfold String.leb. revert s2 s3.
  induction s1 as [|c1 s1 IH]; intros [|c2 s2] [|c3 s3]; simpl;
    try (intros; reflexivity); try (intros; discriminate).
  unfold Ascii.compare.
  destruct (N.compare_spec (N_of_ascii c1) (N_of_ascii c2)) as [E12|L12|G12];
    destruct (N.compare_spec (N_of_ascii c2) (N_of_ascii c3)) as [E23|L23|G23];
    destruct (N.compare_spec (N_of_ascii c1) (N_of_ascii c3)) as [E13|L13|G13];
    try lia; try (intros; reflexivity); try (intros; discriminate).
  apply IH.
Qed.

Lemma leb_refl (s : string) : String.leb s s = true.
Proof.
  destruct (String.leb_total s s); assumption.
Qed.

Lemma insert_sorted_perm (k : string) (l : list string) :
  Permutation (insert_sorted k l) (k :: l).
Proof.
  induction l as [|h tl IH]; simpl; [reflexivity|].
  destruct (String.leb k h); [reflexivity|].
  rewrite IH. apply perm_swap.
Qed.

Lemma sorted_perm (l : list string) : Permutation (sorted l) l.
Proof.
  induction l as [|h tl IH]; simpl; [reflexivity|].
  rewrite insert_sorted_perm. now constructor.
Qed.

Lemma insert_sorted_sorted (k : string) (l : list string) :
  StronglySorted str_le l -> StronglySorted str_le (insert_sorted k l).
Proof.
  induction l as [|h tl IH]; intros Hs; simpl.
  - constructor; constructor.
  - inversion Hs as [|? ? Htl Hh]; subst.
    destruct (String.leb k h) eqn:E.
    + constructor; [assumption|]. constructor; [exact E|].
      eapply Forall_impl; [|exact Hh]. intros a Ha. exact (leb_trans _ _ _ E Ha).
    + constructor; [auto|].
      assert (Hhk : String.leb h k = true).
      { destruct (String.leb_total k h); congruence. }
      eapply Permutation_Forall; [symmetry; apply insert_sorted_perm|].
      constructor; assumption.
Qed.

Lemma sorted_sorted (l : list string) : StronglySorted str_le (sorted l).
Proof.
  induction l as [|h tl IH]; simpl; [constructor|].
  now apply insert_sorted_sorted.
Qed.

Lemma sorted_In (k : string) (l : list string) : In k (sorted l) <-> In k l.
Proof.
  split; apply Permutation_in; [apply sorted_perm|symmetry; apply sorted_perm].
Qed.

(** On a list that is in order already, [sorted] changes nothing. *)
Lemma sorted_id (l : list string) : StronglySorted str_le l -> sorted l = l.
Proof.
  induction 1 as [|h tl Htl IH Hh]; simpl; [reflexivity|].
  rewrite IH. destruct tl as [|h' tl']; [reflexivity|].
  simpl. inversion Hh as [|? ? Hle _]; subst. unfold str_le in Hle. now rewrite Hle.
Qed.

Lemma StronglySorted_app {A : Type} (R : A -> A -> Prop) (l1 l2 : list A) :
  StronglySorted R l1 -> StronglySorted R l2 ->
  (forall a b, In a l1 -> In b l2 -> R a b) ->
  StronglySorted R (l1 ++ l2).
Proof.
  induction l1 as [|a tl IH]; intros H1 H2 Hc; simpl; [assumption|].
  inversion H1 as [|? ? Htl Ha]; subst. constructor.
  - apply IH; auto. intros x y Hx Hy. apply Hc; [now right|assumption].
  - apply Forall_app. split; [assumption|].
    apply Forall_forall. intros b Hb. apply Hc; [now left|assumption].
Qed.

Lemma StronglySorted_NoDup {A : Type} (R : A -> A -> Prop) (l : list A) :
  (forall a, ~ R a a) -> StronglySorted R l -> NoDup l.
Proof.
  intros Hirr. induction 1 as [|a tl Htl IH Ha]; constructor; [|assumption].
  intros Hin. rewrite Forall_forall in Ha. exact (Hirr a (Ha a Hin)).
Qed.

(** Two lists in strict order with the same elements are the same list. *)
Lemma StronglySorted_unique {A : Type} (R : A -> A -> Prop) (l1 l2 : list A) :
  (forall a b, R a b -> R b a -> False) ->
  StronglySorted R l1 -> StronglySorted R l2 -> Permutation l1 l2 -> l1 = l2.
Proof.
  intros Hasym. revert l2.
  induction l1 as [|a tl IH]; intros l2 H1 H2 Hp.
  - apply Permutation_nil in Hp. now subst.
  - destruct l2 as [|b tl2]; [symmetry in Hp; now apply Permutation_nil in Hp|].
    inversion H1 as [|? ? Htl Ha]; subst. inversion H2 as [|? ? Htl2 Hb]; subst.
    rewrite Forall_forall in Ha, Hb.
    assert (a = b) as ->.
    { assert (Hab : In a (b :: tl2)) by (eapply Permutation_in; [exact Hp|now left]).
      assert (Hba : In b (a :: tl))
        by (eapply Permutation_in; [symmetry; exact Hp|now left]).
      destruct Hab as [E|Hab]; [now subst|].
      destruct Hba as [E|Hba]; [now subst|].
      exfalso. exact (Hasym a b (Ha b Hba) (Hb a Hab)). }
    f_equal. apply IH; auto. now apply Permutation_cons_inv in Hp.
Qed.

Lemma StronglySorted_strict (l : list string) :
  NoDup l -> StronglySorted str_le l -> StronglySorted str_lt l.
Proof.
  intros Hnd. induction 1 as [|a tl Htl IH Ha]; [constructor|].
  inversion Hnd; subst. constructor; [auto|].
  rewrite Forall_forall in *. intros b Hb. split; [exact (Ha b Hb)|].
  intros ->. contradiction.
Qed.

(** ** The key lists of [sort_converted] *)

Lemma item_In (d : dict) (k : string) (v : value) :
  NoDup (keys d) -> In (k, v) d -> item d k = v.
Proof.
  intros Hnd Hin. unfold item. now rewrite (In_lookup _ _ _ Hnd Hin).
Qed.

Lemma In_keys (d : dict) (k : string) (v : value) : In (k, v) d -> In k (keys d).
Proof.
  intros H. change k with (fst (k, v)). now apply in_map.
Qed.

Lemma keys_In (d : dict) (k : string) :
  In k (keys d) -> exists v, In (k, v) d.
Proof.
  unfold keys. rewrite in_map_iff. intros ([k' v] & E & H). simpl in E. subst. eauto.
Qed.

Lemma mem_true (d : dict) (k : string) : mem k d = true <-> In k (keys d).
Proof.
  unfold mem. destruct (lookup k d) eqn:E.
  - split; [intros _|reflexivity].
    apply lookup_In in E. eapply In_keys; eauto.
  - split; [discriminate|]. intros H. apply lookup_None in E. contradiction.
Qed.

Lemma first_keys_In (d : dict) (k : string) :
  In k (first_keys d) <-> k = "nxclass" /\ In "nxclass" (keys d).
Proof.
  unfold first_keys. rewrite filter_In, mem_true. simpl.
  split; [intros [[<-|[]] H]; auto|intros [-> H]; auto].
Qed.

Lemma last_keys_In (d : dict) (k : string) :
  In k (last_keys d) <-> k = "attrs" /\ In "attrs" (keys d).
Proof.
  unfold last_keys. rewrite filter_In, mem_true. simpl.
  split; [intros [[<-|[]] H]; auto|intros [-> H]; auto].
Qed.

Lemma in_list_false (k : string) (l : list string) :
  in_list k l = false <-> ~ In k l.
Proof.
  rewrite <- in_list_In. destruct (in_list k l); split; congruence.
Qed.

Lemma string_keys_In (d : dict) (k : string) :
  In k (string_keys d) <->
  exists v, In (k, v) d /\ is_dict v = false /\ k <> "nxclass" /\ k <> "attrs".
Proof.
  unfold string_keys, keys. rewrite in_map_iff. split.
  - intros ([k' v] & E & H). simpl in E. subst k'.
    apply filter_In in H. destruct H as [Hin H]. cbn [fst snd] in H.
    apply andb_true_iff in H. destruct H as [Hd Hn].
    apply negb_true_iff in Hd, Hn. apply in_list_false in Hn.
    exists v. repeat split; auto.
    + intros ->. apply Hn, in_or_app. left. apply first_keys_In.
      split; [reflexivity|eapply In_keys; eauto].
    + intros ->. apply Hn, in_or_app. right. apply last_keys_In.
      split; [reflexivity|eapply In_keys; eauto].
  - intros (v & Hin & Hd & Hn1 & Hn2). exists (k, v). split; [reflexivity|].
    apply filter_In. split; [assumption|]. cbn [fst snd]. rewrite Hd. cbn [negb andb].
    apply negb_true_iff, in_list_false. intros H. apply in_app_or in H.
    destruct H as [H|H]; [apply first_keys_In in H|apply last_keys_In in H]; tauto.
Qed.

Lemma group_keys_In (d : dict) (k : string) :
  NoDup (keys d) ->
  In k (group_keys d) <->
  exists v, In (k, v) d /\ is_dict v = true /\ not_a_field v = true
            /\ k <> "nxclass" /\ k <> "attrs".
Proof.
  intros Hnd. unfold group_keys. unfold keys at 1. rewrite in_map_iff. split.
  - intros ([k' v] & E & H). simpl in E. subst k'.
    apply filter_In in H. destruct H as [Hin H]. cbn [fst snd] in H.
    apply andb_true_iff in H. destruct H as [Hn Hf].
    apply negb_true_iff, in_list_false in Hn.
    assert (Hn1 : k <> "nxclass").
    { intros ->. apply Hn, in_or_app. left. apply first_keys_In.
      split; [reflexivity|eapply In_keys; eauto]. }
    assert (Hn2 : k <> "attrs").
    { intros ->. apply Hn, in_or_app. right. apply in_or_app. left.
      apply last_keys_In. split; [reflexivity|eapply In_keys; eauto]. }
    exists v. repeat split; auto.
    destruct (is_dict v) eqn:Hd; [reflexivity|]. exfalso.
    apply Hn, in_or_app. right. apply in_or_app. right.
    apply string_keys_In. eauto.
  - intros (v & Hin & Hd & Hf & Hn1 & Hn2). exists (k, v). split; [reflexivity|].
    apply filter_In. split; [assumption|]. cbn [fst snd]. rewrite Hf, andb_true_r.
    apply negb_true_iff, in_list_false. intros H.
    apply in_app_or in H. destruct H as [H|H]; [apply first_keys_In in H; tauto|].
    apply in_app_or in H. destruct H as [H|H]; [apply last_keys_In in H; tauto|].
    apply string_keys_In in H. destruct H as (v' & Hin' & Hd' & _).
    assert (v' = v) by (rewrite <- (item_In _ _ _ Hnd Hin'); now apply item_In).
    congruence.
Qed.

Lemma other_keys_In (d : dict) (k : string) :
  NoDup (keys d) ->
  In k (other_keys d) <->
  exists v, In (k, v) d /\ is_dict v = true /\ not_a_field v = false
            /\ k <> "nxclass" /\ k <> "attrs".
Proof.
  intros Hnd. unfold other_keys. rewrite filter_In, negb_true_iff, in_list_false.
  split.
  - intros [Hk Hn]. destruct (keys_In _ _ Hk) as [v Hin].
    assert (Hn1 : k <> "nxclass").
    { intros ->. apply Hn, in_or_app. left. apply first_keys_In. auto. }
    assert (Hn2 : k <> "attrs").
    { intros ->. apply Hn, in_or_app. right. apply in_or_app. left.
      apply last_keys_In. auto. }
    assert (Hd : is_dict v = true).
    { destruct (is_dict v) eqn:Hd; [reflexivity|]. exfalso.
      apply Hn, in_or_app. right. apply in_or_app. right. apply in_or_app. left.
      apply string_keys_In. eauto. }
    exists v. repeat split; auto.
    destruct (not_a_field v) eqn:Hf; [|reflexivity]. exfalso.
    apply Hn, in_or_app. right. apply in_or_app. right. apply in_or_app. right.
    apply group_keys_In; [assumption|]. exists v. auto.
  - intros (v & Hin & Hd & Hf & Hn1 & Hn2). split; [eapply In_keys; eauto|].
    intros H.
    apply in_app_or in H. destruct H as [H|H]; [apply first_keys_In in H; tauto|].
    apply in_app_or in H. destruct H as [H|H]; [apply last_keys_In in H; tauto|].
    apply in_app_or in H. destruct H as [H|H].
    + apply string_keys_In in H. destruct H as (v' & Hin' & Hd' & _).
      assert (v' = v) by (rewrite <- (item_In _ _ _ Hnd Hin'); now apply item_In).
      congruence.
    + apply group_keys_In in H; [|assumption].
      destruct H as (v' & Hin' & _ & Hf' & _).
      assert (v' = v) by (rewrite <- (item_In _ _ _ Hnd Hin'); now apply item_In).
      congruence.
Qed.

Lemma rank_first (d : dict) (k : string) : In k (first_keys d) -> key_rank d k = 0.
Proof.
  intros H. apply first_keys_In in H. destruct H as [-> _]. reflexivity.
Qed.

Lemma rank_last (d : dict) (k : string) : In k (last_keys d) -> key_rank d k = 4.
Proof.
  intros H. apply last_keys_In in H. destruct H as [-> _]. reflexivity.
Qed.

Lemma rank_of (k : string) (v : value) :
  k <> "nxclass" -> k <> "attrs" ->
  rank k v = if negb (is_dict v) then 1 else if not_a_field v then 2 else 3.
Proof.
  intros H1 H2. unfold rank.
  destruct (String.eqb_spec k "nxclass"); [contradiction|].
  destruct (String.eqb_spec k "attrs"); [contradiction|]. reflexivity.
Qed.

Lemma rank_string (d : dict) (k : string) :
  NoDup (keys d) -> In k (string_keys d) -> key_rank d k = 1.
Proof.
  intros Hnd H. apply string_keys_In in H. destruct H as (v & Hin & Hd & H1 & H2).
  unfold key_rank. rewrite (item_In _ _ _ Hnd Hin), rank_of by assumption.
  now rewrite Hd.
Qed.

Lemma rank_group (d : dict) (k : string) :
  NoDup (keys d) -> In k (group_keys d) -> key_rank d k = 2.
Proof.
  intros Hnd H. apply group_keys_In in H; [|assumption].
  destruct H as (v & Hin & Hd & Hf & H1 & H2).
  unfold key_rank. rewrite (item_In _ _ _ Hnd Hin), rank_of by assumption.
  now rewrite Hd, Hf.
Qed.

Lemma rank_other (d : dict) (k : string) :
  NoDup (keys d) -> In k (other_keys d) -> key_rank d k = 3.
Proof.
  intros Hnd H. apply other_keys_In in H; [|assumption].
  destruct H as (v & Hin & Hd & Hf & H1 & H2).
  unfold key_rank. rewrite (item_In _ _ _ Hnd Hin), rank_of by assumption.
  now rewrite Hd, Hf.
Qed.

Lemma NoDup_keys_filter (keep : string * value -> bool) (d : dict) :
  NoDup (keys d) -> NoDup (keys (filter keep d)).
Proof.
  induction d as [|[k v] tl IH]; intros Hnd; [exact Hnd|].
  inversion Hnd as [|? ? Hk Htl]; subst. cbn [filter].
  destruct (keep (k, v)); [|auto].
  cbn [keys map fst]. constructor; [|exact (IH Htl)].
  intros Hin. apply Hk. destruct (keys_In _ _ Hin) as [x Hx].
  apply filter_In in Hx. eapply In_keys. exact (proj1 Hx).
Qed.

Lemma NoDup_first_keys (d : dict) : NoDup (first_keys d).
Proof.
  unfold first_keys. simpl. destruct (mem "nxclass" d); repeat constructor; auto.
Qed.

Lemma NoDup_last_keys (d : dict) : NoDup (last_keys d).
Proof.
  unfold last_keys. simpl. destruct (mem "attrs" d); repeat constructor; auto.
Qed.

Lemma key_before_irrefl (d : dict) (k : string) : ~ key_before d k k.
Proof.
  intros [H|(_ & _ & H)]; [lia|congruence].
Qed.

Lemma key_before_asym (d : dict) (a b : string) :
  key_before d a b -> key_before d b a -> False.
Proof.
  intros [H1|(E1 & L1 & N1)] [H2|(E2 & L2 & N2)]; try lia.
  apply N1. now apply String.leb_antisym.
Qed.

(** A list of keys of one rank, in the strict order of strings, is in the
    order of [key_before]. *)
Lemma same_rank_sorted (d : dict) (i : nat) (l : list string) :
  (forall k, In k l -> key_rank d k = i) ->
  StronglySorted str_lt l -> StronglySorted (key_before d) l.
Proof.
  intros Hr. induction 1 as [|a tl Htl IH Ha]; [constructor|].
  constructor.
  - apply IH. intros k Hk. apply Hr. now right.
  - rewrite Forall_forall in *. intros b Hb. right.
    destruct (Ha b Hb) as [Hle Hne]. repeat split; auto.
    rewrite (Hr a), (Hr b); [reflexivity|now right|now left].
Qed.

Lemma sorted_segment (d : dict) (i : nat) (l : list string) :
  NoDup l -> (forall k, In k l -> key_rank d k = i) ->
  StronglySorted (key_before d) (sorted l).
Proof.
  intros Hnd Hr. apply (same_rank_sorted d i).
  - intros k Hk. apply Hr. now apply sorted_In.
  - apply StronglySorted_strict; [|apply sorted_sorted].
    eapply Permutation_NoDup; [symmetry; apply sorted_perm|assumption].
Qed.

Lemma short_segment (d : dict) (l : list string) :
  (List.length l <= 1)%nat -> StronglySorted (key_before d) l.
Proof.
  destruct l as [|a [|b tl]]; simpl; intros H; try lia; repeat constructor.
Qed.

Lemma sorted_keys_sorted (d : dict) :
  NoDup (keys d) -> StronglySorted (key_before d) (sorted_keys d).
Proof.
  intros Hnd. unfold sorted_keys.
  pose proof (rank_first d) as R0.
  pose proof (fun k => rank_string d k Hnd) as R1.
  pose proof (fun k => rank_group d k Hnd) as R2.
  pose proof (fun k => rank_other d k Hnd) as R3.
  pose proof (rank_last d) as R4.
  assert (S0 : StronglySorted (key_before d) (first_keys d)).
  { apply short_segment. unfold first_keys. simpl. destruct (mem _ d); simpl; lia. }
  assert (S4 : StronglySorted (key_before d) (last_keys d)).
  { apply short_segment. unfold last_keys. simpl. destruct (mem _ d); simpl; lia. }
  assert (S1 : StronglySorted (key_before d) (sorted (string_keys d))).
  { apply (sorted_segment d 1); [|assumption].
    unfold string_keys. now apply NoDup_keys_filter. }
  assert (S2 : StronglySorted (key_before d) (sorted (group_keys d))).
  { apply (sorted_segment d 2); [|assumption].
    unfold group_keys. now apply NoDup_keys_filter. }
  assert (S3 : StronglySorted (key_before d) (sorted (other_keys d))).
  { apply (sorted_segment d 3); [|assumption].
    unfold other_keys. now apply NoDup_filter. }
  assert (C : forall l1 l2,
             StronglySorted (key_before d) l1 -> StronglySorted (key_before d) l2 ->
             (forall a b, In a l1 -> In b l2 -> key_rank d a < key_rank d b) ->
             StronglySorted (key_before d) (l1 ++ l2)).
  { intros l1 l2 H1 H2 Hc. apply StronglySorted_app; auto.
    intros a b Ha Hb. left. auto. }
  apply C; [exact S0| |];
    [apply C; [exact S1| |];
     [apply C; [exact S2| |]; [apply C; [exact S3|exact S4|]|]|]|];
    intros a b Ha Hb;
    repeat match goal with
           | H : In _ (_ ++ _) |- _ => apply in_app_or in H; destruct H as [H|H]
           | H : In _ (sorted _) |- _ => apply (proj1 (sorted_In _ _)) in H
           end;
    repeat match goal with
           | H : In ?k (first_keys d) |- _ => apply R0 in H
           | H : In ?k (string_keys d) |- _ => apply R1 in H
           | H : In ?k (group_keys d) |- _ => apply R2 in H
           | H : In ?k (other_keys d) |- _ => apply R3 in H
           | H : In ?k (last_keys d) |- _ => apply R4 in H
           end; lia.
Qed.

Lemma sorted_keys_In (d : dict) (k : string) :
  NoDup (keys d) -> In k (sorted_keys d) <-> In k (keys d).
Proof.
  intros Hnd. unfold sorted_keys. rewrite !in_app_iff, !sorted_In. split.
  - intros [H|[H|[H|[H|H]]]].
    + apply first_keys_In in H. now destruct H as [-> H].
    + apply string_keys_In in H. destruct H as (v & H & _). eapply In_keys; eauto.
    + apply group_keys_In in H; [|assumption].
      destruct H as (v & H & _). eapply In_keys; eauto.
    + apply other_keys_In in H; [|assumption].
      destruct H as (v & H & _). eapply In_keys; eauto.
    + apply last_keys_In in H. now destruct H as [-> H].
  - intros Hk. destruct (keys_In _ _ Hk) as [v Hin].
    destruct (String.eqb_spec k "nxclass") as [->|H1];
      [left; apply first_keys_In; auto|].
    destruct (String.eqb_spec k "attrs") as [->|H2];
      [do 4 right; apply last_keys_In; auto|].
    destruct (is_dict v) eqn:Hd; [|right; left; apply string_keys_In; eauto].
    destruct (not_a_field v) eqn:Hf.
    + right; right; left. apply group_keys_In; [assumption|]. exists v. auto.
    + do 3 right; left. apply other_keys_In; [assumption|]. exists v. auto.
Qed.

Lemma sorted_keys_perm (d : dict) :
  NoDup (keys d) -> Permutation (sorted_keys d) (keys d).
Proof.
  intros Hnd. apply NoDup_Permutation; [|assumption|].
  - eapply StronglySorted_NoDup; [apply key_before_irrefl|].
    now apply sorted_keys_sorted.
  - intros k. now apply sorted_keys_In.
Qed.

(** ** [reorder] and [sort_converted] *)

Lemma keys_reorder (d : dict) : keys (reorder d) = sorted_keys d.
Proof.
  unfold reorder, keys. rewrite map_map. simpl. apply map_id.
Qed.

Lemma lookup_map_keys (f : string -> value) (ks : list string) (k : string) :
  lookup k (map (fun k => (k, f k)) ks) = if in_list k ks then Some (f k) else None.
Proof.
  induction ks as [|h tl IH]; simpl; [reflexivity|].
  destruct (String.eqb_spec k h) as [->|Hne]; simpl; [reflexivity|exact IH].
Qed.

Lemma lookup_reorder (d : dict) (k : string) :
  NoDup (keys d) -> lookup k (reorder d) = lookup k d.
Proof.
  intros Hnd. unfold reorder. rewrite lookup_map_keys.
  destruct (in_list k (sorted_keys d)) eqn:E.
  - apply in_list_In, sorted_keys_In in E; [|assumption].
    destruct (keys_In _ _ E) as [v Hin].
    unfold item. now rewrite (In_lookup _ _ _ Hnd Hin).
  - apply in_list_false in E. symmetry. apply lookup_None.
    intros H. apply E. now apply sorted_keys_In.
Qed.

Lemma sort_converted_dict (items : dict) :
  sort_converted (VDict items) = reorder (sort_items items).
Proof.
  unfold sort_converted at 1. fold sort_converted. reflexivity.
Qed.

Lemma sort_items_map (items : dict) :
  sort_items items = map (fun kv => (fst kv, sort_value (snd kv))) items.
Proof.
  induction items as [|[k v] tl IH]; [reflexivity|].
  cbn [sort_items map fst snd]. now rewrite IH.
Qed.

Lemma keys_sort_items (items : dict) : keys (sort_items items) = keys items.
Proof.
  rewrite sort_items_map. unfold keys. rewrite map_map. reflexivity.
Qed.

Lemma lookup_sort_items (items : dict) (k : string) :
  lookup k (sort_items items) = option_map sort_value (lookup k items).
Proof.
  induction items as [|[k' v] tl IH]; [reflexivity|].
  cbn [sort_items lookup]. destruct (String.eqb k k'); [reflexivity|exact IH].
Qed.

Lemma wf_children (d : dict) (k : string) (v : value) :
  wf (VDict d) = true -> In (k, v) d -> wf v = true.
Proof.
  intros H Hin. apply wf_dict in H. destruct H as [_ H]. eauto.
Qed.

Lemma wf_NoDup (d : dict) : wf (VDict d) = true -> NoDup (keys d).
Proof.
  intros H. apply wf_dict in H. tauto.
Qed.

Lemma not_a_field_sort_value (v : value) :
  wf v = true -> not_a_field (sort_value v) = not_a_field v.
Proof.
  destruct v as [| | | | |iv]; try reflexivity.
  intros Hwf. unfold sort_value. cbn [is_dict not_a_field].
  rewrite sort_converted_dict, lookup_reorder
    by (rewrite keys_sort_items; now apply wf_NoDup).
  rewrite lookup_sort_items.
  destruct (lookup "nxclass" iv) as [[| | | | |c]|]; reflexivity.
Qed.

Lemma rank_sort_value (k : string) (v : value) :
  wf v = true -> rank k (sort_value v) = rank k v.
Proof.
  intros Hwf. unfold rank. rewrite not_a_field_sort_value by assumption.
  destruct v; reflexivity.
Qed.

Lemma item_sort_items (items : dict) (k : string) :
  item (sort_items items) k = sort_value (item items k).
Proof.
  unfold item. rewrite lookup_sort_items.
  destruct (lookup k items); reflexivity.
Qed.

Lemma wf_item (d : dict) (k : string) : wf (VDict d) = true -> wf (item d k) = true.
Proof.
  intros H. unfold item. destruct (lookup k d) as [v|] eqn:E; [|reflexivity].
  apply lookup_In in E. eapply wf_children; eauto.
Qed.

Lemma key_rank_sort_items (items : dict) (k : string) :
  wf (VDict items) = true -> key_rank (sort_items items) k = key_rank items k.
Proof.
  intros H. unfold key_rank. rewrite item_sort_items.
  apply rank_sort_value. now apply wf_item.
Qed.

Lemma StronglySorted_impl {A : Type} (R R' : A -> A -> Prop) (l : list A) :
  (forall a b, R a b -> R' a b) -> StronglySorted R l -> StronglySorted R' l.
Proof.
  intros HR. induction 1 as [|a tl Htl IH Ha]; constructor; [assumption|].
  eapply Forall_impl; [|exact Ha]. intros b. apply HR.
Qed.

(** C6.  For a mapping [items], the keys of [sort_converted] are those of
    [items], in the order of [key_before]: first the class tag (rank 0),
    then the keys whose value is not a mapping (rank 1) in the order of
    strings, then the keys of the mappings that are not fields (rank 2)
    in that order, then those of the fields (rank 3), last the attributes
    (rank 4); each key has its value, sorted in the same way. *)
Theorem sort_converted_order (items : dict) :
  wf (VDict items) = true ->
  Permutation (keys (sort_converted (VDict items))) (keys items)
  /\ StronglySorted (key_before items) (keys (sort_converted (VDict items)))
  /\ (forall k,
        lookup k (sort_converted (VDict items))
        = option_map sort_value (lookup k items))
  /\ keys (sort_converted (VDict items))
     = first_keys (sort_items items)
       ++ sorted (string_keys (sort_items items))
       ++ sorted (group_keys (sort_items items))
       ++ sorted (other_keys (sort_items items))
       ++ last_keys (sort_items items)
  /\ (In "nxclass" (keys items) ->
      exists rest, keys (sort_converted (VDict items)) = "nxclass" :: rest)
  /\ (In "attrs" (keys items) ->
      exists rest, keys (sort_converted (VDict items)) = rest ++ ["attrs"]).
Proof.
  intros Hwf. pose proof (wf_NoDup _ Hwf) as Hnd.
  assert (Hnd' : NoDup (keys (sort_items items))) by now rewrite keys_sort_items.
  rewrite sort_converted_dict, keys_reorder.
  split; [|split; [|split; [|split; [|split]]]].
  - rewrite <- (keys_sort_items items). now apply sorted_keys_perm.
  - eapply StronglySorted_impl; [|apply sorted_keys_sorted; exact Hnd'].
    intros a b. unfold key_before.
    now rewrite !key_rank_sort_items by assumption.
  - intros k. rewrite lookup_reorder by assumption. apply lookup_sort_items.
  - reflexivity.
  - intros Hin. unfold sorted_keys, first_keys. cbn [filter].
    rewrite <- (keys_sort_items items) in Hin. apply mem_true in Hin.
    rewrite Hin. eexists. reflexivity.
  - intros Hin. unfold sorted_keys, last_keys. cbn [filter].
    rewrite <- (keys_sort_items items) in Hin. apply mem_true in Hin.
    rewrite Hin. eexists. rewrite !app_assoc. reflexivity.
Qed.

(** ** References *)

Lemma mapM_id {A : Type} (f : A -> exc A) (l : list A) :
  (forall a, In a l -> f a = Ok a) -> mapM f l = Ok l.
Proof.
  induction l as [|a tl IH]; intros H; [reflexivity|].
  cbn [mapM]. rewrite (H a) by now left. cbn [bind].
  rewrite IH; [reflexivity|]. intros x Hx. apply H. now right.
Qed.

Lemma dict_remove_absent (k : string) (d : dict) :
  lookup k d = None -> dict_remove k d = d.
Proof.
  unfold dict_remove. induction d as [|[k' v] tl IH]; [reflexivity|].
  cbn [lookup filter fst]. destruct (String.eqb_spec k k') as [->|Hne];
    [discriminate|].
  intros H. destruct (String.eqb_spec k' k); [congruence|].
  cbn [negb]. now rewrite IH.
Qed.

Lemma depth_child (d : dict) (k : string) (v : value) :
  In (k, v) d -> depth v < depth (VDict d).
Proof.
  cbn [depth]. induction d as [|[k' v'] tl IH]; [intros []|].
  cbn [fold_right snd]. intros [E|Hin].
  - inversion E; subst. lia.
  - specialize (IH Hin). lia.
Qed.

Lemma no_refs_dict (d : dict) :
  no_refs (VDict d) = true <->
  lookup "$nxdlref" d = None /\ forall k v, In (k, v) d -> no_refs v = true.
Proof.
  cbn [no_refs]. rewrite andb_true_iff, negb_true_iff, forallb_forall.
  unfold mem. split; intros [H1 H2]; split.
  - destruct (lookup "$nxdlref" d); [discriminate|reflexivity].
  - intros k v Hin. exact (H2 (k, v) Hin).
  - now rewrite H1.
  - intros [k v] Hin. exact (H2 k v Hin).
Qed.

Lemma resolve_children_ok (r : value -> exc dict) (g : dict) :
  forall y, resolve_children r g = Ok y <-> children_resolved r g y.
Proof.
  unfold resolve_children, children_resolved.
  induction g as [|[k v] tl IH]; intros y; cbn [mapM].
  - split.
    + intros H. inversion H. constructor.
    + intros H. inversion H. reflexivity.
  - split.
    + intros H. apply bind_ok in H. destruct H as ([k1 x1] & H1 & H).
      apply bind_ok in H. destruct H as (r' & Hr & H). inversion H; subst y.
      constructor; [|now apply IH].
      unfold child_resolved. cbn [fst snd]. destruct (is_dict v).
      * apply bind_ok in H1. destruct H1 as (c & Hc & H1). inversion H1; subst.
        split; [reflexivity|]. exists c. split; [exact Hc|reflexivity].
      * inversion H1; subst. split; reflexivity.
    + intros H. inversion H as [|kv [k1 x1] l l' Hkv Hl]; subst.
      destruct Hkv as [Hk Hx]. cbn [fst snd] in Hk, Hx. subst k1.
      apply IH in Hl. rewrite Hl. destruct (is_dict v).
      * destruct Hx as (c & Hc & ->). rewrite Hc. reflexivity.
      * subst x1. reflexivity.
Qed.

Lemma resolve_children_raises (r : value -> exc dict) (g : dict) (e : exn) :
  resolve_children r g = Raise e ->
  exists k v, In (k, v) g /\ is_dict v = true /\ r v = Raise e.
Proof.
  unfold resolve_children.
  induction g as [|[k v] tl IH]; cbn [mapM]; [discriminate|].
  intros H. destruct (is_dict v) eqn:Hd.
  - destruct (r v) as [c|e'] eqn:Hr.
    + cbn [bind] in H.
      destruct (mapM _ tl) as [r'|e''] eqn:Htl; [discriminate H|].
      cbn [bind] in H. inversion H; subst e''.
      destruct (IH eq_refl) as (k' & v' & Hin & Hd' & Hr').
      exists k', v'. split; [now right|auto].
    + cbn [bind] in H. inversion H; subst e'.
      exists k, v. split; [now left|auto].
  - cbn [bind] in H.
    destruct (mapM _ tl) as [r'|e''] eqn:Htl; [discriminate H|].
    cbn [bind] in H. inversion H; subst e''.
    destruct (IH eq_refl) as (k' & v' & Hin & Hd' & Hr').
    exists k', v'. split; [now right|auto].
Qed.

Section References.

Variable np : value -> exc string.
Variable load_yaml : string -> option value.
Variable path_join : string -> string -> string.
Variable path_parent : string -> string.

Notation resolve := (resolve_nxdlrefs np load_yaml path_join path_parent).
Notation convert := (convert_nxyaml np load_yaml path_join path_parent).

Lemma resolve_unfold (fuel : nat) (d : dict) (root_dir : string) :
  resolve (S fuel) (VDict d) root_dir
  = (grp_dict <-
       (if truthy (get d "$nxdlref") then
          match get d "$nxdlref" with
          | VStr name =>
              refgrp <- convert fuel (path_join root_dir name) false true false ;;
              match refgrp with
              | [(refgrp_name, refgrp_dict)] =>
                  ref_class <- py_getitem refgrp_dict "nxclass" ;;
                  grp_class <- py_getitem (VDict (dict_remove "$nxdlref" d)) "nxclass" ;;
                  if negb (py_eq ref_class grp_class) then
                    Raise (RuntimeError [VStr msg_incompatible; ref_class])
                  else
                    merged <- deep_update refgrp_dict (VDict (dict_remove "$nxdlref" d)) ;;
                    py_items merged
              | _ => Raise (ValueError [VStr msg_single_group; get d "$nxdlref"])
              end
          | _ => Raise TypeError
          end
        else Ok (dict_remove "$nxdlref" d)) ;;
     resolve_children (fun val => resolve fuel val root_dir) grp_dict).
Proof. reflexivity. Qed.

(** Without a reference anywhere, and with fuel for its depth, a node is
    returned as it is. *)
Lemma resolve_no_refs (fuel : nat) :
  forall (d : dict) (root_dir : string),
    no_refs (VDict d) = true -> depth (VDict d) <= fuel ->
    resolve fuel (VDict d) root_dir = Ok d.
Proof.
  induction fuel as [|fuel IH]; intros d root_dir Hn Hd.
  - cbn [depth] in Hd. lia.
  - apply no_refs_dict in Hn. destruct Hn as [Hk Hc].
    rewrite resolve_unfold. unfold get. rewrite Hk. cbn [truthy bind].
    rewrite dict_remove_absent by assumption.
    unfold resolve_children. apply mapM_id. intros [k v] Hin.
    destruct v as [| | | | |c]; try reflexivity. cbn [is_dict].
    rewrite IH; [reflexivity|exact (Hc _ _ Hin)|].
    pose proof (depth_child _ _ _ Hin). lia.
Qed.

(** C4.  On a node whose ["$nxdlref"] names a file, [resolve_nxdlrefs]
    converts that file without reduction and passes on what the conversion
    raises; when the file converts to [refgrp] it raises the [ValueError]
    of the single group if [refgrp] has not exactly one item, and the
    [RuntimeError] of the incompatible class if the class of that item
    differs from the class of the node; with equal classes it returns the
    merge of the node into that item with its children resolved.  On a
    node without ["$nxdlref"] it returns the node with its children
    resolved, item by item and in order: a mapping under a key is replaced
    by its own resolution, any other value is kept; it raises only what the
    resolution of one of these mappings raises.  Without a reference
    anywhere below, it returns the node unchanged. *)
Theorem resolve_nxdlrefs_errors (fuel : nat) (d : dict) (root_dir : string) :
  (forall name,
     lookup "$nxdlref" d = Some (VStr name) ->
     name <> EmptyString ->
     (forall e,
        convert fuel (path_join root_dir name) false true false = Raise e ->
        resolve (S fuel) (VDict d) root_dir = Raise e)
     /\ forall refgrp,
          convert fuel (path_join root_dir name) false true false = Ok refgrp ->
          (List.length refgrp <> 1 ->
           resolve (S fuel) (VDict d) root_dir
           = Raise (ValueError [VStr msg_single_group; VStr name]))
          /\ (forall refgrp_name refgrp_dict ref_class grp_class,
                refgrp = [(refgrp_name, refgrp_dict)] ->
                py_getitem refgrp_dict "nxclass" = Ok ref_class ->
                lookup "nxclass" d = Some grp_class ->
                (py_eq ref_class grp_class = false ->
                 resolve (S fuel) (VDict d) root_dir
                 = Raise (RuntimeError [VStr msg_incompatible; ref_class]))
                /\ (py_eq ref_class grp_class = true ->
                    forall y,
                      resolve (S fuel) (VDict d) root_dir = Ok y <->
                      exists merged,
                        deep_update refgrp_dict (VDict (dict_remove "$nxdlref" d))
                        = Ok (VDict merged)
                        /\ children_resolved
                             (fun val => resolve fuel val root_dir) merged y)))
  /\ (lookup "$nxdlref" d = None ->
      (forall y,
         resolve (S fuel) (VDict d) root_dir = Ok y <->
         children_resolved (fun val => resolve fuel val root_dir) d y)
      /\ (forall e,
            resolve (S fuel) (VDict d) root_dir = Raise e ->
            exists k v,
              In (k, v) d /\ is_dict v = true
              /\ resolve fuel v root_dir = Raise e))
  /\ (no_refs (VDict d) = true -> depth (VDict d) <= fuel ->
      resolve fuel (VDict d) root_dir = Ok d).
Proof.
  split; [|split].
  - intros name Hk Hname.
    assert (Ht : truthy (VStr name) = true).
    { cbn [truthy]. destruct (String.eqb_spec name EmptyString); [contradiction|].
      reflexivity. }
    split.
    { intros e Hconv. rewrite resolve_unfold. unfold get.
      rewrite Hk, Ht, Hconv. reflexivity. }
    intros refgrp Hconv. split.
    + intros Hlen. rewrite resolve_unfold. unfold get. rewrite Hk, Ht, Hconv.
      cbn [bind]. destruct refgrp as [|[n rd] [|x tl]]; try reflexivity.
      exfalso. apply Hlen. reflexivity.
    + intros n rd rc gc -> Hrc Hgc.
      assert (Hgc' : py_getitem (VDict (dict_remove "$nxdlref" d)) "nxclass" = Ok gc).
      { unfold py_getitem. rewrite lookup_remove_ne by str_ne. now rewrite Hgc. }
      split; intros He.
      * rewrite resolve_unfold. unfold get.
        rewrite Hk, Ht, Hconv. cbn [bind]. rewrite Hrc, Hgc'. cbn [bind].
        rewrite He. reflexivity.
      * intros y. rewrite resolve_unfold. unfold get.
        rewrite Hk, Ht, Hconv. cbn [bind]. rewrite Hrc, Hgc'. cbn [bind].
        rewrite He. cbn [negb]. split.
        -- intros H. apply bind_ok in H. destruct H as (g & Hg & H).
           apply bind_ok in Hg. destruct Hg as (merged & Hm & Hg).
           destruct merged as [| | | | |m]; try discriminate Hg.
           inversion Hg; subst g. exists m. split; [exact Hm|].
           now apply resolve_children_ok.
        -- intros (m & Hm & Hy). rewrite Hm. cbn [bind py_items].
           now apply resolve_children_ok.
  - intros Hk.
    assert (E : resolve (S fuel) (VDict d) root_dir
                = resolve_children (fun val => resolve fuel val root_dir) d).
    { rewrite resolve_unfold. unfold get. rewrite Hk. cbn [truthy bind].
      now rewrite dict_remove_absent. }
    rewrite E. split.
    + intros y. apply resolve_children_ok.
    + intros e. apply resolve_children_raises.
  - apply resolve_no_refs.
Qed.

(** C8.  The simplified pipeline is not idempotent on [odd_reference],
    which refers to a definition whose group holds a group named by its
    class alone, ["(NX$nxdlref)"]: the first run gives [odd_output], in
    which the name of that group is the key of a reference, and the run on
    [odd_output] raises [TypeError]. *)
Theorem simplified_pipeline_not_idempotent (fuel : nat) (keep_docs : bool) :
  convert_simplified np odd_files flat_join flat_parent (5 + fuel) odd_reference
    EmptyString keep_docs = Ok odd_output
  /\ convert_simplified np odd_files flat_join flat_parent (5 + fuel)
       (VDict odd_output) EmptyString keep_docs = Raise TypeError.
Proof.
  split; destruct keep_docs; reflexivity.
Qed.

End References.

(** ** The documentation pass *)

Lemma replace_nl_fixed (s : string) :
  contains nl s = false -> replace_nl s = s.
Proof.
  induction s as [|c tl IH]; [reflexivity|].
  cbn [contains replace_nl]. intros H. apply orb_false_iff in H.
  destruct H as [Hc Htl]. rewrite Ascii.eqb_sym in Hc. now rewrite Hc, IH.
Qed.

Lemma replace_nl_clear (s : string) : contains nl (replace_nl s) = false.
Proof.
  induction s as [|c tl IH]; [reflexivity|].
  cbn [replace_nl contains]. rewrite IH, orb_false_r.
  destruct (Ascii.eqb_spec c nl) as [->|Hne]; [reflexivity|].
  now apply Ascii.eqb_neq.
Qed.

Lemma lstrip_clear (s : string) :
  contains nl s = false -> contains nl (lstrip s) = false.
Proof.
  induction s as [|c tl IH]; [reflexivity|].
  cbn [lstrip]. intros H. destruct (is_space c); [|exact H].
  apply IH. cbn [contains] in H. apply orb_false_iff in H. tauto.
Qed.

Lemma rstrip_clear (s : string) :
  contains nl s = false -> contains nl (rstrip s) = false.
Proof.
  induction s as [|c tl IH]; [reflexivity|].
  cbn [contains rstrip]. intros H. apply orb_false_iff in H. destruct H as [Hc Htl].
  specialize (IH Htl). destruct (rstrip tl) as [|c' r].
  - destruct (is_space c); [reflexivity|]. cbn [contains]. now rewrite Hc.
  - cbn [contains] in *. now rewrite Hc.
Qed.

Lemma lstrip_lstrip (s : string) : lstrip (lstrip s) = lstrip s.
Proof.
  induction s as [|c tl IH]; [reflexivity|].
  cbn [lstrip]. destruct (is_space c) eqn:E; [exact IH|].
  cbn [lstrip]. now rewrite E.
Qed.

Lemma rstrip_rstrip (s : string) : rstrip (rstrip s) = rstrip s.
Proof.
  induction s as [|c tl IH]; [reflexivity|].
  cbn [rstrip]. destruct (rstrip tl) as [|c' r] eqn:E.
  - destruct (is_space c) eqn:Hc; [reflexivity|]. cbn [rstrip]. now rewrite Hc.
  - cbn [rstrip]. cbn [rstrip] in IH. now rewrite IH.
Qed.

(** Stripping the left of a string with a clean right end leaves the right
    end clean. *)
Lemma rstrip_lstrip (s : string) : rstrip s = s -> rstrip (lstrip s) = lstrip s.
Proof.
  induction s as [|c tl IH]; [reflexivity|].
  intros H. cbn [lstrip]. destruct (is_space c) eqn:Hc; [|exact H].
  apply IH. cbn [rstrip] in H. destruct (rstrip tl) as [|c' r].
  - rewrite Hc in H. discriminate H.
  - now inversion H.
Qed.

Lemma strip_strip (s : string) : strip (strip s) = strip s.
Proof.
  unfold strip. rewrite rstrip_lstrip by apply rstrip_rstrip.
  apply lstrip_lstrip.
Qed.

(** Formatting a documentation text twice is formatting it once. *)
Lemma normalize_twice (s : string) :
  strip (replace_nl (strip (replace_nl s))) = strip (replace_nl s).
Proof.
  rewrite (replace_nl_fixed (strip (replace_nl s))); [apply strip_strip|].
  unfold strip. apply lstrip_clear, rstrip_clear, replace_nl_clear.
Qed.

Lemma clean_docs_dict (items : dict) (keep_docs : bool) :
  clean_docs (VDict items) keep_docs = clean_items items keep_docs.
Proof.
  unfold clean_docs at 1. fold clean_docs.
  induction items as [|[k v] tl IH]; [reflexivity|].
  cbn [clean_items]. rewrite <- IH. reflexivity.
Qed.

Lemma clean_items_twice (items : dict) (keep_docs : bool) :
  Forall (fun kv => forall c, clean_docs (snd kv) keep_docs = Ok c ->
                    clean_docs (VDict c) keep_docs = Ok c) items ->
  forall c, clean_items items keep_docs = Ok c -> clean_items c keep_docs = Ok c.
Proof.
  induction items as [|[k v] tl IH]; intros HP c H.
  - inversion H. reflexivity.
  - inversion HP as [|? ? Hv HP']; subst. cbn [snd] in Hv.
    cbn [clean_items] in H. destruct (is_dict v) eqn:Hd.
    + apply bind_ok in H. destruct H as (cv & Hcv & H).
      apply bind_ok in H. destruct H as (r & Hr & H). inversion H; subst.
      cbn [clean_items is_dict]. rewrite (Hv _ Hcv). cbn [bind].
      rewrite (IH HP' _ Hr). reflexivity.
    + destruct (String.eqb_spec k "doc") as [->|Hne].
      * destruct keep_docs; [|exact (IH HP' _ H)].
        destruct v; try discriminate H.
        apply bind_ok in H. destruct H as (r & Hr & H). inversion H; subst.
        cbn [clean_items is_dict]. rewrite String.eqb_refl, normalize_twice.
        rewrite (IH HP' _ Hr). reflexivity.
      * apply bind_ok in H. destruct H as (r & Hr & H). inversion H; subst.
        cbn [clean_items]. rewrite Hd.
        destruct (String.eqb_spec k "doc"); [contradiction|].
        rewrite (IH HP' _ Hr). reflexivity.
Qed.

(** [clean_docs] leaves its own result as it is. *)
Lemma clean_docs_twice (v : value) (keep_docs : bool) :
  forall c, clean_docs v keep_docs = Ok c -> clean_docs (VDict c) keep_docs = Ok c.
Proof.
  induction v as [| | | |l _|items IH] using value_induction; try discriminate.
  intros c H. rewrite clean_docs_dict in *.
  now apply (clean_items_twice items keep_docs IH).
Qed.

(** ** Ordered values *)

Lemma sorted_keys_subset (d : dict) (k : string) :
  In k (sorted_keys d) -> In k (keys d).
Proof.
  unfold sorted_keys. rewrite !in_app_iff, !sorted_In.
  intros [H|[H|[H|[H|H]]]].
  - apply first_keys_In in H. now destruct H as [-> H].
  - apply string_keys_In in H. destruct H as (v & H & _). eapply In_keys; eauto.
  - unfold group_keys in H. destruct (keys_In _ _ H) as [v Hv].
    apply filter_In in Hv. eapply In_keys. exact (proj1 Hv).
  - unfold other_keys in H. apply filter_In in H. tauto.
  - apply last_keys_In in H. now destruct H as [-> H].
Qed.

Lemma In_item (d : dict) (k : string) : In k (keys d) -> In (k, item d k) d.
Proof.
  intros H. unfold item. destruct (lookup k d) as [v|] eqn:E.
  - now apply lookup_In.
  - apply lookup_None in E. contradiction.
Qed.

Lemma In_reorder (d : dict) (k : string) (x : value) :
  In (k, x) (reorder d) -> In (k, x) d.
Proof.
  unfold reorder. rewrite in_map_iff. intros (k' & E & H). inversion E; subst.
  apply In_item. now apply sorted_keys_subset.
Qed.

Lemma In_sort_items (items : dict) (k : string) (x : value) :
  In (k, x) (sort_items items) -> exists v, In (k, v) items /\ x = sort_value v.
Proof.
  rewrite sort_items_map, in_map_iff. intros ([k' v] & E & H).
  cbn [fst snd] in E. inversion E; subst. eauto.
Qed.

Lemma In_sort_converted (items : dict) (k : string) (x : value) :
  In (k, x) (sort_converted (VDict items)) ->
  exists v, In (k, v) items /\ x = sort_value v.
Proof.
  rewrite sort_converted_dict. intros H. apply In_reorder in H.
  now apply In_sort_items.
Qed.

Lemma keys_sort_converted (items : dict) (k : string) :
  In k (keys (sort_converted (VDict items))) -> In k (keys items).
Proof.
  rewrite sort_converted_dict, keys_reorder. intros H.
  apply sorted_keys_subset in H. now rewrite keys_sort_items in H.
Qed.

Lemma item_cons_ne (k k0 : string) (v0 : value) (tl : dict) :
  k <> k0 -> item ((k0, v0) :: tl) k = item tl k.
Proof.
  intros H. unfold item. cbn [lookup].
  destruct (String.eqb_spec k k0); [contradiction|reflexivity].
Qed.

Lemma map_item_keys (d : dict) :
  NoDup (keys d) -> map (fun k => (k, item d k)) (keys d) = d.
Proof.
  induction d as [|[k0 v0] tl IH]; intros Hnd; [reflexivity|].
  inversion Hnd as [|? ? Hk Htl]; subst. cbn [keys map fst].
  f_equal.
  - unfold item. cbn [lookup]. now rewrite String.eqb_refl.
  - rewrite <- (IH Htl) at 2. apply map_ext_in. intros k Hin.
    rewrite item_cons_ne; [reflexivity|]. intros ->. contradiction.
Qed.

Lemma ordered_NoDup (d : dict) : ordered (VDict d) -> NoDup (keys d).
Proof.
  intros H. inversion H as [? Hs _|? Hd]; subst; [|discriminate Hd].
  eapply StronglySorted_NoDup; [apply key_before_irrefl|exact Hs].
Qed.

(** On an ordered mapping the last step of [sort_converted] changes
    nothing. *)
Lemma reorder_ordered (d : dict) : ordered (VDict d) -> reorder d = d.
Proof.
  intros H. pose proof (ordered_NoDup d H) as Hnd.
  inversion H as [? Hs _|? Hd]; subst; [|discriminate Hd].
  unfold reorder.
  assert (E : sorted_keys d = keys d).
  { apply (StronglySorted_unique (key_before d)).
    - apply key_before_asym.
    - now apply sorted_keys_sorted.
    - exact Hs.
    - now apply sorted_keys_perm. }
  rewrite E. now apply map_item_keys.
Qed.

Lemma sort_converted_ordered (v : value) :
  ordered v -> sort_value v = v.
Proof.
  induction v as [| | | |l _|items IH] using value_induction; try reflexivity.
  intros H. unfold sort_value. cbn [is_dict]. f_equal.
  rewrite sort_converted_dict.
  assert (E : sort_items items = items).
  { rewrite sort_items_map. rewrite <- (map_id items) at 2.
    apply map_ext_in. intros [k x] Hin. cbn [fst snd]. f_equal.
    rewrite Forall_forall in IH. apply (IH (k, x) Hin).
    inversion H as [? _ Hc|? Hd]; subst; [eauto|discriminate Hd]. }
  rewrite E. now apply reorder_ordered.
Qed.

Lemma key_rank_reorder (d : dict) (k : string) :
  NoDup (keys d) -> key_rank (reorder d) k = key_rank d k.
Proof.
  intros Hnd. unfold key_rank, item. now rewrite lookup_reorder.
Qed.

(** What [sort_converted] returns is ordered. *)
Lemma sort_value_ordered (v : value) : wf v = true -> ordered (sort_value v).
Proof.
  induction v as [| | | |l _|items IH] using value_induction;
    try (intros _; now apply ordered_other).
  intros Hwf. unfold sort_value. cbn [is_dict]. rewrite sort_converted_dict.
  pose proof (wf_NoDup _ Hwf) as Hnd.
  assert (Hnd' : NoDup (keys (sort_items items))) by now rewrite keys_sort_items.
  apply ordered_dict.
  - rewrite keys_reorder.
    eapply StronglySorted_impl; [|apply sorted_keys_sorted; exact Hnd'].
    intros a b. unfold key_before. now rewrite !key_rank_reorder.
  - intros k x Hin. apply In_reorder, In_sort_items in Hin.
    destruct Hin as (v & Hin & ->). rewrite Forall_forall in IH.
    apply (IH (k, v) Hin). eapply wf_children; eauto.
Qed.

(** ** The documentation pass keeps the order *)

Lemma clean_items_lookup (items c : dict) (keep_docs : bool) (k : string) :
  clean_items items keep_docs = Ok c -> k <> "doc" ->
  match lookup k items with
  | None => lookup k c = None
  | Some w =>
      exists w', lookup k c = Some w' /\ is_dict w' = is_dict w
                 /\ (is_dict w = false -> w' = w)
  end.
Proof.
  intros H Hk. revert c H.
  induction items as [|[k0 v0] tl IH]; intros c H.
  - inversion H. reflexivity.
  - cbn [clean_items] in H. cbn [lookup].
    destruct (is_dict v0) eqn:Hd.
    + apply bind_ok in H. destruct H as (cv & Hcv & H).
      apply bind_ok in H. destruct H as (r & Hr & H). inversion H; subst.
      cbn [lookup]. destruct (String.eqb k k0); [|exact (IH _ Hr)].
      exists (VDict cv). rewrite Hd. repeat split. discriminate.
    + destruct (String.eqb_spec k0 "doc") as [->|Hne].
      * destruct (String.eqb_spec k "doc") as [->|_]; [contradiction|].
        destruct keep_docs; [|exact (IH _ H)].
        destruct v0; try discriminate H.
        apply bind_ok in H. destruct H as (r & Hr & H). inversion H; subst.
        cbn [lookup]. destruct (String.eqb_spec k "doc"); [contradiction|].
        exact (IH _ Hr).
      * apply bind_ok in H. destruct H as (r & Hr & H). inversion H; subst.
        cbn [lookup]. destruct (String.eqb k k0); [|exact (IH _ Hr)].
        exists v0. auto.
Qed.

Lemma rank_clean (v : value) (cv : dict) (keep_docs : bool) (k : string) :
  clean_docs v keep_docs = Ok cv -> rank k (VDict cv) = rank k v.
Proof.
  destruct v as [| | | | |it]; try discriminate.
  rewrite clean_docs_dict. intros H. unfold rank. cbn [is_dict negb not_a_field].
  pose proof (clean_items_lookup it cv keep_docs "nxclass" H) as L.
  destruct (lookup "nxclass" it) as [w|].
  - destruct L as (w' & -> & Hd & Hw); [str_ne|].
    destruct w; try (rewrite Hw by reflexivity; reflexivity).
    destruct w'; try discriminate Hd. reflexivity.
  - rewrite L by str_ne. reflexivity.
Qed.

Lemma clean_items_In (items c : dict) (keep_docs : bool) (k : string) (x : value) :
  clean_items items keep_docs = Ok c -> In (k, x) c ->
  exists v,
    In (k, v) items /\ rank k x = rank k v
    /\ (is_dict x = true -> exists cv, x = VDict cv /\ clean_docs v keep_docs = Ok cv).
Proof.
  revert c. induction items as [|[k0 v0] tl IH]; intros c H Hin.
  - inversion H; subst. destruct Hin.
  - assert (Htl : forall r, clean_items tl keep_docs = Ok r -> In (k, x) r ->
                  exists v, In (k, v) ((k0, v0) :: tl) /\ rank k x = rank k v
                            /\ (is_dict x = true ->
                                exists cv, x = VDict cv
                                           /\ clean_docs v keep_docs = Ok cv)).
    { intros r Hr Hx. destruct (IH _ Hr Hx) as (v & Hv & Hrest).
      exists v. split; [now right|assumption]. }
    cbn [clean_items] in H. destruct (is_dict v0) eqn:Hd.
    + apply bind_ok in H. destruct H as (cv & Hcv & H).
      apply bind_ok in H. destruct H as (r & Hr & H). inversion H; subst.
      destruct Hin as [E|Hin]; [|eauto]. inversion E; subst.
      exists v0. split; [now left|]. split; [eapply rank_clean; eauto|eauto].
    + destruct (String.eqb_spec k0 "doc") as [->|Hne].
      * destruct keep_docs; [|eauto].
        destruct v0; try discriminate H.
        apply bind_ok in H. destruct H as (r & Hr & H). inversion H; subst.
        destruct Hin as [E|Hin]; [|eauto]. inversion E; subst.
        exists (VStr s). split; [now left|]. split; [reflexivity|discriminate].
      * apply bind_ok in H. destruct H as (r & Hr & H). inversion H; subst.
        destruct Hin as [E|Hin]; [|eauto]. inversion E; subst.
        exists x. split; [now left|]. split; [reflexivity|congruence].
Qed.

Lemma clean_items_keys (items c : dict) (keep_docs : bool)
    (R : string -> string -> Prop) :
  clean_items items keep_docs = Ok c ->
  StronglySorted R (keys items) ->
  StronglySorted R (keys c) /\ forall k, In k (keys c) -> In k (keys items).
Proof.
  revert c. induction items as [|[k0 v0] tl IH]; intros c H Hs.
  - inversion H; subst. split; [constructor|auto].
  - cbn [keys map fst] in Hs. inversion Hs as [|? ? Htl Hk0]; subst.
    assert (Hcons : forall r, clean_items tl keep_docs = Ok r ->
                    StronglySorted R (keys ((k0, v0) :: r))
                    /\ forall k, In k (keys r) -> In k (keys ((k0, v0) :: tl))).
    { intros r Hr. destruct (IH _ Hr Htl) as [Hsr Hsub]. split.
      - cbn [keys map fst]. constructor; [exact Hsr|].
        rewrite Forall_forall in *. intros k Hk. apply Hk0. now apply Hsub.
      - intros k Hk. right. now apply Hsub. }
    assert (Hkeep : forall r x, clean_items tl keep_docs = Ok r ->
                    StronglySorted R (keys ((k0, x) :: r))
                    /\ forall k, In k (keys ((k0, x) :: r)) ->
                                 In k (keys ((k0, v0) :: tl))).
    { intros r x Hr. destruct (Hcons r Hr) as [Hsr Hsub]. split; [exact Hsr|].
      intros k [E|Hk]; [now left|now apply Hsub]. }
    assert (Hdrop : forall r, clean_items tl keep_docs = Ok r ->
                    StronglySorted R (keys r)
                    /\ forall k, In k (keys r) -> In k (keys ((k0, v0) :: tl))).
    { intros r Hr. destruct (Hcons r Hr) as [Hsr Hsub]. split; [|exact Hsub].
      destruct (IH _ Hr Htl) as [Hsr' _]. exact Hsr'. }
    cbn [clean_items] in H. destruct (is_dict v0).
    + apply bind_ok in H. destruct H as (cv & Hcv & H).
      apply bind_ok in H. destruct H as (r & Hr & H). inversion H; subst. eauto.
    + destruct (String.eqb k0 "doc").
      * destruct keep_docs; [|eauto]. destruct v0; try discriminate H.
        apply bind_ok in H. destruct H as (r & Hr & H). inversion H; subst. eauto.
      * apply bind_ok in H. destruct H as (r & Hr & H). inversion H; subst. eauto.
Qed.

Lemma StronglySorted_impl_in {A : Type} (R R' : A -> A -> Prop) (l : list A) :
  (forall a b, In a l -> In b l -> R a b -> R' a b) ->
  StronglySorted R l -> StronglySorted R' l.
Proof.
  intros HR Hs. induction Hs as [|a tl Htl IH Ha]; constructor.
  - apply IH. intros x y Hx Hy. apply HR; now right.
  - rewrite Forall_forall in *. intros b Hb. apply HR; [now left|now right|auto].
Qed.

(** [clean_docs] keeps a value ordered. *)
Lemma clean_docs_ordered (v : value) (keep_docs : bool) :
  ordered v -> forall c, clean_docs v keep_docs = Ok c -> ordered (VDict c).
Proof.
  induction v as [| | | |l _|items IH] using value_induction; try discriminate.
  intros Ho c H. rewrite clean_docs_dict in H.
  pose proof (ordered_NoDup _ Ho) as Hnd.
  inversion Ho as [? Hs Hc|? Hd]; subst; [|discriminate Hd].
  destruct (clean_items_keys items c keep_docs (key_before items) H Hs) as [Hsc Hsub].
  assert (Hndc : NoDup (keys c)).
  { eapply StronglySorted_NoDup; [apply key_before_irrefl|exact Hsc]. }
  assert (Hrank : forall k, In k (keys c) -> key_rank c k = key_rank items k).
  { intros k Hk. destruct (keys_In _ _ Hk) as [x Hx].
    destruct (clean_items_In items c keep_docs k x H Hx) as (v & Hv & Hr & _).
    unfold key_rank. now rewrite (item_In _ _ _ Hndc Hx), (item_In _ _ _ Hnd Hv). }
  apply ordered_dict.
  - eapply StronglySorted_impl_in; [|exact Hsc].
    intros a b Ha Hb. unfold key_before. now rewrite (Hrank a Ha), (Hrank b Hb).
  - intros k x Hx.
    destruct (clean_items_In items c keep_docs k x H Hx) as (v & Hv & _ & Hcv).
    destruct (is_dict x) eqn:Hd; [|now apply ordered_other].
    destruct (Hcv eq_refl) as (cv & -> & Hclean).
    rewrite Forall_forall in IH. apply (IH (k, v) Hv); [eauto|exact Hclean].
Qed.

Lemma ordered_wf (v : value) : ordered v -> wf v = true.
Proof.
  induction v as [| | | |l _|items IH] using value_induction; try reflexivity.
  intros Ho. apply wf_dict. split; [now apply ordered_NoDup|].
  intros k x Hin. rewrite Forall_forall in IH. apply (IH (k, x) Hin).
  inversion Ho as [? _ Hc|? Hd]; subst; [eauto|discriminate Hd].
Qed.

(** ** Well-formedness through the merge *)

Lemma In_dict_remove (k k' : string) (v : value) (d : dict) :
  In (k', v) (dict_remove k d) -> In (k', v) d.
Proof.
  unfold dict_remove. rewrite filter_In. tauto.
Qed.

Lemma wf_dict_remove (k : string) (d : dict) :
  wf (VDict d) = true -> wf (VDict (dict_remove k d)) = true.
Proof.
  rewrite !wf_dict. intros [Hnd Hc]. split.
  - unfold dict_remove. now apply NoDup_keys_filter.
  - intros k' v Hin. apply (Hc k' v). eapply In_dict_remove; eauto.
Qed.

Lemma In_dict_set (d : dict) (k k' : string) (x v : value) :
  In (k', v) (dict_set d k x) -> (k' = k /\ v = x) \/ In (k', v) d.
Proof.
  induction d as [|[k0 v0] tl IH]; cbn [dict_set].
  - intros [E|[]]. inversion E; subst. auto.
  - destruct (String.eqb_spec k k0) as [->|Hne].
    + intros [E|Hin]; [inversion E; subst; auto|right; now right].
    + intros [E|Hin]; [right; now left|].
      destruct (IH Hin) as [H|H]; [auto|right; now right].
Qed.

Lemma keys_dict_set (d : dict) (k k' : string) (x : value) :
  In k' (keys (dict_set d k x)) -> k' = k \/ In k' (keys d).
Proof.
  intros H. destruct (keys_In _ _ H) as [v Hv].
  destruct (In_dict_set _ _ _ _ _ Hv) as [[-> _]|Hin]; [now left|].
  right. eapply In_keys; eauto.
Qed.

Lemma NoDup_dict_set (d : dict) (k : string) (x : value) :
  NoDup (keys d) -> NoDup (keys (dict_set d k x)).
Proof.
  induction d as [|[k0 v0] tl IH]; intros Hnd; cbn [dict_set].
  - repeat constructor. intros [].
  - inversion Hnd as [|? ? Hk Htl]; subst.
    destruct (String.eqb_spec k k0) as [->|Hne]; [exact Hnd|].
    cbn [keys map fst]. constructor; [|exact (IH Htl)].
    intros Hin. apply keys_dict_set in Hin. destruct Hin as [E|Hin]; auto.
Qed.

Lemma wf_dict_set (d : dict) (k : string) (x : value) :
  wf (VDict d) = true -> wf x = true -> wf (VDict (dict_set d k x)) = true.
Proof.
  rewrite !wf_dict. intros [Hnd Hc] Hx. split; [now apply NoDup_dict_set|].
  intros k' v Hin. destruct (In_dict_set _ _ _ _ _ Hin) as [[_ ->]|H]; eauto.
Qed.

Lemma wf_get (d : dict) (k : string) (default : value) (b : value) :
  wf (VDict d) = true -> wf default = true ->
  py_get (VDict d) k default = Ok b -> wf b = true.
Proof.
  intros Hd Hdef H. cbn [py_get] in H. inversion H; subst.
  destruct (lookup k d) as [v|] eqn:E; [|assumption].
  apply lookup_In in E. eapply wf_children; eauto.
Qed.

Lemma merge_items_wf (l : dict) :
  Forall (fun kv => forall d m, wf d = true -> wf (snd kv) = true ->
                    deep_update d (snd kv) = Ok m -> wf m = true) l ->
  (forall k v, In (k, v) l -> wf v = true) ->
  forall d m, wf d = true -> merge_items l d = Ok m -> wf m = true.
Proof.
  induction l as [|[k v] tl IH]; intros HP Hwf d m Hd H.
  - inversion H; subst. exact Hd.
  - inversion HP as [|? ? Hv HP']; subst. cbn [snd] in Hv.
    cbn [merge_items] in H. apply bind_ok in H. destruct H as (d' & Hd' & H).
    apply (IH HP' (fun k0 v0 Hin => Hwf k0 v0 (or_intror Hin)) d' m); [|exact H].
    assert (Hwv : wf v = true) by (apply (Hwf k v); now left).
    destruct d as [| | | | |acc];
      try (destruct (is_dict v); cbn in Hd'; discriminate Hd').
    destruct (is_dict v).
    + apply bind_ok in Hd'. destruct Hd' as (b & Hb & Hd').
      apply bind_ok in Hd'. destruct Hd' as (mg & Hmg & Hd').
      cbn [py_setitem] in Hd'. inversion Hd'; subst.
      apply wf_dict_set; [exact Hd|].
      apply (Hv b mg); [|exact Hwv|exact Hmg].
      eapply wf_get; [exact Hd| |exact Hb]. reflexivity.
    + cbn [py_setitem] in Hd'. inversion Hd'; subst. now apply wf_dict_set.
Qed.

Lemma deep_update_wf (u : value) :
  forall d m, wf d = true -> wf u = true -> deep_update d u = Ok m -> wf m = true.
Proof.
  induction u as [| | | |l _|items IH] using value_induction; try discriminate.
  intros d m Hd Hu H. rewrite deep_update_dict in H.
  exact (merge_items_wf items IH (fun k v Hin => wf_children items k v Hu Hin)
           d m Hd H).
Qed.

Lemma merge_items_keys (l : dict) :
  forall acc m,
    merge_items l (VDict acc) = Ok m ->
    exists g, m = VDict g
              /\ forall k, In k (keys g) -> In k (keys acc) \/ In k (keys l).
Proof.
  induction l as [|[k v] tl IH]; intros acc m H.
  - inversion H; subst. exists acc. auto.
  - cbn [merge_items] in H. apply bind_ok in H. destruct H as (d' & Hd' & H).
    assert (Hstep : exists x, d' = VDict (dict_set acc k x)).
    { destruct (is_dict v).
      - apply bind_ok in Hd'. destruct Hd' as (b & _ & Hd').
        apply bind_ok in Hd'. destruct Hd' as (mg & _ & Hd').
        inversion Hd'. eauto.
      - inversion Hd'. eauto. }
    destruct Hstep as [x ->]. destruct (IH _ _ H) as (g & -> & Hg).
    exists g. split; [reflexivity|]. intros k' Hk'.
    destruct (Hg k' Hk') as [Hin|Hin]; [|right; now right].
    apply keys_dict_set in Hin. destruct Hin as [->|Hin]; [right; now left|now left].
Qed.

(** ** Settled values *)

Lemma settled_sort (fuel : nat) :
  forall d, settled fuel (VDict d) -> settled fuel (VDict (sort_converted (VDict d))).
Proof.
  induction fuel as [|fuel IH]; intros d H; [exact H|].
  destruct H as [Hk Hc]. split.
  - apply lookup_None. intros Hin. apply keys_sort_converted in Hin.
    now apply lookup_None in Hk.
  - intros k x Hin. apply In_sort_converted in Hin. destruct Hin as (v & Hv & ->).
    specialize (Hc k v Hv). destruct v as [| | | | |c]; try exact Hc.
    unfold sort_value. cbn [is_dict]. now apply IH.
Qed.

Lemma settled_clean (fuel : nat) :
  forall d keep_docs c,
    settled fuel (VDict d) -> clean_docs (VDict d) keep_docs = Ok c ->
    settled fuel (VDict c).
Proof.
  induction fuel as [|fuel IH]; intros d keep_docs c H Hclean; [exact H|].
  destruct H as [Hk Hc]. rewrite clean_docs_dict in Hclean. split.
  - apply lookup_None. intros Hin. destruct (keys_In _ _ Hin) as [x Hx].
    destruct (clean_items_In d c keep_docs _ x Hclean Hx) as (v & Hv & _).
    apply lookup_None in Hk. apply Hk. eapply In_keys; eauto.
  - intros k x Hx.
    destruct (clean_items_In d c keep_docs k x Hclean Hx) as (v & Hv & _ & Hcv).
    destruct x as [| | | | |cx]; try (destruct fuel; exact I).
    destruct (Hcv eq_refl) as (cv & E & Hcl). inversion E; subst cv.
    destruct v as [| | | | |dv]; try discriminate Hcl.
    exact (IH dv keep_docs cx (Hc k _ Hv) Hcl).
Qed.

(** ** The simplified pipeline on its own result *)

Lemma settled_scalar (fuel : nat) (v : value) : is_dict v = false -> settled fuel v.
Proof.
  destruct v, fuel; try discriminate; intros _; exact I.
Qed.

Lemma resolve_children_spec (r : value -> exc dict) (g : dict) :
  forall y,
    resolve_children r g = Ok y ->
    keys y = keys g
    /\ forall k x,
         In (k, x) y ->
         exists v,
           In (k, v) g
           /\ ((is_dict v = false /\ x = v)
               \/ (is_dict v = true /\ exists c, r v = Ok c /\ x = VDict c)).
Proof.
  unfold resolve_children.
  induction g as [|[k0 v0] tl IH]; intros y H.
  - inversion H; subst. split; [reflexivity|intros k x []].
  - cbn [mapM] in H. apply bind_ok in H. destruct H as ([k1 x1] & H1 & H).
    apply bind_ok in H. destruct H as (r' & Hr & H). inversion H; subst.
    destruct (IH _ Hr) as [Hk Hc].
    assert (E : k1 = k0
                /\ ((is_dict v0 = false /\ x1 = v0)
                    \/ (is_dict v0 = true /\ exists c, r v0 = Ok c /\ x1 = VDict c))).
    { destruct (is_dict v0) eqn:Hd.
      - apply bind_ok in H1. destruct H1 as (c & Hc0 & H1). inversion H1; subst.
        split; [reflexivity|right; eauto].
      - inversion H1; subst. auto. }
    destruct E as [-> E]. split.
    + cbn [keys map fst]. f_equal. exact Hk.
    + intros k x [Hin|Hin].
      * inversion Hin; subst. exists v0. split; [now left|exact E].
      * destruct (Hc k x Hin) as (v & Hv & Hcase). exists v. split; [now right|auto].
Qed.

Section Idempotence.

Variable np : value -> exc string.
Variable load_yaml : string -> option value.
Variable path_join : string -> string -> string.
Variable path_parent : string -> string.

Notation resolve := (resolve_nxdlrefs np load_yaml path_join path_parent).
Notation convert := (convert_nxyaml np load_yaml path_join path_parent).
Notation pipeline := (convert_simplified np load_yaml path_join path_parent).

Hypothesis files_simplified : simplified_files load_yaml.

Lemma resolve_settled (fuel : nat) :
  forall (d : dict) (root_dir : string),
    settled fuel (VDict d) -> resolve fuel (VDict d) root_dir = Ok d.
Proof.
  induction fuel as [|fuel IH]; intros d root_dir H; [destruct H|].
  destruct H as [Hk Hc].
  rewrite (resolve_unfold np load_yaml path_join path_parent).
  unfold get. rewrite Hk. cbn [truthy bind].
  rewrite dict_remove_absent by assumption.
  unfold resolve_children. apply mapM_id. intros [k v] Hin.
  destruct v as [| | | | |c]; try reflexivity. cbn [is_dict].
  now rewrite (IH c root_dir (Hc k _ Hin)).
Qed.

Lemma convert_simplified_file (fuel : nat) (fpath : string) (d : dict)
    (keep_docs : bool) :
  load_yaml fpath = Some (VDict d) ->
  convert (S fuel) fpath false true keep_docs
  = (result <- resolve fuel (VDict (dict_remove "category" d)) (path_parent fpath) ;;
     clean_docs (VDict (sort_converted (VDict result))) keep_docs).
Proof.
  intros Hload. destruct (files_simplified fpath _ Hload) as [_ Hcat].
  specialize (Hcat d eq_refl). unfold get in Hcat.
  cbn [convert_nxyaml]. rewrite Hload. cbn [py_pop bind fst snd].
  now rewrite Hcat.
Qed.

Lemma resolve_invariant (fuel : nat) :
  (forall x root_dir y,
     wf x = true -> resolve fuel x root_dir = Ok y ->
     wf (VDict y) = true /\ settled fuel (VDict y))
  /\ (forall fpath y,
        convert fuel fpath false true false = Ok y ->
        wf (VDict y) = true /\ settled fuel (VDict y)).
Proof.
  induction fuel as [|fuel [IHr IHc]]; [split; intros; discriminate|].
  assert (Hres : forall x root_dir y,
             wf x = true -> resolve (S fuel) x root_dir = Ok y ->
             wf (VDict y) = true /\ settled (S fuel) (VDict y)).
  { intros x root_dir y Hwf H.
    destruct x as [| | | | |d]; try discriminate H.
    rewrite (resolve_unfold np load_yaml path_join path_parent) in H.
    apply bind_ok in H. destruct H as (g & Hg & Hy).
    pose proof (wf_dict_remove "$nxdlref" d Hwf) as Hwf'.
    assert (Hgood : wf (VDict g) = true /\ lookup "$nxdlref" g = None).
    { destruct (truthy (get d "$nxdlref"));
        [|inversion Hg; subst; split; [assumption|apply lookup_remove_eq]].
      destruct (get d "$nxdlref") as [| | |name| |]; try discriminate Hg.
      apply bind_ok in Hg. destruct Hg as (refgrp & Href & Hg).
      destruct refgrp as [|[n rd] [|? ?]]; try discriminate Hg.
      apply bind_ok in Hg. destruct Hg as (rc & Hrc & Hg).
      apply bind_ok in Hg. destruct Hg as (gc & Hgc & Hg).
      destruct (negb (py_eq rc gc)); [discriminate Hg|].
      apply bind_ok in Hg. destruct Hg as (merged & Hm & Hg).
      destruct (IHc _ _ Href) as [Hwr Hsr].
      destruct rd as [| | | | |rdd]; try discriminate Hrc.
      assert (Hwrd : wf (VDict rdd) = true)
        by (eapply wf_children; [exact Hwr|now left]).
      assert (Hkrd : lookup "$nxdlref" rdd = None).
      { destruct fuel as [|fuel']; [destruct Hsr|]. destruct Hsr as [_ Hsr].
        specialize (Hsr n (VDict rdd) (or_introl eq_refl)).
        destruct fuel' as [|fuel'']; [destruct Hsr|]. exact (proj1 Hsr). }
      pose proof (deep_update_wf _ _ _ Hwrd Hwf' Hm) as Hwm.
      rewrite deep_update_dict in Hm.
      destruct (merge_items_keys _ _ _ Hm) as (g' & -> & Hkeys).
      inversion Hg; subst g'. split; [exact Hwm|].
      apply lookup_None. intros Hin. destruct (Hkeys _ Hin) as [H|H].
      - now apply lookup_None in Hkrd.
      - pose proof (lookup_remove_eq "$nxdlref" d) as Hn.
        now apply lookup_None in Hn. }
    destruct Hgood as [Hwg Hkg].
    destruct (resolve_children_spec _ g y Hy) as [Hkeys Hitems].
    assert (Hchild : forall k x, In (k, x) y -> wf x = true /\ settled fuel x).
    { intros k x Hin. destruct (Hitems k x Hin) as (v & Hv & [[Hd ->]|(Hd & c & Hc & ->)]).
      - split; [eapply wf_children; eauto|now apply settled_scalar].
      - apply (IHr v root_dir c); [eapply wf_children; eauto|exact Hc]. }
    split.
    - apply wf_dict. split; [rewrite Hkeys; now apply wf_NoDup|].
      intros k x Hin. exact (proj1 (Hchild k x Hin)).
    - split.
      + apply lookup_None. rewrite Hkeys. now apply lookup_None.
      + intros k x Hin. exact (proj2 (Hchild k x Hin)). }
  split; [exact Hres|].
  intros fpath y H.
  destruct (load_yaml fpath) as [v|] eqn:Hload;
    [|cbn [convert_nxyaml] in H; rewrite Hload in H; discriminate H].
  destruct (files_simplified fpath _ Hload) as [Hwv _].
  destruct v as [| | | | |d];
    try (cbn [convert_nxyaml] in H; rewrite Hload in H; discriminate H).
  rewrite (convert_simplified_file fuel fpath d false Hload) in H.
  apply bind_ok in H. destruct H as (r & Hr & H).
  destruct (IHr _ _ _ (wf_dict_remove "category" d Hwv) Hr) as [Hwr Hsr].
  pose proof (sort_value_ordered (VDict r) Hwr) as Ho.
  unfold sort_value in Ho. cbn [is_dict] in Ho.
  split.
  - apply ordered_wf. exact (clean_docs_ordered _ false Ho y H).
  - pose proof (settled_clean fuel _ false y (settled_sort fuel r Hsr) H) as Hs.
    clear - Hs. revert y Hs. generalize fuel.
    assert (Hmono : forall f v, settled f v -> settled (S f) v).
    { induction f as [|f IHf]; intros v Hv.
      - destruct v; try exact I. destruct Hv.
      - destruct v as [| | | | |dv]; try exact I. destruct Hv as [Hk Hc].
        split; [exact Hk|]. intros k x Hin. apply IHf. exact (Hc k x Hin). }
    intros f y Hs. now apply Hmono.
Qed.

(** The simplified pipeline leaves its own result as it is, when every
    file it can load is a simplified one. *)
Lemma simplified_pipeline_idempotent (fuel : nat) (x : value)
    (root_dir root_dir' : string) (keep_docs : bool) (t : dict) :
  wf x = true ->
  pipeline fuel x root_dir keep_docs = Ok t ->
  pipeline fuel (VDict t) root_dir' keep_docs = Ok t.
Proof.
  intros Hwf H. unfold convert_simplified in *.
  apply bind_ok in H. destruct H as (y & Hy & Ht).
  destruct (proj1 (resolve_invariant fuel) _ _ _ Hwf Hy) as [Hwy Hsy].
  pose proof (sort_value_ordered (VDict y) Hwy) as Ho.
  unfold sort_value in Ho. cbn [is_dict] in Ho.
  pose proof (clean_docs_ordered _ keep_docs Ho t Ht) as Hot.
  pose proof (settled_clean fuel _ keep_docs t (settled_sort fuel y Hsy) Ht) as Hst.
  rewrite (resolve_settled fuel t root_dir' Hst). cbn [bind].
  pose proof (sort_converted_ordered (VDict t) Hot) as Hfix.
  unfold sort_value in Hfix. cbn [is_dict] in Hfix.
  assert (E : sort_converted (VDict t) = t) by (injection Hfix; auto).
  rewrite E. exact (clean_docs_twice _ keep_docs t Ht).
Qed.

End Idempotence.

(** * Further properties *)

(** ** The key grammar, pattern by pattern *)

Lemma span_parts (p : ascii -> bool) (s : string) :
  forall a b, span p s = (a, b) ->
              s = String.append a b /\ all_chars p a = true
              /\ match b with
                 | EmptyString => True
                 | String c _ => p c = false
                 end.
Proof.
  induction s as [|c tl IH]; intros a b H.
  - inversion H; subst. repeat split.
  - cbn [span] in H. destruct (p c) eqn:Hc.
    + destruct (span p tl) as [a' b'] eqn:E. inversion H; subst.
      destruct (IH a' b eq_refl) as (Hs & Ha & Hb).
      cbn [String.append all_chars]. rewrite Hc, Ha. subst tl. repeat split.
      exact Hb.
    + inversion H; subst. repeat split. exact Hc.
Qed.

Lemma span_built (p : ascii -> bool) (a b : string) :
  all_chars p a = true ->
  match b with
  | EmptyString => True
  | String c _ => p c = false
  end ->
  span p (String.append a b) = (a, b).
Proof.
  induction a as [|c tl IH]; intros Ha Hb.
  - cbn [String.append]. destruct b as [|c r]; [reflexivity|].
    cbn [span]. now rewrite Hb.
  - cbn [all_chars] in Ha. apply andb_true_iff in Ha. destruct Ha as [Hc Htl].
    cbn [String.append span]. now rewrite Hc, (IH Htl Hb).
Qed.

Lemma strip_prefix_parts (p s r : string) :
  strip_prefix p s = Some r -> s = String.append p r.
Proof.
  revert s. induction p as [|a p IH]; intros s H.
  - inversion H. reflexivity.
  - destruct s as [|b s]; [discriminate H|]. cbn [strip_prefix] in H.
    destruct (Ascii.eqb_spec a b) as [->|_]; [|discriminate H].
    cbn [String.append]. now rewrite (IH _ H).
Qed.

Lemma strip_prefix_built (p r : string) : strip_prefix p (String.append p r) = Some r.
Proof.
  induction p as [|a p IH]; [reflexivity|].
  cbn [String.append strip_prefix]. now rewrite Ascii.eqb_refl.
Qed.

Lemma nonempty_true (s : string) :
  nonempty s = true -> exists c tl, s = String c tl.
Proof.
  destruct s; [discriminate|eauto].
Qed.

Lemma re_group_inv (key name_beg cls name_end : string) :
  re_group key = Some (name_beg, cls, name_end) ->
  exists c rest,
    cls = String.append "NX" (String c rest)
    /\ is_underscore c = false
    /\ span is_word (chomp key)
       = (name_beg, String.append "(NX" (String c (String.append rest
                                                     (String.append ")" name_end))))
    /\ nonempty rest = true /\ all_chars is_lower_us rest = true
    /\ all_chars is_word name_end = true.
Proof.
  unfold re_group. destruct (span is_word (chomp key)) as [b r1] eqn:Hs.
  destruct (strip_prefix "(NX" r1) as [[|c r2]|] eqn:Hp; try discriminate.
  destruct (is_underscore c) eqn:Hc; [discriminate|].
  destruct (span is_lower_us r2) as [rest r3] eqn:Hs2.
  destruct (nonempty rest) eqn:Hn; [|discriminate].
  destruct (strip_prefix ")" r3) as [r4|] eqn:Hp2; [|discriminate].
  destruct (span is_word r4) as [e r5] eqn:Hs3.
  destruct (nonempty r5) eqn:Hn5; [discriminate|].
  intros H. inversion H; subst. exists c, rest.
  apply strip_prefix_parts in Hp, Hp2.
  destruct (span_parts _ _ _ _ Hs2) as (E2 & A2 & _).
  destruct (span_parts _ _ _ _ Hs3) as (E3 & A3 & _).
  destruct r5; [|discriminate Hn5].
  assert (E0 : String.append name_end EmptyString = name_end)
    by (clear; induction name_end; cbn; congruence).
  rewrite E0 in E3. subst r1 r2 r3 r4. repeat split; auto.
Qed.

Lemma re_field_inv (key name : string) (nx_type : option string) :
  re_field key = Some (name, nx_type) ->
  exists r1,
    span is_word (chomp key) = (name, r1) /\ nonempty name = true
    /\ (r1 = EmptyString \/ exists r, r1 = String.append "(NX_" r).
Proof.
  unfold re_field. destruct (span is_word (chomp key)) as [n r1] eqn:Hs.
  destruct (nonempty n) eqn:Hn; [|discriminate].
  destruct (re_type_suffix r1) as [t|] eqn:Ht; [|discriminate].
  intros H. inversion H; subst. exists r1. repeat split; auto.
  unfold re_type_suffix in Ht. destruct r1 as [|c r]; [now left|].
  destruct (strip_prefix "(NX_" (String c r)) as [r'|] eqn:Hp; [|discriminate Ht].
  right. exists r'. now apply strip_prefix_parts.
Qed.

Lemma re_attribute_inv (key name : string) (nx_type : option string) :
  re_attribute key = Some (name, nx_type) ->
  exists c r, span is_word (chomp key) = (EmptyString, String c r)
              /\ (c = "@"%char \/ c = "\"%char).
Proof.
  unfold re_attribute, skip_backslashes. intros H.
  destruct (chomp key) as [|c r] eqn:Hk; [discriminate H|].
  exists c, r.
  assert (Hc : c = "@"%char \/ c = "\"%char).
  { cbn [strip_prefix] in H.
    destruct (Ascii.eqb_spec "\"%char c) as [<-|Hb]; [now right|].
    cbn [strip_prefix] in H.
    destruct (Ascii.eqb_spec "@"%char c) as [<-|Ha]; [now left|discriminate H]. }
  split; [|exact Hc]. cbn [span].
  destruct Hc as [-> | ->]; reflexivity.
Qed.

(** X1.  The five patterns exclude one another: a key matches at most one
    of RE_GROUP, RE_FIELD, RE_ATTRIBUTE, RE_LINK and RE_CHOICE, so the order
    of the tests in [parse_nxdlyml_level] decides nothing. *)
Theorem patterns_exclude_one_another (key : string) : matches key <= 1.
Proof.
  unfold matches, hit.
  destruct (re_group key) as [[[b cls] e]|] eqn:Hg;
    destruct (re_field key) as [[nf tf]|] eqn:Hf;
    destruct (re_attribute key) as [[na ta]|] eqn:Ha;
    destruct (re_link key) as [nl0|] eqn:Hl;
    destruct (re_choice key) as [nc|] eqn:Hc; cbn; try lia; exfalso;
    repeat match goal with
           | H : re_group _ = Some _ |- _ =>
               apply re_group_inv in H; destruct H as (? & ? & _ & ? & ? & _)
           | H : re_field _ = Some _ |- _ =>
               apply re_field_inv in H; destruct H as (? & ? & ? & ?)
           | H : re_attribute _ = Some _ |- _ =>
               apply re_attribute_inv in H; destruct H as (? & ? & ? & ?)
           | H : re_link _ = Some _ |- _ =>
               apply re_suffixed_inv in H; destruct H as (? & ? & ? & ?)
           | H : re_choice _ = Some _ |- _ =>
               apply re_suffixed_inv in H; destruct H as (? & ? & ? & ?)
           end;
    repeat match goal with
           | H1 : span is_word (chomp key) = _, H2 : span is_word (chomp key) = _ |- _ =>
               rewrite H1 in H2; inversion H2; clear H2
           end;
    subst;
    repeat match goal with
           | H : _ \/ _ |- _ => destruct H
           | H : exists _, _ |- _ => destruct H
           end;
    subst; try discriminate;
    match goal with
    | H : _ = String.append "(NX_" _ |- _ => cbn in H; inversion H; subst
    | H : String.append "(NX_" _ = _ |- _ => cbn in H; inversion H; subst
    end; discriminate.
Qed.


Lemma append_empty (s : string) : String.append s EmptyString = s.
Proof.
  induction s as [|c tl IH]; cbn [String.append]; congruence.
Qed.

Lemma append_shift (a b c : string) :
  String.append a (String.append b c) = String.append (String.append a b) c.
Proof.
  induction a as [|x tl IH]; cbn [String.append]; congruence.
Qed.

Lemma word_not_nl (c : ascii) : is_word c = true -> Ascii.eqb c nl = false.
Proof.
  destruct (Ascii.eqb_spec c nl) as [->|]; [discriminate|reflexivity].
Qed.

Lemma chomp_word (s : string) : all_chars is_word s = true -> chomp s = s.
Proof.
  induction s as [|c tl IH]; [reflexivity|].
  cbn [all_chars]. intros H. apply andb_true_iff in H. destruct H as [Hc Htl].
  destruct tl as [|c' tl'].
  - cbn [chomp]. now rewrite (word_not_nl _ Hc).
  - change (chomp (String c (String c' tl')))
      with (String c (chomp (String c' tl'))).
    now rewrite (IH Htl).
Qed.

Lemma chomp_closed (a e : string) :
  all_chars is_word e = true ->
  chomp (String.append a (String ")" e)) = String.append a (String ")" e).
Proof.
  intros He. induction a as [|x tl IH].
  - cbn [String.append]. destruct e as [|c e']; [reflexivity|].
    change (chomp (String ")" (String c e')))
      with (String ")" (chomp (String c e'))).
    now rewrite (chomp_word _ He).
  - cbn [String.append].
    destruct (String.append tl (String ")" e)) as [|y r] eqn:E.
    + destruct tl; discriminate E.
    + change (chomp (String x (String y r))) with (String x (chomp (String y r))).
      now rewrite IH.
Qed.

Lemma span_word (s : string) :
  all_chars is_word s = true -> span is_word s = (s, EmptyString).
Proof.
  intros H. rewrite <- (append_empty s) at 1. now apply span_built.
Qed.

Lemma is_class_token_inv (cls : string) :
  is_class_token cls = true ->
  exists c rest,
    cls = String.append "NX" (String c rest) /\ is_underscore c = false
    /\ nonempty rest = true /\ all_chars is_lower_us rest = true.
Proof.
  unfold is_class_token.
  destruct (strip_prefix "NX" cls) as [[|c rest]|] eqn:E; try discriminate.
  intros H. apply andb_true_iff in H. destruct H as [H H3].
  apply andb_true_iff in H. destruct H as [H1 H2].
  exists c, rest. apply strip_prefix_parts in E.
  repeat split; auto. now destruct (is_underscore c).
Qed.

Lemma re_group_built (name_beg cls name_end : string) :
  all_chars is_word name_beg = true -> is_class_token cls = true ->
  all_chars is_word name_end = true ->
  re_group (group_key name_beg cls name_end) = Some (name_beg, cls, name_end).
Proof.
  intros Hb Hc He.
  destruct (is_class_token_inv _ Hc) as (c & rest & -> & Hu & Hn & Hr).
  unfold re_group, group_key.
  rewrite (append_shift "(" _ (String.append ")" name_end)).
  rewrite (append_shift name_beg _ (String.append ")" name_end)).
  change (String.append ")" name_end) with (String ")" name_end).
  rewrite (chomp_closed _ name_end He).
  rewrite <- (append_shift name_beg _ (String ")" name_end)).
  rewrite (span_built is_word name_beg _ Hb); [|reflexivity].
  cbn [String.append strip_prefix].
  rewrite !Ascii.eqb_refl, Hu.
  rewrite (span_built is_lower_us rest (String ")" name_end) Hr); [|reflexivity].
  rewrite Hn. cbn [strip_prefix]. rewrite Ascii.eqb_refl.
  rewrite (span_word _ He). reflexivity.
Qed.

(** X2.  RE_GROUP reads a group key back into its parts: a key matches with
    the captures (beginning, class, end) exactly when, up to one final
    newline, it is the beginning, the class in parentheses and the end, the
    two names made of word characters and the class NX followed by a
    character other than the underscore and then lowercase letters and
    underscores. *)
Theorem re_group_reads_group_keys (key name_beg cls name_end : string) :
  re_group key = Some (name_beg, cls, name_end)
  <-> (chomp key = group_key name_beg cls name_end
       /\ all_chars is_word name_beg = true
       /\ is_class_token cls = true
       /\ all_chars is_word name_end = true).
Proof.
  split.
  - intros H. apply re_group_inv in H.
    destruct H as (c & rest & -> & Hu & Hs & Hn & Hr & He).
    destruct (span_parts _ _ _ _ Hs) as (Hk & Hb & _).
    split; [|split; [exact Hb|split; [|exact He]]].
    + rewrite Hk. unfold group_key. cbn [String.append]. reflexivity.
    + unfold is_class_token. cbn [String.append strip_prefix].
      rewrite !Ascii.eqb_refl, Hu, Hn, Hr. reflexivity.
  - intros (Hk & Hb & Hc & He).
    pose proof (re_group_built _ _ _ Hb Hc He) as H.
    unfold re_group in *. rewrite Hk.
    assert (E : chomp (group_key name_beg cls name_end)
                = group_key name_beg cls name_end).
    { unfold group_key. rewrite (append_shift "(" _ (String.append ")" name_end)).
      rewrite (append_shift name_beg _ (String.append ")" name_end)).
      apply (chomp_closed _ name_end He). }
    rewrite E in H. exact H.
Qed.

Lemma parse_items_step (key : string) (val : value) (tl : dict)
    (st st' : level_state) :
  parse_step key val (nested val) st = Ok st' ->
  parse_items ((key, val) :: tl) st = parse_items tl st'.
Proof.
  intros H. cbn [parse_items]. fold (nested val). now rewrite H.
Qed.

Lemma parse_items_stop (key : string) (val : value) (tl : dict)
    (st : level_state) (e : exn) :
  parse_step key val (nested val) st = Raise e ->
  parse_items ((key, val) :: tl) st = Raise e.
Proof.
  intros H. cbn [parse_items]. fold (nested val). now rewrite H.
Qed.

Lemma parse_step_group (name_beg cls name_end : string) (val : value)
    (sub : dict) (st : level_state) :
  all_chars is_word name_beg = true -> is_class_token cls = true ->
  all_chars is_word name_end = true -> nested val = Ok sub ->
  parse_step (group_key name_beg cls name_end) val (nested val) st
  = Ok (add_group st
          (group_record (fst (group_name_class name_beg cls name_end))
             (snd (group_name_class name_beg cls name_end)) sub)).
Proof.
  intros Hb Hc He Hs. unfold parse_step.
  rewrite (re_group_built _ _ _ Hb Hc He), Hs. reflexivity.
Qed.

(** X3.  How a group is named.  For a group key made of a beginning, a
    class other than NXobject and an end, the parser appends one group
    record whose name is the beginning when there is one, else the end
    when there is one; with neither, for any class, the name is the class
    without its first two characters; the class is the one in the key.
    With the class NXobject and a beginning that starts with NX, the
    beginning becomes the class and what follows NX becomes the name. *)
Theorem group_naming (name_beg cls name_end : string) (val : value)
    (sub : dict) (tl : dict) (st : level_state) :
  all_chars is_word name_beg = true -> is_class_token cls = true ->
  all_chars is_word name_end = true -> nested val = Ok sub ->
  let appends nx_name nx_class :=
    parse_items ((group_key name_beg cls name_end, val) :: tl) st
    = parse_items tl (add_group st (group_record nx_name nx_class sub)) in
  (nonempty name_beg = true -> cls <> "NXobject" -> appends name_beg cls)
  /\ (name_beg = EmptyString -> nonempty name_end = true ->
      cls <> "NXobject" -> appends name_end cls)
  /\ (name_beg = EmptyString -> name_end = EmptyString ->
      appends (drop 2 cls) cls)
  /\ (forall n, cls = "NXobject" -> name_beg = String.append "NX" n ->
                appends n name_beg).
Proof.
  intros Hb Hc He Hs appends. subst appends. cbv beta.
  pose proof (parse_step_group _ _ _ val sub st Hb Hc He Hs) as Hstep.
  unfold group_name_class in Hstep.
  repeat split.
  - intros Hn Hcls. apply parse_items_step. rewrite Hstep, Hn.
    destruct (String.eqb_spec cls "NXobject") as [E|_]; [contradiction|].
    reflexivity.
  - intros -> Hn Hcls. apply parse_items_step. rewrite Hstep, Hn.
    destruct (String.eqb_spec cls "NXobject") as [E|_]; [contradiction|].
    reflexivity.
  - intros -> ->. apply parse_items_step. rewrite Hstep.
    destruct (String.eqb_spec cls "NXobject") as [->|_]; reflexivity.
  - intros n -> ->. apply parse_items_step. rewrite Hstep. reflexivity.
Qed.


(** ** Plain properties, enumerations, choices and stray keys *)

Lemma re_field_word (key : string) :
  nonempty key = true -> all_chars is_word key = true ->
  re_group key = None /\ re_field key = Some (key, None).
Proof.
  intros Hn Hw. unfold re_group, re_field.
  rewrite (chomp_word _ Hw), (span_word _ Hw), Hn. split; reflexivity.
Qed.

Lemma re_field_only (key name : string) (nx_type : option string) :
  re_field key = Some (name, nx_type) -> re_group key = None.
Proof.
  intros H. apply re_field_inv in H. destruct H as (r1 & Hs & _ & Hr).
  unfold re_group. rewrite Hs.
  destruct Hr as [->|[r ->]]; [reflexivity|].
  cbn [String.append strip_prefix]. rewrite !Ascii.eqb_refl. reflexivity.
Qed.

Lemma parse_step_plain (key : string) (val : value) (sub : exc dict)
    (st : level_state) :
  is_plain_item (key, val) = true ->
  parse_step key val sub st = Ok (set_result st key val).
Proof.
  unfold is_plain_item. cbn [fst snd]. intros H.
  apply andb_true_iff in H. destruct H as [H Hd].
  apply andb_true_iff in H. destruct H as [Hn Hw].
  destruct (re_field_word _ Hn Hw) as [Hg Hf].
  unfold parse_step. rewrite Hg, Hf, Hd. reflexivity.
Qed.

Lemma parse_items_plain (l : dict) :
  forallb is_plain_item l = true ->
  forall st,
    parse_items l st
    = Ok (level_finish
            (mk_level_state (groups st) (fields st) (attributes st) (links st)
               (dict_update (result st) l))).
Proof.
  induction l as [|[key val] tl IH]; intros H st.
  - destruct st; reflexivity.
  - cbn [forallb] in H. apply andb_true_iff in H. destruct H as [Hp Htl].
    rewrite (parse_items_step key val tl st _ (parse_step_plain _ _ _ st Hp)).
    rewrite (IH Htl). reflexivity.
Qed.

Lemma dict_update_fresh (l : dict) :
  NoDup (keys l) ->
  forall acc, (forall k, In k (keys l) -> lookup k acc = None) ->
              dict_update acc l = acc ++ l.
Proof.
  unfold dict_update.
  induction l as [|[k v] tl IH]; intros Hnd acc Hacc; cbn [fold_left fst snd].
  - now rewrite app_nil_r.
  - cbn [keys map fst] in Hnd. inversion Hnd as [|? ? Hk Htl]; subst.
    rewrite (dict_set_fresh acc k v (Hacc k (or_introl eq_refl))).
    rewrite (IH Htl).
    + now rewrite <- app_assoc.
    + intros k' Hk'. apply lookup_app_None. split.
      * apply Hacc. now right.
      * cbn [lookup]. destruct (String.eqb_spec k' k) as [->|_]; [|reflexivity].
        contradiction.
Qed.

(** X4.  A level that holds only plain properties (keys made of word
    characters, values that are not mappings, no key twice) parses to
    itself: nothing is classified, renamed or reordered. *)
Theorem plain_level_parses_to_itself (d : dict) :
  forallb is_plain_item d = true -> NoDup (keys d) ->
  parse_nxdlyml_level (VDict d) = Ok d.
Proof.
  intros Hp Hnd. rewrite parse_nxdlyml_level_dict, (parse_items_plain d Hp).
  cbn [groups fields attributes links result level_init].
  rewrite (dict_update_fresh d Hnd []); [reflexivity|].
  intros k _. reflexivity.
Qed.

(** X5.  A choice key needs alternatives: when the value under a key that
    matches RE_CHOICE is false, or parses to a level without a "groups"
    entry, the parser raises KeyError on "groups". *)
Theorem choice_without_groups_raises (key name : string) (val : value)
    (tl : dict) (st : level_state) :
  re_choice key = Some name ->
  truthy val = false
  \/ (exists sub, parse_nxdlyml_level val = Ok sub /\ lookup "groups" sub = None) ->
  parse_items ((key, val) :: tl) st = Raise (KeyError "groups").
Proof.
  intros Hc Hv. apply parse_items_stop.
  destruct (re_choice_only key Hc) as (Hg & Hf & Ha & Hl).
  unfold parse_step. rewrite Hg, Hf, Ha, Hl, Hc.
  assert (Hs : exists sub, nested val = Ok sub /\ lookup "groups" sub = None).
  { unfold nested. destruct Hv as [->|(sub & Hsub & Hno)].
    - exists (level_finish level_init). split; reflexivity.
    - destruct (truthy val); [now exists sub|].
      exists (level_finish level_init). split; reflexivity. }
  destruct Hs as (sub & -> & Hno).
  cbn [bind]. unfold choice_record, py_getitem. rewrite Hno. reflexivity.
Qed.

(** X6.  An enumeration is kept as the list of its keys.  Under a field key
    named "enumeration", typed or not, a mapping is not parsed as a level:
    the result gets the list of the mapping's keys, in their order, under
    the key as written.  With a type in the key and a value that is not a
    mapping the parser raises AttributeError. *)
Theorem enumeration_keeps_only_keys (key : string) (nx_type : option string)
    (val : value) (tl : dict) (st : level_state) :
  re_field key = Some ("enumeration", nx_type) ->
  (forall d, val = VDict d ->
             parse_items ((key, val) :: tl) st
             = parse_items tl (set_result st key (VList (map VStr (keys d)))))
  /\ (is_dict val = false -> nx_type <> None ->
      parse_items ((key, val) :: tl) st = Raise AttributeError).
Proof.
  intros Hf. pose proof (re_field_only _ _ _ Hf) as Hg. split.
  - intros d ->. apply parse_items_step. unfold parse_step.
    rewrite Hg, Hf. cbn [is_dict negb andb].
    rewrite Bool.andb_false_r. reflexivity.
  - intros Hd Ht. apply parse_items_stop. unfold parse_step.
    rewrite Hg, Hf, Hd. destruct nx_type as [t|]; [|contradiction].
    cbn [negb andb String.eqb]. destruct val; try reflexivity. discriminate Hd.
Qed.

Lemma chomp_head (c : ascii) (rest : string) :
  chomp (String c rest) = EmptyString
  \/ exists r, chomp (String c rest) = String c r.
Proof.
  destruct rest as [|c' tl].
  - cbn [chomp]. destruct (Ascii.eqb c nl); [now left|right; eauto].
  - right. exists (chomp (String c' tl)). reflexivity.
Qed.

Lemma stray_matches_nothing (key : string) :
  is_stray key = true ->
  re_group key = None /\ re_field key = None /\ re_attribute key = None
  /\ re_link key = None /\ re_choice key = None /\ startswith "$" key = false.
Proof.
  destruct key as [|c rest]; [intros _; repeat split|].
  cbn [is_stray]. intros H.
  apply andb_true_iff in H. destruct H as [H Hd].
  apply andb_true_iff in H. destruct H as [H Hb].
  apply andb_true_iff in H. destruct H as [H Ha].
  apply andb_true_iff in H. destruct H as [Hw Hp].
  apply negb_true_iff in Hw, Hp, Ha, Hb, Hd.
  assert (Hs : forall s, span is_word (String c s) = (EmptyString, String c s))
    by (intros s; cbn [span]; now rewrite Hw).
  unfold re_group, re_field, re_attribute, re_link, re_choice, re_suffixed,
    skip_backslashes, startswith.
  destruct (chomp_head c rest) as [->|[r ->]].
  - cbn [strip_prefix]. rewrite Hd. repeat split.
  - rewrite Hs. cbn [strip_prefix]. rewrite Hp, Hb, Hd. cbn [strip_prefix].
    rewrite Ha. repeat split.
Qed.

(** X7.  A stray key is fatal.  A key that is empty, or whose first
    character is neither a word character (a letter or a digit of any
    script, or the underscore) nor an opening parenthesis, an at sign, a
    backslash or a dollar sign, matches no pattern: the parser
    raises ValueError with the message Unknown NeXus term followed by the
    key, whatever the value under it. *)
Theorem stray_key_raises (key : string) (val : value) (tl : dict)
    (st : level_state) :
  is_stray key = true ->
  parse_items ((key, val) :: tl) st
  = Raise (ValueError [VStr (String.append "Unknown NeXus term: " key)]).
Proof.
  intros H. apply parse_items_stop.
  destruct (stray_matches_nothing _ H) as (Hg & Hf & Ha & Hl & Hc & Hd).
  unfold parse_step. rewrite Hg, Hf, Ha, Hl, Hc, Hd. reflexivity.
Qed.


(** ** The post-processors once more *)

Lemma reduce_converted_not_tags (v : value) :
  only_nxclass (keys (reduce_converted v)) = false.
Proof.
  destruct v as [| | | | |items]; try reflexivity.
  rewrite reduce_converted_dict.
  destruct (only_nxclass (keys (reduce_items items))) eqn:E; [reflexivity|exact E].
Qed.

Lemma reduce_items_settled (items : dict) :
  Forall (fun kv => reduce_converted (VDict (reduce_converted (snd kv)))
                    = reduce_converted (snd kv)) items ->
  reduce_items (reduce_items items) = reduce_items items.
Proof.
  induction 1 as [|[k v] tl Hv _ IH]; [reflexivity|]. cbn [snd] in Hv.
  cbn [reduce_items]. destruct (is_dict v) eqn:Hd.
  - destruct (truthy (VDict (reduce_converted v))) eqn:Ht; [|exact IH].
    cbn [reduce_items is_dict]. rewrite Hv, Ht, IH. reflexivity.
  - cbn [reduce_items]. rewrite Hd, IH. reflexivity.
Qed.

Lemma reduce_converted_twice (v : value) :
  reduce_converted (VDict (reduce_converted v)) = reduce_converted v.
Proof.
  induction v as [| | | |l _|items IH] using value_induction; try reflexivity.
  rewrite (reduce_converted_dict items).
  destruct (only_nxclass (keys (reduce_items items))) eqn:E; [reflexivity|].
  rewrite reduce_converted_dict, (reduce_items_settled items IH), E. reflexivity.
Qed.

Lemma reduce_items_form (items : dict) :
  Forall (fun kv => reduced_form (VDict (reduce_converted (snd kv))) = true) items ->
  reduced_form (VDict (reduce_items items)) = true.
Proof.
  induction 1 as [|[k v] tl Hv _ IH]; [reflexivity|]. cbn [snd] in Hv.
  cbn [reduce_items]. destruct (is_dict v) eqn:Hd.
  - destruct (truthy (VDict (reduce_converted v))) eqn:Ht; [|exact IH].
    change (reduced_form (VDict ((k, VDict (reduce_converted v)) :: reduce_items tl)))
      with ((truthy (VDict (reduce_converted v))
             && negb (only_nxclass (keys (reduce_converted v)))
             && reduced_form (VDict (reduce_converted v)))
            && reduced_form (VDict (reduce_items tl))).
    now rewrite Ht, reduce_converted_not_tags, Hv, IH.
  - change (reduced_form (VDict ((k, v) :: reduce_items tl)))
      with ((if is_dict v
             then truthy v
                  && negb (match v with
                           | VDict c => only_nxclass (keys c)
                           | _ => false
                           end)
                  && reduced_form v
             else true)
            && reduced_form (VDict (reduce_items tl))).
    now rewrite Hd, IH.
Qed.

(** X8.  [reduce_converted] gives a normal form: in its result no mapping,
    at any depth, is empty or holds class tags only, the result itself
    does not hold class tags only, and reducing it again changes nothing. *)
Theorem reduce_converted_normal_form (v : value) :
  reduced_form (VDict (reduce_converted v)) = true
  /\ only_nxclass (keys (reduce_converted v)) = false
  /\ reduce_converted (VDict (reduce_converted v)) = reduce_converted v.
Proof.
  split; [|split; [apply reduce_converted_not_tags|apply reduce_converted_twice]].
  induction v as [| | | |l _|items IH] using value_induction; try reflexivity.
  rewrite reduce_converted_dict.
  destruct (only_nxclass (keys (reduce_items items))); [reflexivity|].
  now apply reduce_items_form.
Qed.

(** X9.  Sorting is idempotent: for a mapping with distinct keys at every
    level, [sort_converted] applied to its own result returns that result,
    with every key where the first pass put it. *)
Theorem sort_converted_idempotent (d : dict) :
  wf (VDict d) = true ->
  sort_converted (VDict (sort_converted (VDict d))) = sort_converted (VDict d).
Proof.
  intros Hwf. pose proof (sort_value_ordered (VDict d) Hwf) as Ho.
  unfold sort_value in Ho. cbn [is_dict] in Ho.
  pose proof (sort_converted_ordered _ Ho) as Hfix.
  unfold sort_value in Hfix. cbn [is_dict] in Hfix.
  injection Hfix; auto.
Qed.

Lemma clean_items_no_docs (items : dict) :
  Forall (fun kv => is_dict (snd kv) = true ->
                    exists c, clean_docs (snd kv) false = Ok c
                              /\ no_docs (VDict c) = true) items ->
  exists c, clean_items items false = Ok c /\ no_docs (VDict c) = true.
Proof.
  induction 1 as [|[k v] tl Hv _ IH]; [exists []; split; reflexivity|].
  cbn [snd] in Hv. destruct IH as (r & Hr & Hnr).
  cbn [clean_items]. destruct (is_dict v) eqn:Hd.
  - destruct (Hv eq_refl) as (c & Hc & Hnc). rewrite Hc, Hr. cbn [bind].
    exists ((k, VDict c) :: r). split; [reflexivity|].
    change (no_docs (VDict ((k, VDict c) :: r)))
      with (no_docs (VDict c) && no_docs (VDict r)).
    now rewrite Hnc, Hnr.
  - destruct (String.eqb k "doc") eqn:Hk.
    + exists r. split; assumption.
    + rewrite Hr. cbn [bind]. exists ((k, v) :: r). split; [reflexivity|].
      change (no_docs (VDict ((k, v) :: r)))
        with ((if is_dict v then no_docs v else negb (String.eqb k "doc"))
              && no_docs (VDict r)).
      now rewrite Hd, Hk, Hnr.
Qed.

(** X10.  With [keep_docs] false, [clean_docs] cannot fail on a mapping,
    and in its result no key "doc" has a value that is not a mapping, at any
    depth of nested mappings. *)
Theorem clean_docs_drops_every_doc (d : dict) :
  exists c, clean_docs (VDict d) false = Ok c /\ no_docs (VDict c) = true.
Proof.
  assert (H : forall v, is_dict v = true ->
                        exists c, clean_docs v false = Ok c
                                  /\ no_docs (VDict c) = true).
  { induction v as [| | | |l _|items IH] using value_induction; try discriminate.
    intros _. rewrite clean_docs_dict. now apply clean_items_no_docs. }
  exact (H (VDict d) eq_refl).
Qed.

Lemma clean_items_text (items : dict) :
  Forall (fun kv => is_dict (snd kv) = true ->
                    if docs_are_text (snd kv)
                    then exists c, clean_docs (snd kv) true = Ok c
                    else clean_docs (snd kv) true = Raise AttributeError) items ->
  if docs_are_text (VDict items)
  then exists c, clean_items items true = Ok c
  else clean_items items true = Raise AttributeError.
Proof.
  induction 1 as [|[k v] tl Hv _ IH]; [now exists []|].
  cbn [snd] in Hv.
  change (docs_are_text (VDict ((k, v) :: tl)))
    with ((if is_dict v then docs_are_text v
           else if String.eqb k "doc"
                then match v with VStr _ => true | _ => false end
                else true)
          && docs_are_text (VDict tl)).
  cbn [clean_items]. destruct (is_dict v) eqn:Hd.
  - specialize (Hv eq_refl). destruct (docs_are_text v).
    + destruct Hv as [c ->]. cbn [bind andb].
      destruct (docs_are_text (VDict tl)).
      * destruct IH as [r ->]. cbn [bind]. eauto.
      * rewrite IH. reflexivity.
    + rewrite Hv. reflexivity.
  - destruct (String.eqb k "doc").
    + destruct v; try reflexivity; try discriminate Hd. cbn [andb].
      destruct (docs_are_text (VDict tl)).
      * destruct IH as [r ->]. cbn [bind]. eauto.
      * rewrite IH. reflexivity.
    + cbn [andb]. destruct (docs_are_text (VDict tl)).
      * destruct IH as [r ->]. cbn [bind]. eauto.
      * rewrite IH. reflexivity.
Qed.

(** X11.  With [keep_docs] true, [clean_docs] succeeds on a mapping exactly
    when every value under a key "doc", at any depth, is a string or a
    mapping; otherwise it raises AttributeError, as for a "doc" that is
    None, a number or a list. *)
Theorem clean_docs_needs_text (d : dict) :
  if docs_are_text (VDict d)
  then exists c, clean_docs (VDict d) true = Ok c
  else clean_docs (VDict d) true = Raise AttributeError.
Proof.
  assert (H : forall v, is_dict v = true ->
                        if docs_are_text v
                        then exists c, clean_docs v true = Ok c
                        else clean_docs v true = Raise AttributeError).
  { induction v as [| | | |l _|items IH] using value_induction; try discriminate.
    intros _. rewrite clean_docs_dict. now apply clean_items_text. }
  exact (H (VDict d) eq_refl).
Qed.


Lemma clean_items_doc (items : dict) (s : string) :
  forall c,
    clean_items items true = Ok c -> lookup "doc" items = Some (VStr s) ->
    lookup "doc" c = Some (VStr (strip (replace_nl s))).
Proof.
  induction items as [|[k v] tl IH]; intros c Hc Hl; [discriminate Hl|].
  cbn [clean_items] in Hc. cbn [lookup] in Hl.
  destruct (is_dict v) eqn:Hd.
  - apply bind_ok in Hc. destruct Hc as (cv & _ & Hc).
    apply bind_ok in Hc. destruct Hc as (r & Hr & Hc).
    inversion Hc; subst c. cbn [lookup].
    destruct (String.eqb "doc" k).
    + inversion Hl; subst v. discriminate Hd.
    + exact (IH r Hr Hl).
  - destruct (String.eqb_spec k "doc") as [->|Hk].
    + cbn [String.eqb Ascii.eqb Bool.eqb] in Hl. inversion Hl; subst v.
      apply bind_ok in Hc. destruct Hc as (r & Hr & Hc).
      inversion Hc; subst c. reflexivity.
    + apply bind_ok in Hc. destruct Hc as (r & Hr & Hc).
      inversion Hc; subst c. cbn [lookup].
      destruct (String.eqb_spec "doc" k) as [E|_]; [now symmetry in E|].
      exact (IH r Hr Hl).
Qed.

(** X12.  A kept documentation string is one trimmed line: with
    [keep_docs] true, the string under the key "doc" of a mapping comes out
    with its newlines replaced by blanks and then stripped, so it holds no
    newline and neither starts nor ends with whitespace. *)
Theorem kept_doc_is_one_trimmed_line (d c : dict) (s : string) :
  clean_docs (VDict d) true = Ok c -> lookup "doc" d = Some (VStr s) ->
  exists t,
    lookup "doc" c = Some (VStr t) /\ t = strip (replace_nl s)
    /\ contains nl t = false /\ lstrip t = t /\ rstrip t = t.
Proof.
  intros Hc Hl. rewrite clean_docs_dict in Hc.
  exists (strip (replace_nl s)). split; [exact (clean_items_doc d s c Hc Hl)|].
  split; [reflexivity|]. unfold strip. split; [|split].
  - apply lstrip_clear, rstrip_clear, replace_nl_clear.
  - apply lstrip_lstrip.
  - apply rstrip_lstrip, rstrip_rstrip.
Qed.

(** ** References in simplified files *)

Lemma settled_no_refs (fuel : nat) :
  forall v, settled fuel v -> no_refs v = true.
Proof.
  induction fuel as [|fuel IH]; intros v H.
  - destruct v; try reflexivity. destruct H.
  - destruct v as [| | | | |d]; try reflexivity. destruct H as [Hk Hc].
    apply no_refs_dict. split; [exact Hk|].
    intros k x Hin. apply IH. exact (Hc k x Hin).
Qed.

(** X13.  Where every file that can be loaded is a simplified one with
    distinct keys, what [convert_nxyaml] does to the content of a simplified
    file without reducing (resolve the references, sort, clean the
    documentation) is idempotent: applied to its own result, from any
    directory, it returns that result. *)
Theorem simplified_conversion_is_stable (np : value -> exc string)
    (load_yaml : string -> option value)
    (path_join : string -> string -> string) (path_parent : string -> string)
    (fuel : nat) (x : value) (root_dir root_dir' : string) (keep_docs : bool)
    (t : dict) :
  simplified_files load_yaml -> wf x = true ->
  convert_simplified np load_yaml path_join path_parent fuel x root_dir keep_docs
  = Ok t ->
  convert_simplified np load_yaml path_join path_parent fuel (VDict t) root_dir'
    keep_docs = Ok t.
Proof.
  intros Hfiles Hwf H.
  exact (simplified_pipeline_idempotent np load_yaml path_join path_parent
           Hfiles fuel x root_dir root_dir' keep_docs t Hwf H).
Qed.

(** X14.  Where every file that can be loaded is a simplified one with
    distinct keys, what [resolve_nxdlrefs] returns for a mapping with
    distinct keys holds no "$nxdlref" key at any depth, and its keys are
    distinct at every level. *)
Theorem resolution_leaves_no_reference (np : value -> exc string)
    (load_yaml : string -> option value)
    (path_join : string -> string -> string) (path_parent : string -> string)
    (fuel : nat) (x : value) (root_dir : string) (y : dict) :
  simplified_files load_yaml -> wf x = true ->
  resolve_nxdlrefs np load_yaml path_join path_parent fuel x root_dir = Ok y ->
  no_refs (VDict y) = true /\ wf (VDict y) = true.
Proof.
  intros Hfiles Hwf H.
  destruct (proj1 (resolve_invariant np load_yaml path_join path_parent
                     Hfiles fuel) x root_dir y Hwf H) as [Hwy Hsy].
  split; [exact (settled_no_refs fuel _ Hsy)|exact Hwy].
Qed.

(** ** Keys that take a mapping *)

Lemma re_attribute_only (key name : string) (nx_type : option string) :
  re_attribute key = Some (name, nx_type) ->
  re_group key = None /\ re_field key = None.
Proof.
  intros H. apply re_attribute_inv in H. destruct H as (c & r & Hs & Hc).
  unfold re_group, re_field. rewrite Hs.
  destruct Hc as [-> | ->]; split; reflexivity.
Qed.

Lemma re_link_only (key name : string) :
  re_link key = Some name ->
  re_group key = None /\ re_field key = None /\ re_attribute key = None.
Proof.
  intros H. apply re_suffixed_inv in H. destruct H as (c & a & -> & Hs).
  destruct (span_head _ _ Hs) as (s' & Hk & Hc).
  repeat split.
  - unfold re_group. rewrite Hs. reflexivity.
  - unfold re_field. rewrite Hs. reflexivity.
  - unfold re_attribute, skip_backslashes. rewrite Hk. cbn [strip_prefix].
    destruct (Ascii.eqb_spec "\"%char c) as [<-|_]; [discriminate Hc|].
    cbn [strip_prefix].
    destruct (Ascii.eqb_spec "@"%char c) as [<-|_]; [discriminate Hc|].
    reflexivity.
Qed.

Lemma nested_scalar (val : value) :
  truthy val = true -> is_dict val = false -> nested val = Raise AttributeError.
Proof.
  intros Ht Hd. unfold nested. rewrite Ht. destruct val; try reflexivity.
  discriminate Hd.
Qed.

(** X15.  A classified key takes a mapping or nothing.  Under a key that
    matches RE_GROUP, RE_ATTRIBUTE, RE_LINK or RE_CHOICE, or RE_FIELD with
    a type, a value that is true and is not a mapping (a text, a number, a
    list) makes the parser raise AttributeError. *)
Theorem classified_key_needs_mapping (key : string) (val : value) (tl : dict)
    (st : level_state) :
  truthy val = true -> is_dict val = false ->
  re_group key <> None \/ re_attribute key <> None \/ re_link key <> None
  \/ re_choice key <> None
  \/ (exists name nx_type, re_field key = Some (name, Some nx_type)) ->
  parse_items ((key, val) :: tl) st = Raise AttributeError.
Proof.
  intros Ht Hd Hk. apply parse_items_stop. rewrite (nested_scalar val Ht Hd).
  unfold parse_step.
  destruct Hk as [H|[H|[H|[H|(name & t & H)]]]].
  - destruct (re_group key) as [[[b c] e]|]; [reflexivity|contradiction].
  - destruct (re_attribute key) as [[n t]|] eqn:E; [|contradiction].
    destruct (re_attribute_only _ _ _ E) as [-> ->]. reflexivity.
  - destruct (re_link key) as [n|] eqn:E; [|contradiction].
    destruct (re_link_only _ _ E) as (-> & -> & ->). reflexivity.
  - destruct (re_choice key) as [n|] eqn:E; [|contradiction].
    destruct (re_choice_only key E) as (-> & -> & -> & ->). reflexivity.
  - rewrite (re_field_only _ _ _ H), H, Hd. cbn [negb andb].
    destruct (String.eqb name "enumeration"); [|reflexivity].
    destruct val; try reflexivity. discriminate Hd.
Qed.


(** ** What the parser hands to the converters *)

Lemma dollar_head (k : string) :
  startswith "$" k = true -> exists rest, k = String "$" rest.
Proof.
  unfold startswith. destruct (strip_prefix "$" k) as [r|] eqn:E; [|discriminate].
  intros _. exists r. exact (strip_prefix_parts _ _ _ E).
Qed.

Lemma lookup_dict_update_None (u : dict) (k : string) :
  lookup k u = None -> forall d, lookup k (dict_update d u) = lookup k d.
Proof.
  unfold dict_update.
  induction u as [|[k' v] tl IH]; intros Hu d; [reflexivity|].
  cbn [lookup] in Hu. destruct (String.eqb_spec k k') as [->|Hne]; [discriminate Hu|].
  cbn [fold_left fst snd]. rewrite (IH Hu). now apply lookup_dict_set_ne.
Qed.

Lemma parse_step_ok (key : string) (val : value) (sub : exc dict)
    (st st' : level_state) :
  parse_step key val sub st = Ok st' ->
  startswith "$" key = false
  /\ (result st' = result st \/ exists x, result st' = dict_set (result st) key x)
  /\ (fields st' = fields st
      \/ exists s t,
           sub = Ok s
           /\ fields st'
              = fields st
                ++ [VDict (dict_update [("nx_term", VStr "field"); ("nx_name", VStr (fst t));
                                        ("nx_type", opt_str (snd t))] s)]).
Proof.
  intros H. split.
  - destruct (startswith "$" key) eqn:E; [|reflexivity].
    destruct (dollar_head _ E) as [rest ->].
    rewrite parse_step_dollar in H. discriminate H.
  - unfold parse_step in H.
    destruct (re_group key) as [[[b c] e]|].
    { destruct sub as [s|e0]; [|discriminate H]. inversion H; subst. cbn. auto. }
    destruct (re_field key) as [[n t]|].
    { destruct ((match t with None => true | Some _ => false end)
                && negb (is_dict val)).
      - inversion H; subst. cbn. eauto.
      - destruct (String.eqb n "enumeration").
        + destruct (py_items val) as [d|e0]; [|discriminate H].
          inversion H; subst. cbn. eauto.
        + destruct sub as [s|e0]; [|discriminate H]. inversion H; subst. cbn.
          split; [auto|]. right. exists s, (n, t). auto. }
    destruct (re_attribute key) as [[n t]|].
    { destruct sub as [s|e0]; [|discriminate H]. inversion H; subst. cbn. auto. }
    destruct (re_link key) as [n|].
    { destruct sub as [s|e0]; [|discriminate H]. inversion H; subst. cbn. auto. }
    destruct (re_choice key) as [n|].
    { destruct sub as [s|e0]; [|discriminate H]. cbn [bind] in H.
      destruct (choice_record n s) as [rec|e0]; [|discriminate H].
      inversion H; subst. cbn. auto. }
    destruct (startswith "$" key); discriminate H.
Qed.

Lemma level_finish_keys (st : level_state) (k : string) :
  In k (keys (level_finish st)) ->
  In k (keys (result st)) \/ In k ["groups"; "fields"; "attributes"; "links"].
Proof.
  unfold level_finish.
  destruct (truthy (VList (groups st))), (truthy (VList (fields st))),
    (truthy (VList (attributes st))), (truthy (VList (links st)));
    intros H;
    repeat match type of H with
           | In _ (keys (dict_set _ _ _)) =>
               apply keys_dict_set in H; destruct H as [->|H]; [cbn; tauto|]
           end;
    now left.
Qed.

Lemma parse_items_keys (l : dict) :
  forall st r,
    parse_items l st = Ok r ->
    (forall k, In k (keys (result st)) -> startswith "$" k = false) ->
    forall k, In k (keys r) -> startswith "$" k = false.
Proof.
  induction l as [|[key val] tl IH]; intros st r H Hst k Hk.
  - cbn [parse_items] in H. inversion H; subst r.
    destruct (level_finish_keys st k Hk) as [Hin|Hin]; [now apply Hst|].
    cbn in Hin. destruct Hin as [<-|[<-|[<-|[<-|[]]]]]; reflexivity.
  - cbn [parse_items] in H. apply bind_ok in H. destruct H as (st' & Hstep & H).
    destruct (parse_step_ok _ _ _ _ _ Hstep) as (Hd & Hres & _).
    apply (IH st' r H); [|exact Hk].
    intros k' Hk'. destruct Hres as [E|[x E]]; rewrite E in Hk'.
    + now apply Hst.
    + apply keys_dict_set in Hk'. destruct Hk' as [->|Hk']; [exact Hd|now apply Hst].
Qed.

Lemma nested_keys (val : value) (s : dict) :
  nested val = Ok s -> lookup "$value" s = None.
Proof.
  unfold nested. intros H. apply lookup_None. intros Hin.
  assert (Hd : startswith "$" "$value" = false); [|discriminate Hd].
  destruct (truthy val).
  - destruct val as [| | | | |items]; try discriminate H.
    rewrite parse_nxdlyml_level_dict in H.
    apply (parse_items_keys items level_init s H); [intros k []|exact Hin].
  - inversion H; subst s. destruct Hin.
Qed.

Lemma parse_items_fields (l : dict) :
  forall st r fl,
    parse_items l st = Ok r ->
    Forall no_value (fields st) ->
    lookup "fields" (result st) = None -> lookup "fields" l = None ->
    lookup "fields" r = Some fl ->
    exists records, fl = VList records /\ Forall no_value records.
Proof.
  induction l as [|[key val] tl IH]; intros st r fl H Hf Hres Hl Hr.
  - cbn [parse_items] in H. inversion H; subst r. clear H.
    unfold level_finish in Hr.
    destruct (truthy (VList (fields st))) eqn:Ht.
    + exists (fields st). split; [|exact Hf].
      destruct (truthy (VList (groups st))), (truthy (VList (attributes st))),
        (truthy (VList (links st)));
        rewrite ?lookup_dict_set_ne in Hr by (intros E; discriminate E);
        rewrite lookup_dict_set_eq in Hr; now inversion Hr.
    + destruct (truthy (VList (groups st))), (truthy (VList (attributes st))),
        (truthy (VList (links st)));
        rewrite ?lookup_dict_set_ne in Hr by (intros E; discriminate E);
        rewrite Hres in Hr; discriminate Hr.
  - cbn [lookup] in Hl.
    destruct (String.eqb_spec "fields" key) as [E|Hne]; [discriminate Hl|].
    cbn [parse_items] in H. fold (nested val) in H.
    apply bind_ok in H. destruct H as (st' & Hstep & H).
    destruct (parse_step_ok _ _ _ _ _ Hstep) as (_ & Hres' & Hf').
    apply (IH st' r fl H); [| |exact Hl|exact Hr].
    + destruct Hf' as [->|(s & t & Hs & ->)]; [exact Hf|].
      apply Forall_app. split; [exact Hf|]. constructor; [|constructor].
      eexists. split; [reflexivity|].
      rewrite (lookup_dict_update_None s "$value" (nested_keys val s Hs)).
      reflexivity.
    + destruct Hres' as [->|[x ->]]; [exact Hres|].
      rewrite lookup_dict_set_ne by exact Hne. exact Hres.
Qed.

(** X16.  Under reduction no parsed field survives.  The parser returns no
    key that starts with a dollar sign, so no field record it builds holds
    "$value"; [convert_fields] with [reduce] true, given the fields of a
    parsed level that has no key named "fields" of its own, returns the
    empty mapping. *)
Theorem parsed_fields_vanish_under_reduction (np : value -> exc string)
    (items r : dict) (fl : value) :
  parse_nxdlyml_level (VDict items) = Ok r ->
  lookup "fields" items = None -> lookup "fields" r = Some fl ->
  (forall k, In k (keys r) -> startswith "$" k = false)
  /\ convert_fields np fl true = Ok [].
Proof.
  intros H Hl Hr. rewrite parse_nxdlyml_level_dict in H. split.
  - apply (parse_items_keys items level_init r H). intros k [].
  - destruct (parse_items_fields items level_init r fl H (Forall_nil _)
                eq_refl Hl Hr) as (records & -> & Hall).
    unfold convert_fields. cbn [py_iter bind]. clear H Hl Hr.
    induction Hall as [|v tl (d & -> & Hd) _ IH]; [reflexivity|].
    cbn [foldM]. rewrite (@field_dropped np d []); [exact IH|].
    unfold get. now rewrite Hd.
Qed.


Lemma lookup_dict_update_Some (u : dict) (k : string) (x : value) :
  NoDup (keys u) -> lookup k u = Some x ->
  forall d, lookup k (dict_update d u) = Some x.
Proof.
  induction u as [|[k' v] tl IH]; intros Hnd Hu d; [discriminate Hu|].
  cbn [keys map fst] in Hnd. inversion Hnd as [|? ? Hk Htl]; subst.
  cbn [lookup] in Hu. unfold dict_update. cbn [fold_left fst snd].
  fold (dict_update (dict_set d k' v) tl).
  destruct (String.eqb_spec k k') as [->|Hne].
  - inversion Hu; subst x.
    rewrite lookup_dict_update_None by (now apply lookup_None).
    apply lookup_dict_set_eq.
  - now apply IH.
Qed.

Lemma get_dict_update (base u : dict) (k : string) :
  NoDup (keys u) -> lookup k base = None -> get (dict_update base u) k = get u k.
Proof.
  intros Hnd Hb. unfold get. destruct (lookup k u) as [x|] eqn:E.
  - now rewrite (lookup_dict_update_Some u k x Hnd E).
  - now rewrite (lookup_dict_update_None u k E), Hb.
Qed.

Lemma plain_lookup_word (d : dict) (k : string) :
  forallb is_plain_item d = true -> all_chars is_word k = false ->
  lookup k d = None.
Proof.
  intros Hd Hk. induction d as [|[k' v] tl IH]; [reflexivity|].
  cbn [forallb] in Hd. apply andb_true_iff in Hd. destruct Hd as [Hp Htl].
  cbn [lookup]. destruct (String.eqb_spec k k') as [->|_]; [|exact (IH Htl)].
  unfold is_plain_item in Hp. cbn [fst snd] in Hp.
  apply andb_true_iff in Hp. destruct Hp as [Hp _].
  apply andb_true_iff in Hp. destruct Hp as [_ Hw]. congruence.
Qed.

Lemma nested_plain (d : dict) :
  forallb is_plain_item d = true -> NoDup (keys d) -> nested (VDict d) = Ok d.
Proof.
  intros Hp Hnd. unfold nested. destruct d as [|kv tl]; [reflexivity|].
  cbn [truthy List.length Nat.eqb negb].
  rewrite parse_nxdlyml_level_dict, (parse_items_plain _ Hp).
  cbn [groups fields attributes links result level_init].
  rewrite (dict_update_fresh _ Hnd []); [reflexivity|].
  intros k _. reflexivity.
Qed.

(** X17.  A parsed link.  For a key that matches RE_LINK over a level of
    plain properties that does not name itself, the parser returns one link
    record and [convert_links] stores, under the name from the key, the
    class tag NXlink, the target that the level gives under "target" (None
    when it gives none) and the documentation when it is true. *)
Theorem parsed_link_converts (key name : string) (d : dict) :
  re_link key = Some name ->
  forallb is_plain_item d = true -> NoDup (keys d) ->
  lookup "nx_name" d = None ->
  exists links,
    parse_nxdlyml_level (VDict [(key, VDict d)]) = Ok [("links", links)]
    /\ convert_links links = Ok [(name, link_entry d)].
Proof.
  intros Hk Hp Hnd Hn.
  destruct (re_link_only _ _ Hk) as (Hg & Hf & Ha).
  set (rec := dict_update [("nx_term", VStr "link"); ("nx_name", VStr name);
                           ("nx_type", VNone)] d).
  exists (VList [VDict rec]). split.
  - rewrite parse_nxdlyml_level_dict.
    rewrite (parse_items_step key (VDict d) [] level_init
               (mk_level_state [] [] [] [VDict rec] [])); [reflexivity|].
    unfold parse_step. rewrite Hg, Hf, Ha, Hk, (nested_plain d Hp Hnd).
    reflexivity.
  - assert (Ht : get rec "target" = get d "target")
      by (apply get_dict_update; [exact Hnd|reflexivity]).
    assert (Hdoc : get rec "doc" = get d "doc")
      by (apply get_dict_update; [exact Hnd|reflexivity]).
    assert (Hv : lookup "$value" rec = None).
    { unfold rec. rewrite lookup_dict_update_None; [reflexivity|].
      now apply plain_lookup_word. }
    assert (Hname : lookup "nx_name" rec = Some (VStr name))
      by (unfold rec; rewrite lookup_dict_update_None; [reflexivity|exact Hn]).
    unfold convert_links, convert_link, add_doc, link_entry.
    cbn [py_iter bind foldM]. rewrite !py_get_dict. cbn [bind].
    unfold py_get, py_getitem. rewrite Hv, Hname, Ht, Hdoc. cbn [bind as_key].
    destruct (truthy (get d "doc")); reflexivity.
Qed.

(** X18.  A group with nothing under it converts to its class tag.  For a
    group key with a false value, parsing the level and converting its
    groups gives one mapping, under the name of the group, that holds the
    class and nothing else (the absent reference is dropped); so
    [reduce_converted] returns the empty mapping for it. *)
Theorem empty_group_is_a_class_tag (np : value -> exc string)
    (load_yaml : string -> option value)
    (path_join : string -> string -> string) (path_parent : string -> string)
    (fuel : nat) (name_beg cls name_end : string) (val : value)
    (root_dir : string) (reduce : bool) :
  all_chars is_word name_beg = true -> is_class_token cls = true ->
  all_chars is_word name_end = true -> truthy val = false ->
  let nx_name := fst (group_name_class name_beg cls name_end) in
  let nx_class := snd (group_name_class name_beg cls name_end) in
  convert_level_groups np load_yaml path_join path_parent (S (S fuel))
    (VDict [(group_key name_beg cls name_end, val)]) root_dir reduce
  = Ok [(nx_name, VDict [("nxclass", VStr nx_class)])]
  /\ reduce_converted (VDict [(nx_name, VDict [("nxclass", VStr nx_class)])]) = [].
Proof.
  intros Hb Hc He Hv nx_name nx_class. split; [|reflexivity].
  assert (Hs : nested val = Ok []) by (unfold nested; now rewrite Hv).
  unfold convert_level_groups. rewrite parse_nxdlyml_level_dict.
  rewrite (parse_items_step _ val [] level_init _
             (parse_step_group name_beg cls name_end val [] level_init
                Hb Hc He Hs)).
  fold nx_name nx_class. generalize nx_name nx_class. intros n c.
  reflexivity.
Qed.


(** ** Enumerations and data types *)

Lemma add_dtype_char (x d d' : dict) :
  lookup "type" x = Some (VStr "NX_CHAR") ->
  add_dtype (VDict x) d = Ok d' -> lookup "dtype" d' = Some (VStr "str").
Proof.
  intros Ht H. unfold add_dtype, py_get in H. rewrite Ht in H.
  cbn in H. inversion H; subst d'. apply lookup_dict_set_eq.
Qed.

Lemma add_enumeration_truthy (np : value -> exc string) (x d d' : dict) :
  truthy (get x "enumeration") = true ->
  add_enumeration np (VDict x) d = Ok d' ->
  lookup "enumeration" d' = Some (get x "enumeration")
  /\ exists t,
       lookup "dtype" d' = Some (VStr t) /\ startswith "str" t = false
       /\ (lookup "dtype" d = Some (VStr "str") -> t = "char").
Proof.
  intros Ht H. unfold add_enumeration in H. rewrite py_get_dict in H.
  cbn [bind] in H. rewrite Ht in H.
  apply bind_ok in H. destruct H as (dtype & Hdt & H). inversion H; subst d'.
  split.
  - rewrite lookup_dict_set_ne by (intros E; discriminate E).
    apply lookup_dict_set_eq.
  - exists (if startswith "str" dtype then "char" else dtype).
    split; [apply lookup_dict_set_eq|]. split.
    + destruct (startswith "str" dtype) eqn:E; [reflexivity|exact E].
    + intros Hd. rewrite lookup_dict_set_ne in Hdt by (intros E; discriminate E).
      rewrite Hd in Hdt. cbn in Hdt. inversion Hdt; subst dtype. reflexivity.
Qed.

(** X19.  With an enumeration the data type is never a string type.  An
    attribute, or a field converted without reduction, whose "enumeration"
    is true is stored as a mapping that holds the enumeration and a "dtype"
    that does not start with "str"; when its "type" is NX_CHAR the dtype is
    "char", where without the enumeration it would be "str". *)
Theorem enumeration_dtype_is_never_str (np : value -> exc string)
    (result r a : dict) :
  truthy (get a "enumeration") = true ->
  convert_attribute np result (VDict a) = Ok r
  \/ convert_field np false result (VDict a) = Ok r ->
  exists name entry t,
    r = dict_set result name (VDict entry)
    /\ lookup "enumeration" entry = Some (get a "enumeration")
    /\ lookup "dtype" entry = Some (VStr t)
    /\ startswith "str" t = false
    /\ (lookup "type" a = Some (VStr "NX_CHAR") -> t = "char").
Proof.
  intros Ht [H|H].
  - apply convert_attribute_inv in H.
    destruct H as (x & name & attr_dict & d1 & d2 & Hx & _ & H1 & H2 & H3 & ->).
    inversion Hx; subst x. clear Hx.
    destruct (add_enumeration_truthy np a d1 d2 Ht H2) as (He & t & Hd & Hs & Hc).
    assert (He' : lookup "enumeration" attr_dict = Some (get a "enumeration")).
    { rewrite (@add_doc_lookup (VDict a) d2 attr_dict "enumeration" H3); [exact He|].
      intros E; discriminate E. }
    assert (Hd' : lookup "dtype" attr_dict = Some (VStr t)).
    { rewrite (@add_doc_lookup (VDict a) d2 attr_dict "dtype" H3); [exact Hd|].
      intros E; discriminate E. }
    exists name, attr_dict, t. unfold attribute_entry.
    destruct attr_dict as [|kv tl]; [discriminate He'|].
    repeat split; auto.
    intros Hty. apply Hc. exact (add_dtype_char a _ d1 Hty H1).
  - apply convert_field_inv in H.
    destruct H as (x & name & fld_dict & d1 & d2 & atr & Hx & _ & H1 & H2 & H3 & ->).
    inversion Hx; subst x. clear Hx.
    destruct (add_enumeration_truthy np a d1 d2 Ht H2) as (He & t & Hd & Hs & Hc).
    exists name, fld_dict, t. repeat split; auto.
    + rewrite (@add_doc_lookup (VDict a) _ fld_dict "enumeration" H3)
        by (intros E; discriminate E).
      destruct (truthy (VDict atr)); [|exact He].
      rewrite lookup_dict_set_ne by (intros E; discriminate E). exact He.
    + rewrite (@add_doc_lookup (VDict a) _ fld_dict "dtype" H3)
        by (intros E; discriminate E).
      destruct (truthy (VDict atr)); [|exact Hd].
      rewrite lookup_dict_set_ne by (intros E; discriminate E). exact Hd.
    + intros Hty. apply Hc. exact (add_dtype_char a _ d1 Hty H1).
Qed.

(** ** The root of an original file *)

Lemma dict_remove_filter (k : string) (keep : string * value -> bool) (d : dict) :
  dict_remove k (filter keep d)
  = filter (fun kv => keep kv && negb (String.eqb (fst kv) k)) d.
Proof.
  unfold dict_remove. induction d as [|kv tl IH]; [reflexivity|].
  cbn [filter]. destruct (keep kv); cbn [filter andb]; [|exact IH].
  destruct (negb (String.eqb (fst kv) k)); now rewrite IH.
Qed.

Lemma root_rest_pops (d : dict) :
  fold_left (fun d k => dict_remove k d) root_metadata
    (dict_remove "type" (dict_remove "category" d))
  = root_rest d.
Proof.
  unfold root_metadata. cbn [fold_left].
  unfold dict_remove at 8. rewrite !dict_remove_filter.
  unfold root_rest. apply filter_ext. intros [k v]. cbn [fst].
  unfold is_root_metadata, in_list, root_metadata. cbn [existsb].
  rewrite orb_false_r, !negb_orb, !andb_assoc. reflexivity.
Qed.

(** X20.  The root of an original file.  For a file whose mapping has a
    true "category", [convert_nxyaml] raises KeyError when there is no
    "type", and otherwise raises ValueError unless exactly one key is left
    once "category", "type", "symbols", "deprecated", the three
    "ignoreExtra" keys and "doc" are put aside; nothing is parsed before
    that check. *)
Theorem original_root_checks (np : value -> exc string)
    (load_yaml : string -> option value)
    (path_join : string -> string -> string) (path_parent : string -> string)
    (fuel : nat) (fpath : string) (d : dict) (reduce sort keep_docs : bool) :
  load_yaml fpath = Some (VDict d) -> truthy (get d "category") = true ->
  (lookup "type" d = None ->
   convert_nxyaml np load_yaml path_join path_parent (S fuel) fpath reduce sort
     keep_docs = Raise (KeyError "type"))
  /\ (lookup "type" d <> None -> List.length (root_rest d) <> 1 ->
      convert_nxyaml np load_yaml path_join path_parent (S fuel) fpath reduce
        sort keep_docs = Raise (ValueError [VStr msg_root_keys])).
Proof.
  intros Hload Hcat. unfold get in Hcat.
  assert (Ht : lookup "type" (dict_remove "category" d) = lookup "type" d)
    by (apply lookup_remove_ne; intros E; discriminate E).
  split.
  - intros Hty. cbn [convert_nxyaml]. rewrite Hload. cbn [py_pop bind fst snd].
    rewrite Hcat, Ht, Hty. reflexivity.
  - intros Hty Hlen. cbn [convert_nxyaml]. rewrite Hload.
    cbn [py_pop bind fst snd]. rewrite Hcat, Ht.
    destruct (lookup "type" d) as [ty|]; [|contradiction].
    rewrite root_rest_pops.
    destruct (Nat.eqb_spec (List.length (root_rest d)) 1) as [E|_];
      [contradiction|reflexivity].
Qed.


(** ** [deep_update] once more *)

Lemma keys_dict_set_order (d : dict) (k : string) (x : value) :
  keys (dict_set d k x) = if mem k d then keys d else keys d ++ [k].
Proof.
  unfold mem. induction d as [|[k' v] tl IH]; [reflexivity|].
  cbn [dict_set lookup]. destruct (String.eqb k k'); [reflexivity|].
  cbn [keys map fst]. fold (keys (dict_set tl k x)) (keys tl). rewrite IH.
  destruct (lookup k tl); reflexivity.
Qed.

Lemma mem_dict_set (d : dict) (k k' : string) (x : value) :
  k' <> k -> mem k' (dict_set d k x) = mem k' d.
Proof.
  intros Hne. unfold mem. now rewrite lookup_dict_set_ne.
Qed.

Lemma merge_step_sets (k : string) (v d d' : value) :
  (if is_dict v then
     base <- py_get d k (VDict []) ;;
     merged <- deep_update base v ;;
     py_setitem d k merged
   else py_setitem d k v) = Ok d' ->
  exists dd x, d = VDict dd /\ d' = VDict (dict_set dd k x)
               /\ (is_dict v = false -> x = v)
               /\ (is_dict v = true ->
                   exists base, deep_update base v = Ok x
                                /\ py_get d k (VDict []) = Ok base).
Proof.
  intros H. destruct d as [| | | | |dd];
    try (destruct (is_dict v); discriminate H).
  destruct (is_dict v).
  - apply bind_ok in H. destruct H as (base & Hb & H).
    apply bind_ok in H. destruct H as (merged & Hm & H).
    inversion H; subst d'. exists dd, merged. repeat split; try discriminate.
    intros _. eauto.
  - inversion H; subst d'. exists dd, v. repeat split; try discriminate.
Qed.

Lemma merge_items_order (l : dict) :
  NoDup (keys l) ->
  forall acc m,
    merge_items l (VDict acc) = Ok m ->
    exists g, m = VDict g
              /\ keys g = keys acc ++ filter (fun k => negb (mem k acc)) (keys l).
Proof.
  induction l as [|[k v] tl IH]; intros Hnd acc m H.
  - inversion H; subst m. exists acc. now rewrite app_nil_r.
  - cbn [keys map fst] in Hnd. inversion Hnd as [|? ? Hk Htl]; subst.
    cbn [merge_items] in H. apply bind_ok in H. destruct H as (d' & Hstep & H).
    destruct (merge_step_sets _ _ _ _ Hstep) as (dd & x & Hdd & -> & _).
    inversion Hdd; subst dd. clear Hdd.
    destruct (IH Htl _ _ H) as (g & -> & Hg). exists g. split; [reflexivity|].
    rewrite Hg, keys_dict_set_order. cbn [keys map fst filter].
    assert (E : filter (fun k' => negb (mem k' (dict_set acc k x))) (map fst tl)
                = filter (fun k' => negb (mem k' acc)) (map fst tl)).
    { apply filter_ext_in. intros k' Hin. rewrite mem_dict_set; [reflexivity|].
      intros ->. contradiction. }
    fold (keys tl) in E |- *. rewrite E.
    destruct (mem k acc); cbn [negb]; [reflexivity|].
    now rewrite <- app_assoc.
Qed.

(** X21.  [deep_update] keeps the order of the base.  Merging a mapping
    with distinct keys into a mapping leaves the keys of the base where
    they are and puts the keys that only the update has after them, in the
    order of the update. *)
Theorem deep_update_keeps_key_order (d u : dict) (m : value) :
  NoDup (keys u) -> deep_update (VDict d) (VDict u) = Ok m ->
  exists g, m = VDict g
            /\ keys g = keys d ++ filter (fun k => negb (mem k d)) (keys u).
Proof.
  intros Hnd H. rewrite deep_update_dict in H.
  exact (merge_items_order u Hnd d m H).
Qed.

Lemma dict_set_same (d : dict) (k : string) (x : value) :
  lookup k d = Some x -> dict_set d k x = d.
Proof.
  induction d as [|[k' v] tl IH]; [discriminate|].
  cbn [lookup dict_set]. destruct (String.eqb_spec k k') as [->|_].
  - intros H. now inversion H.
  - intros H. now rewrite (IH H).
Qed.

Lemma merge_items_untouched (l : dict) (k : string) :
  ~ In k (keys l) ->
  forall acc g,
    merge_items l (VDict acc) = Ok (VDict g) -> lookup k g = lookup k acc.
Proof.
  induction l as [|[k' v] tl IH]; intros Hk acc g H.
  - now inversion H.
  - cbn [merge_items] in H. apply bind_ok in H. destruct H as (d' & Hstep & H).
    destruct (merge_step_sets _ _ _ _ Hstep) as (dd & x & Hdd & -> & _).
    inversion Hdd; subst dd. clear Hdd.
    rewrite (IH (fun Hin => Hk (or_intror Hin)) _ _ H).
    apply lookup_dict_set_ne. intros ->. apply Hk. now left.
Qed.

Lemma merge_items_settles (l : dict) :
  NoDup (keys l) ->
  forall acc g,
    merge_items l (VDict acc) = Ok (VDict g) ->
    forall k v,
      In (k, v) l ->
      exists x, lookup k g = Some x
                /\ (is_dict v = false -> x = v)
                /\ (is_dict v = true -> exists base, deep_update base v = Ok x).
Proof.
  induction l as [|[k0 v0] tl IH]; intros Hnd acc g H k v Hin; [destruct Hin|].
  cbn [keys map fst] in Hnd. inversion Hnd as [|? ? Hk Htl]; subst.
  cbn [merge_items] in H. apply bind_ok in H. destruct H as (d' & Hstep & H).
  destruct (merge_step_sets _ _ _ _ Hstep) as (dd & x & Hdd & -> & Hs & Hm).
  inversion Hdd; subst dd. clear Hdd.
  destruct Hin as [E|Hin].
  - inversion E; subst k0 v0. exists x.
    rewrite (merge_items_untouched tl k Hk _ _ H), lookup_dict_set_eq.
    split; [reflexivity|]. split; [exact Hs|].
    intros Hd. destruct (Hm Hd) as (base & Hb & _). eauto.
  - exact (IH Htl _ _ H k v Hin).
Qed.

Lemma merge_items_fixed (l : dict) (g : dict) :
  (forall k v, In (k, v) l ->
               (if is_dict v then
                  base <- py_get (VDict g) k (VDict []) ;;
                  merged <- deep_update base v ;;
                  py_setitem (VDict g) k merged
                else py_setitem (VDict g) k v) = Ok (VDict g)) ->
  merge_items l (VDict g) = Ok (VDict g).
Proof.
  induction l as [|[k v] tl IH]; intros H; [reflexivity|].
  cbn [merge_items]. rewrite (H k v (or_introl eq_refl)). cbn [bind].
  apply IH. intros k' v' Hin. apply H. now right.
Qed.

Lemma merge_items_result (l : dict) (d m : value) :
  l <> [] -> merge_items l d = Ok m ->
  exists acc g, d = VDict acc /\ m = VDict g.
Proof.
  destruct l as [|[k v] tl]; [contradiction|]. intros _ H.
  cbn [merge_items] in H. apply bind_ok in H. destruct H as (d' & Hstep & H).
  destruct (merge_step_sets _ _ _ _ Hstep) as (dd & x & -> & -> & _).
  destruct (merge_items_keys tl _ _ H) as (g & -> & _). eauto.
Qed.

(** X22.  [deep_update] is idempotent in its update: when merging a
    mapping with distinct keys at every level into a value succeeds,
    merging the same mapping into the result succeeds and returns the
    result. *)
Theorem deep_update_twice (u : value) :
  forall d m,
    wf u = true -> deep_update d u = Ok m -> deep_update m u = Ok m.
Proof.
  induction u as [| | | |l _|l IH] using value_induction; intros d m Hwf H;
    try discriminate H.
  rewrite deep_update_dict in *.
  destruct l as [|kv0 tl0] eqn:El; [inversion H; reflexivity|].
  rewrite <- El in *.
  assert (Hne : l <> []) by (rewrite El; discriminate).
  destruct (merge_items_result l d m Hne H) as (acc & g & -> & ->).
  apply wf_dict in Hwf. destruct Hwf as [Hnd Hch].
  apply merge_items_fixed. intros k v Hin.
  destruct (merge_items_settles l Hnd acc g H k v Hin) as (x & Hx & Hs & Hm).
  destruct (is_dict v) eqn:Hd.
  - destruct (Hm eq_refl) as (base & Hb).
    unfold py_get. rewrite Hx. cbn [bind].
    rewrite Forall_forall in IH.
    pose proof (IH (k, v) Hin base x (Hch k v Hin) Hb) as Hfix.
    cbn [snd] in Hfix. rewrite Hfix. cbn [bind py_setitem].
    now rewrite (dict_set_same g k x Hx).
  - rewrite (Hs eq_refl) in Hx. cbn [py_setitem].
    now rewrite (dict_set_same g k v Hx).
Qed.


(** ** What a reference cannot override *)

Lemma resolve_children_lookup (r : value -> exc dict) (g : dict) (k : string)
    (v : value) :
  is_dict v = false ->
  forall y, resolve_children r g = Ok y -> lookup k g = Some v ->
            lookup k y = Some v.
Proof.
  intros Hv. unfold resolve_children.
  induction g as [|[k0 v0] tl IH]; intros y H Hl; [discriminate Hl|].
  cbn [mapM] in H. apply bind_ok in H. destruct H as ([k1 x1] & H1 & H).
  apply bind_ok in H. destruct H as (r' & Hr & H). inversion H; subst y.
  cbn [lookup] in Hl |- *.
  assert (E : k1 = k0 /\ (is_dict v0 = false -> x1 = v0)).
  { destruct (is_dict v0).
    - apply bind_ok in H1. destruct H1 as (c & _ & H1). inversion H1; subst.
      split; [reflexivity|discriminate].
    - inversion H1; subst. auto. }
  destruct E as [-> E]. destruct (String.eqb k k0).
  - inversion Hl; subst v0. now rewrite (E Hv).
  - exact (IH r' Hr Hl).
Qed.

(** X23.  What a node says itself wins over what it refers to.  When
    [resolve_nxdlrefs] succeeds on a mapping with distinct keys, every key
    of the mapping other than "$nxdlref" whose value is not a mapping has
    that same value in the result, whether or not a referenced file was
    merged in. *)
Theorem local_values_survive_resolution (np : value -> exc string)
    (load_yaml : string -> option value)
    (path_join : string -> string -> string) (path_parent : string -> string)
    (fuel : nat) (d y : dict) (root_dir k : string) (v : value) :
  NoDup (keys d) ->
  resolve_nxdlrefs np load_yaml path_join path_parent fuel (VDict d) root_dir
  = Ok y ->
  lookup k d = Some v -> is_dict v = false -> k <> "$nxdlref" ->
  lookup k y = Some v.
Proof.
  intros Hnd H Hl Hv Hk. destruct fuel as [|fuel]; [discriminate H|].
  rewrite resolve_unfold in H. apply bind_ok in H. destruct H as (g & Hg & H).
  apply (resolve_children_lookup _ g k v Hv y H).
  assert (Hl0 : lookup k (dict_remove "$nxdlref" d) = Some v)
    by (rewrite lookup_remove_ne by exact Hk; exact Hl).
  destruct (truthy (get d "$nxdlref")); [|inversion Hg; subst g; exact Hl0].
  destruct (get d "$nxdlref") as [| | |name| |]; try discriminate Hg.
  apply bind_ok in Hg. destruct Hg as (refgrp & _ & Hg).
  destruct refgrp as [|[rn rd] [|? ?]]; try discriminate Hg.
  apply bind_ok in Hg. destruct Hg as (rc & _ & Hg).
  apply bind_ok in Hg. destruct Hg as (gc & _ & Hg).
  destruct (negb (py_eq rc gc)); [discriminate Hg|].
  apply bind_ok in Hg. destruct Hg as (merged & Hm & Hg).
  destruct merged as [| | | | |g']; try discriminate Hg.
  inversion Hg; subst g'. clear Hg.
  rewrite deep_update_dict in Hm.
  assert (Hne : dict_remove "$nxdlref" d <> [])
    by (intros E; rewrite E in Hl0; discriminate Hl0).
  destruct (merge_items_result _ _ _ Hne Hm) as (acc & g0 & -> & Hg0).
  inversion Hg0; subst g0. clear Hg0.
  destruct (merge_items_settles (dict_remove "$nxdlref" d)
              (NoDup_keys_filter _ d Hnd) acc g Hm k v (@lookup_In k v _ Hl0))
    as (x & Hx & Hs & _).
  now rewrite <- (Hs Hv).
Qed.

(** ** Attribute keys *)

Lemma chomp_at (rest : string) :
  exists r, chomp (String "@" rest) = String "@" r.
Proof.
  destruct rest as [|c tl].
  - exists EmptyString. reflexivity.
  - exists (chomp (String c tl)). reflexivity.
Qed.

(** X24.  The spellings of an attribute key.  RE_ATTRIBUTE reads a key
    that starts with an at sign the same with one or two backslashes in
    front of it, and does not match it with three. *)
Theorem attribute_key_spellings (rest : string) :
  re_attribute (String "\" (String "@" rest)) = re_attribute (String "@" rest)
  /\ re_attribute (String "\" (String "\" (String "@" rest)))
     = re_attribute (String "@" rest)
  /\ re_attribute (String "\" (String "\" (String "\" (String "@" rest))))
     = None.
Proof.
  unfold re_attribute.
  change (chomp (String "\" (String "@" rest)))
    with (String "\" (chomp (String "@" rest))).
  change (chomp (String "\" (String "\" (String "@" rest))))
    with (String "\" (String "\" (chomp (String "@" rest)))).
  change (chomp (String "\" (String "\" (String "\" (String "@" rest)))))
    with (String "\" (String "\" (String "\" (chomp (String "@" rest))))).
  destruct (chomp_at rest) as [r ->].
  repeat split.
Qed.


(** ** Files *)

(** X25.  A simplified file without references is only post-processed.
    For a file whose mapping has no true "category" and, once "category"
    is put aside, no "$nxdlref" key at any depth, [convert_nxyaml] with
    fuel above the depth of the mapping returns that mapping reduced when
    [reduce] is set, then sorted when [sort] is set, then cleaned. *)
Theorem plain_simplified_file_is_post_processed (np : value -> exc string)
    (load_yaml : string -> option value)
    (path_join : string -> string -> string) (path_parent : string -> string)
    (fuel : nat) (fpath : string) (d : dict) (reduce sort keep_docs : bool) :
  load_yaml fpath = Some (VDict d) -> truthy (get d "category") = false ->
  no_refs (VDict (dict_remove "category" d)) = true ->
  depth (VDict (dict_remove "category" d)) <= fuel ->
  convert_nxyaml np load_yaml path_join path_parent (S fuel) fpath reduce sort
    keep_docs
  = post_process (dict_remove "category" d) reduce sort keep_docs.
Proof.
  intros Hload Hcat Hn Hd. unfold get in Hcat.
  assert (E : convert_nxyaml np load_yaml path_join path_parent (S fuel) fpath
                reduce sort keep_docs
              = (result <- resolve_nxdlrefs np load_yaml path_join path_parent
                             fuel (VDict (dict_remove "category" d))
                             (path_parent fpath) ;;
                 post_process result reduce sort keep_docs)).
  { cbn [convert_nxyaml]. rewrite Hload. cbn [py_pop bind fst snd].
    now rewrite Hcat. }
  rewrite E.
  rewrite (resolve_no_refs np load_yaml path_join path_parent fuel _
             (path_parent fpath) Hn Hd).
  reflexivity.
Qed.

(** X26.  A file that refers to itself never converts.  When a simplified
    file has at its root a "$nxdlref" that names the file itself,
    [convert_nxyaml] calls itself on the same path without end: in the
    model the fuel runs out, whatever the fuel. *)
Theorem self_reference_never_converts (np : value -> exc string)
    (load_yaml : string -> option value)
    (path_join : string -> string -> string) (path_parent : string -> string)
    (fpath name : string) (d : dict) (reduce sort keep_docs : bool) :
  load_yaml fpath = Some (VDict d) -> truthy (get d "category") = false ->
  lookup "$nxdlref" d = Some (VStr name) -> name <> EmptyString ->
  path_join (path_parent fpath) name = fpath ->
  forall fuel,
    convert_nxyaml np load_yaml path_join path_parent fuel fpath reduce sort
      keep_docs = Raise OutOfFuel.
Proof.
  intros Hload Hcat Href Hname Hpath. unfold get in Hcat.
  assert (Hpop : get (dict_remove "category" d) "$nxdlref" = VStr name).
  { rewrite get_remove_ne by (intros E; discriminate E). unfold get.
    now rewrite Href. }
  assert (Htrue : truthy (VStr name) = true).
  { cbn [truthy]. destruct (String.eqb_spec name EmptyString); [contradiction|].
    reflexivity. }
  assert (H : forall fuel r s k,
             convert_nxyaml np load_yaml path_join path_parent fuel fpath r s k
             = Raise OutOfFuel
             /\ convert_nxyaml np load_yaml path_join path_parent (S fuel) fpath
                  r s k = Raise OutOfFuel).
  { induction fuel as [|fuel IH]; intros r s k.
    - split; [reflexivity|]. cbn [convert_nxyaml]. rewrite Hload.
      cbn [py_pop bind fst snd]. rewrite Hcat. reflexivity.
    - split; [apply IH|].
      assert (E : convert_nxyaml np load_yaml path_join path_parent
                    (S (S fuel)) fpath r s k
                  = (result <- resolve_nxdlrefs np load_yaml path_join
                                 path_parent (S fuel)
                                 (VDict (dict_remove "category" d))
                                 (path_parent fpath) ;;
                     post_process result r s k)).
      { cbn [convert_nxyaml]. rewrite Hload. cbn [py_pop bind fst snd].
        now rewrite Hcat. }
      rewrite E, resolve_unfold, Hpop, Htrue, Hpath.
      rewrite (proj1 (IH false true false)). reflexivity. }
  intros fuel. apply H.
Qed.

(** X27.  A pointer that cannot be followed.  [resolve_nxdlrefs] raises
    TypeError for a true "$nxdlref" that is not a string, and the error of
    opening the file for one that names a file that cannot be read; a
    false "$nxdlref" is dropped without a look at any file. *)
Theorem pointer_errors (np : value -> exc string)
    (load_yaml : string -> option value)
    (path_join : string -> string -> string) (path_parent : string -> string)
    (fuel : nat) (d : dict) (root_dir : string) (ref : value) :
  lookup "$nxdlref" d = Some ref ->
  (truthy ref = true -> (forall name, ref <> VStr name) ->
   resolve_nxdlrefs np load_yaml path_join path_parent (S fuel) (VDict d)
     root_dir = Raise TypeError)
  /\ (forall name,
        ref = VStr name -> name <> EmptyString ->
        load_yaml (path_join root_dir name) = None ->
        resolve_nxdlrefs np load_yaml path_join path_parent (S (S fuel))
          (VDict d) root_dir = Raise OSError)
  /\ (truthy ref = false ->
      resolve_nxdlrefs np load_yaml path_join path_parent (S fuel) (VDict d)
        root_dir
      = resolve_children
          (fun val =>
             resolve_nxdlrefs np load_yaml path_join path_parent fuel val
               root_dir)
          (dict_remove "$nxdlref" d)).
Proof.
  intros Href.
  assert (Hget : get d "$nxdlref" = ref) by (unfold get; now rewrite Href).
  split; [|split].
  - intros Ht Hs. rewrite resolve_unfold, Hget, Ht.
    destruct ref; try reflexivity. now destruct (Hs s).
  - intros name -> Hname Hload. rewrite resolve_unfold, Hget.
    cbn [truthy]. destruct (String.eqb_spec name EmptyString); [contradiction|].
    cbn [negb convert_nxyaml]. rewrite Hload. reflexivity.
  - intros Hf. rewrite resolve_unfold, Hget, Hf. reflexivity.
Qed.


(** ** Reduction, from the parsed groups to the output *)

Lemma vacuous_is_dict (v : value) : vacuous v = true -> is_dict v = true.
Proof.
  destruct v; try discriminate. reflexivity.
Qed.

Lemma class_tags_vacuous (r : dict) :
  class_tags_only r -> vacuous (VDict r) = true.
Proof.
  intros [_ H]. cbn [vacuous]. apply forallb_forall. intros [k x] Hin.
  destruct (H k x Hin) as [_ Hv]. now rewrite (vacuous_is_dict x Hv).
Qed.

Lemma class_tags_nil : class_tags_only [].
Proof.
  split; [reflexivity|intros k v []].
Qed.

Lemma class_tags_set (acc c : dict) (name cls : string) :
  class_tags_only acc -> class_tags_only c -> name <> "nxclass" ->
  class_tags_only (dict_set acc name (VDict (("nxclass", VStr cls) :: c))).
Proof.
  intros [Hwa Ha] [Hwc Hc] Hname.
  assert (Hv : vacuous (VDict (("nxclass", VStr cls) :: c)) = true).
  { change (vacuous (VDict (("nxclass", VStr cls) :: c)))
      with (String.eqb "nxclass" "nxclass" && vacuous (VDict c)).
    rewrite (class_tags_vacuous c (conj Hwc Hc)). reflexivity. }
  assert (Hw : wf (VDict (("nxclass", VStr cls) :: c)) = true).
  { apply wf_dict in Hwc. destruct Hwc as [Hnd Hch]. apply wf_dict. split.
    - cbn [keys map fst]. constructor; [|exact Hnd].
      intros Hin. apply keys_In in Hin. destruct Hin as [v Hin].
      destruct (Hc _ _ Hin) as [Hne _]. now apply Hne.
    - intros k v [E|Hin]; [inversion E; reflexivity|exact (Hch k v Hin)]. }
  split.
  - now apply wf_dict_set.
  - intros k v Hin. apply In_dict_set in Hin. destruct Hin as [[-> ->]|Hin].
    + split; assumption.
    + exact (Ha k v Hin).
Qed.

Lemma deep_update_disjoint (acc u : dict) :
  wf (VDict u) = true ->
  (forall k, In k (keys u) -> lookup k acc = None) ->
  deep_update (VDict acc) (VDict u) = Ok (VDict (acc ++ u)).
Proof.
  intros Hwf Hfresh. apply wf_dict in Hwf. destruct Hwf as [Hnd Hch].
  rewrite deep_update_dict. apply merge_items_fresh; auto.
  apply Forall_forall. intros kv _ Hw Hd. now apply deep_update_fresh.
Qed.

Lemma hollow_inv (n : nat) (rec : dict) :
  hollow n (VDict rec) = true ->
  exists name cls,
    lookup "nx_name" rec = Some (VStr name)
    /\ lookup "nx_class" rec = Some (VStr cls)
    /\ name <> "nxclass"
    /\ truthy (get rec "$nxdlref") = false
    /\ lookup "attributes" rec = None
    /\ truthy (get rec "links") = false
    /\ truthy (get rec "doc") = false
    /\ (get rec "fields" = VNone
        \/ exists fl, get rec "fields" = VList fl /\ forallb valueless fl = true)
    /\ (truthy (get rec "groups") = false
        \/ exists m gs,
             n = S m /\ get rec "groups" = VList gs
             /\ forallb (hollow m) gs = true).
Proof.
  intros H.
  assert (H' : match lookup "nx_name" rec, lookup "nx_class" rec with
               | Some (VStr name), Some (VStr _) =>
                   negb (String.eqb name "nxclass")
                   && negb (truthy (get rec "$nxdlref"))
                   && negb (mem "attributes" rec)
                   && negb (truthy (get rec "links"))
                   && negb (truthy (get rec "doc"))
                   && match get rec "fields" with
                      | VNone => true
                      | VList fl => forallb valueless fl
                      | _ => false
                      end
                   && match get rec "groups" with
                      | VNone => true
                      | VList gs =>
                          match n with
                          | O => Nat.eqb (List.length gs) 0
                          | S m => forallb (hollow m) gs
                          end
                      | _ => false
                      end
               | _, _ => false
               end = true)
    by (destruct n; exact H).
  clear H.
  destruct (lookup "nx_name" rec) as [[| | |name| |]|]; try discriminate H'.
  destruct (lookup "nx_class" rec) as [[| | |cls| |]|]; try discriminate H'.
  apply andb_true_iff in H'. destruct H' as [H' Hg].
  apply andb_true_iff in H'. destruct H' as [H' Hf].
  apply andb_true_iff in H'. destruct H' as [H' Hdoc].
  apply andb_true_iff in H'. destruct H' as [H' Hl].
  apply andb_true_iff in H'. destruct H' as [H' Ha].
  apply andb_true_iff in H'. destruct H' as [Hn Hr].
  apply negb_true_iff in Hn, Hr, Ha, Hl, Hdoc.
  exists name, cls. split; [reflexivity|]. split; [reflexivity|].
  split; [now apply String.eqb_neq|]. split; [exact Hr|].
  split; [unfold mem in Ha; destruct (lookup "attributes" rec);
          [discriminate Ha|reflexivity]|].
  split; [exact Hl|]. split; [exact Hdoc|]. split.
  - destruct (get rec "fields") as [| | | |fl|]; try discriminate Hf; eauto.
  - destruct (get rec "groups") as [| | | |gs|]; try discriminate Hg;
      [now left|].
    destruct n as [|m].
    + left. cbn [truthy]. now rewrite Hg.
    + right. exists m, gs. auto.
Qed.

Section Reduction.

Variable np : value -> exc string.
Variable load_yaml : string -> option value.
Variable path_join : string -> string -> string.
Variable path_parent : string -> string.

Notation resolve := (resolve_nxdlrefs np load_yaml path_join path_parent).
Notation groups_of := (convert_groups np load_yaml path_join path_parent).
Notation group_of := (convert_group np load_yaml path_join path_parent).

Lemma convert_groups_unfold (fuel : nat) (gs : value) (root_dir : string)
    (reduce : bool) :
  groups_of (S fuel) gs root_dir reduce
  = (grps <- py_iter gs ;; foldM (group_of fuel root_dir reduce) grps []).
Proof. reflexivity. Qed.

Lemma convert_fields_valueless (fl : list value) :
  forallb valueless fl = true -> convert_fields np (VList fl) true = Ok [].
Proof.
  intros H. unfold convert_fields. cbn [py_iter bind].
  induction fl as [|f tl IH]; [reflexivity|].
  cbn [forallb] in H. apply andb_true_iff in H. destruct H as [Hf Htl].
  destruct f as [| | | | |d]; try discriminate Hf.
  cbn [valueless] in Hf. apply negb_true_iff in Hf.
  cbn [foldM]. rewrite (@field_dropped np d [] Hf). exact (IH Htl).
Qed.

Lemma resolve_class_only (fuel : nat) (cls : string) (ref : value)
    (root_dir : string) :
  truthy ref = false ->
  resolve (S fuel) (VDict [("nxclass", VStr cls); ("$nxdlref", ref)]) root_dir
  = Ok [("nxclass", VStr cls)].
Proof.
  intros H. rewrite resolve_unfold.
  change (get [("nxclass", VStr cls); ("$nxdlref", ref)] "$nxdlref") with ref.
  rewrite H. reflexivity.
Qed.

Lemma convert_group_hollow (n fuel : nat) (root_dir : string) (acc : dict)
    (g : value) :
  (forall m gs,
     n = S m -> forallb (hollow m) gs = true ->
     exists c, groups_of (S fuel) (VList gs) root_dir true = Ok c
               /\ class_tags_only c) ->
  hollow n g = true -> class_tags_only acc ->
  exists r, group_of (S fuel) root_dir true acc g = Ok r /\ class_tags_only r.
Proof.
  intros IH Hg Hacc. destruct g as [| | | | |rec]; try (destruct n; discriminate Hg).
  destruct (hollow_inv n rec Hg)
    as (name & cls & Hname & Hcls & Hne & Href & Hatt & Hlnk & Hdoc & Hfld & Hgrp).
  assert (Hsub : exists c,
             (if truthy (get rec "groups") then
                c <- groups_of (S fuel) (get rec "groups") root_dir true ;;
                deep_update (VDict [("nxclass", VStr cls)]) (VDict c)
              else Ok (VDict [("nxclass", VStr cls)]))
             = Ok (VDict (("nxclass", VStr cls) :: c))
             /\ class_tags_only c).
  { destruct Hgrp as [Hfalse|(m & gs & Hn & Hgs & Hall)].
    - rewrite Hfalse. exists []. split; [reflexivity|apply class_tags_nil].
    - rewrite Hgs. destruct (truthy (VList gs));
        [|exists []; split; [reflexivity|apply class_tags_nil]].
      destruct (IH m gs Hn Hall) as (c & Hc & Htags). rewrite Hc. cbn [bind].
      exists c. split; [|exact Htags].
      apply (deep_update_disjoint [("nxclass", VStr cls)] c); [apply Htags|].
      intros k Hin. apply keys_In in Hin. destruct Hin as [v Hin].
      destruct (proj2 Htags k v Hin) as [Hk _]. cbn [lookup].
      destruct (String.eqb_spec k "nxclass"); [contradiction|reflexivity]. }
  destruct Hsub as (c & Hsub & Htags).
  assert (Hflds : forall d : value,
             (if truthy (get rec "fields") then
                c <- convert_fields np (get rec "fields") true ;;
                deep_update d (VDict c)
              else Ok d) = Ok d).
  { intros d. destruct Hfld as [->|(fl & -> & Hall)]; [reflexivity|].
    destruct (truthy (VList fl)); [|reflexivity].
    rewrite (convert_fields_valueless fl Hall). reflexivity. }
  exists (dict_set acc name (VDict (("nxclass", VStr cls) :: c))).
  split; [|now apply class_tags_set].
  unfold convert_group.
  unfold py_getitem at 1. rewrite Hcls. cbn [bind].
  rewrite py_get_dict. cbn [bind]. rewrite (resolve_class_only _ _ _ _ Href).
  cbn [bind]. rewrite py_get_dict. cbn [bind]. rewrite Hsub. cbn [bind].
  rewrite py_get_dict. cbn [bind]. rewrite Hflds. cbn [bind].
  unfold py_get at 1. rewrite Hatt. cbn [bind].
  change (convert_attributes np (VList [])) with (@Ok dict []).
  cbn [bind truthy List.length Nat.eqb negb].
  rewrite py_get_dict. cbn [bind]. rewrite Hlnk.
  rewrite py_get_dict. cbn [bind]. rewrite Hdoc.
  unfold py_getitem. rewrite Hname. reflexivity.
Qed.

Lemma fold_groups_hollow (n fuel : nat) (root_dir : string) (gs : list value) :
  (forall m gs,
     n = S m -> forallb (hollow m) gs = true ->
     exists c, groups_of (S fuel) (VList gs) root_dir true = Ok c
               /\ class_tags_only c) ->
  forallb (hollow n) gs = true ->
  forall acc, class_tags_only acc ->
              exists r, foldM (group_of (S fuel) root_dir true) gs acc = Ok r
                        /\ class_tags_only r.
Proof.
  intros IH. induction gs as [|g tl IHgs]; intros Hall acc Hacc.
  - exists acc. split; [reflexivity|exact Hacc].
  - cbn [forallb] in Hall. apply andb_true_iff in Hall. destruct Hall as [Hg Htl].
    destruct (convert_group_hollow n fuel root_dir acc g IH Hg Hacc)
      as (r & Hr & Htags).
    cbn [foldM]. rewrite Hr. cbn [bind]. exact (IHgs Htl r Htags).
Qed.

Lemma convert_groups_hollow (n : nat) :
  forall (fuel : nat) (root_dir : string) (gs : list value),
    forallb (hollow n) gs = true ->
    exists r, groups_of (S (S (n + fuel))) (VList gs) root_dir true = Ok r
              /\ class_tags_only r.
Proof.
  induction n as [|n IH]; intros fuel root_dir gs Hall.
  - rewrite convert_groups_unfold. cbn [py_iter bind].
    apply (fold_groups_hollow 0 (0 + fuel) root_dir gs);
      [intros m gs' E; discriminate E|exact Hall|apply class_tags_nil].
  - rewrite convert_groups_unfold. cbn [py_iter bind].
    apply (fold_groups_hollow (S n) (S n + fuel) root_dir gs);
      [|exact Hall|apply class_tags_nil].
    intros m gs' E Hall'. inversion E; subst m.
    exact (IH fuel root_dir gs' Hall').
Qed.


End Reduction.

(** * Worked instances *)

Lemma choice_appends_synthesized_field_instance :
  re_choice "optic(choice)" = Some "optic"
  /\ forallb is_alternative choice_alternatives_groups = true
  /\ parse_items [("optic(choice)", choice_alternatives)] level_init
     = Ok [("groups",
            VList [VDict [("nx_term", VStr "field"); ("nx_name", VStr "optic");
                          ("nx_class", VStr "NXmirror | NXcrystal");
                          ("doc", VStr (String.append "NXmirror: A mirror"
                                          (String nl "NXcrystal: None")))]])].
Proof.
  split; [reflexivity|]. split; [reflexivity|].
  destruct (choice_appends_synthesized_field "optic(choice)" (nx_name := "optic")
              choice_alternatives [] (sub := choice_alternatives_parsed)
              (gs := choice_alternatives_groups) level_init
              eq_refl eq_refl eq_refl eq_refl) as [_ H].
  rewrite H. reflexivity.
Defined.

Lemma falsy_property_counts_as_absent_instance :
  truthy (get falsy_record "$value") = false
  /\ truthy (get falsy_record "doc") = false
  /\ truthy (get falsy_record "enumeration") = false
  /\ convert_fields np_dtype_name_of_strings (VList [VDict falsy_record]) true = Ok []
  /\ convert_field np_dtype_name_of_strings false [] (VDict falsy_record)
     = convert_field np_dtype_name_of_strings false []
         (VDict (dict_remove "doc" falsy_record))
  /\ convert_attribute np_dtype_name_of_strings [] (VDict falsy_record)
     = convert_attribute np_dtype_name_of_strings []
         (VDict (dict_remove "enumeration" falsy_record)).
Proof.
  destruct (falsy_property_counts_as_absent np_dtype_name_of_strings falsy_record [])
    as (Hv & Hd & He).
  split; [reflexivity|]. split; [reflexivity|]. split; [reflexivity|].
  split; [apply (Hv eq_refl)|].
  split; [apply (Hd eq_refl)|apply (He eq_refl)].
Defined.

Lemma attribute_entry_present_never_empty_instance :
  convert_attribute np_dtype_name_of_strings [] typed_attribute
  = Ok [("default", VDict [("dtype", VStr "str")])]
  /\ exists name entry,
       py_getitem typed_attribute "nx_name" = Ok (VStr name)
       /\ lookup name [("default", VDict [("dtype", VStr "str")])] = Some entry
       /\ entry <> VDict [].
Proof.
  split; [reflexivity|].
  destruct (attribute_entry_present_never_empty np_dtype_name_of_strings)
    as (_ & _ & H).
  exact (H [] typed_attribute _ eq_refl).
Defined.

Lemma deep_update_merge_rules_instance :
  wf merge_override = true
  /\ mergeable merge_base merge_override = true
  /\ exists r,
       deep_update merge_base merge_override = Ok (VDict r)
       /\ merge_rules [("a", VInt 1); ("b", VDict [("x", VInt 1)])]
            [("b", VDict [("y", VInt 2)]); ("c", VInt 3)] r.
Proof.
  split; [reflexivity|]. split; [reflexivity|].
  destruct deep_update_merge_rules as [H _].
  exact (H [("a", VInt 1); ("b", VDict [("x", VInt 1)])]
           [("b", VDict [("y", VInt 2)]); ("c", VInt 3)] eq_refl eq_refl).
Defined.





Lemma sort_converted_order_instance :
  wf (VDict unsorted_entry) = true
  /\ keys (sort_converted (VDict unsorted_entry))
     = ["nxclass"; "date"; "title"; "data"; "energy"; "attrs"]
  /\ StronglySorted (key_before unsorted_entry)
       (keys (sort_converted (VDict unsorted_entry))).
Proof.
  split; [reflexivity|]. split; [reflexivity|].
  destruct (sort_converted_order unsorted_entry eq_refl) as (_ & H & _).
  exact H.
Defined.

Lemma resolve_nxdlrefs_errors_instance :
  resolve_nxdlrefs np_dtype_name_of_strings sample_files flat_join flat_parent 4
    (VDict refers_to_two) EmptyString
  = Raise (ValueError [VStr msg_single_group; VStr "two.yml"])
  /\ resolve_nxdlrefs np_dtype_name_of_strings sample_files flat_join flat_parent 5
       (VDict refers_to_source_as_detector) EmptyString
     = Raise (RuntimeError [VStr msg_incompatible; VStr "NXsource"])
  /\ resolve_nxdlrefs np_dtype_name_of_strings sample_files flat_join flat_parent 4
       (VDict plain_node) EmptyString
     = Ok plain_node
  /\ resolve_nxdlrefs np_dtype_name_of_strings sample_files flat_join flat_parent 6
       (VDict refers_to_source) EmptyString
     = Ok merged_source
  /\ resolve_nxdlrefs np_dtype_name_of_strings sample_files flat_join flat_parent 7
       (VDict instrument_node) EmptyString
     = Ok [("nxclass", VStr "NXinstrument"); ("source", VDict merged_source)].
Proof.
  split; [|split; [|split; [|split]]].
  - destruct (resolve_nxdlrefs_errors np_dtype_name_of_strings sample_files
                flat_join flat_parent 3 refers_to_two EmptyString) as (H & _ & _).
    refine (proj1 (proj2 (H "two.yml" eq_refl _) _ eq_refl) _); discriminate.
  - destruct (resolve_nxdlrefs_errors np_dtype_name_of_strings sample_files
                flat_join flat_parent 4 refers_to_source_as_detector EmptyString)
      as (H & _ & _).
    refine (proj1 (proj2 (proj2 (H "source.yml" eq_refl _)
                            [("source",
                              VDict [("nxclass", VStr "NXsource");
                                     ("probe", VDict [("nxclass", VStr "NXfield");
                                                      ("value", VStr "neutron")])])]
                            eq_refl)
                     "source" _ (VStr "NXsource") (VStr "NXdetector")
                     eq_refl eq_refl eq_refl) eq_refl).
    discriminate.
  - destruct (resolve_nxdlrefs_errors np_dtype_name_of_strings sample_files
                flat_join flat_parent 4 plain_node EmptyString) as (_ & _ & H).
    apply H; [reflexivity|]. cbn. lia.
  - destruct (resolve_nxdlrefs_errors np_dtype_name_of_strings sample_files
                flat_join flat_parent 5 refers_to_source EmptyString)
      as (H & _ & _).
    refine (proj2 (proj2 (proj2 (proj2 (H "source.yml" eq_refl _)
                                   [("source",
                                     VDict [("nxclass", VStr "NXsource");
                                            ("probe",
                                             VDict [("nxclass", VStr "NXfield");
                                                    ("value", VStr "neutron")])])]
                                   eq_refl)
                            "source" _ (VStr "NXsource") (VStr "NXsource")
                            eq_refl eq_refl eq_refl) eq_refl merged_source) _);
      [discriminate|].
    exists merged_source. split; [reflexivity|].
    repeat constructor. cbn. exists [("nxclass", VStr "NXfield"); ("value", VStr "neutron")].
    split; reflexivity.
  - destruct (resolve_nxdlrefs_errors np_dtype_name_of_strings sample_files
                flat_join flat_parent 6 instrument_node EmptyString)
      as (_ & H & _).
    apply (proj2 (proj1 (H eq_refl) _)).
    constructor; [split; reflexivity|].
    constructor; [|constructor].
    split; [reflexivity|]. cbn. exists merged_source. split; reflexivity.
Defined.

(** C7, as stated, fails: the converted attribute of ["@default(NX_CHAR)"]
    is not [None], it holds the storage type of [NX_CHAR]. *)
Lemma scenario_B_is_not_null :
  convert_level_attributes np_dtype_name_of_strings scenario_B
  = Ok [("default", VDict [("dtype", VStr "str")])]
  /\ convert_level_attributes np_dtype_name_of_strings scenario_B
     <> Ok [("default", VNone)].
Proof.
  split; [reflexivity|]. intros H. discriminate H.
Qed.

(** ** Instances of the further properties *)

Lemma sample_files_simplified : simplified_files sample_files.
Proof.
  intros p v H. unfold sample_files in H.
  destruct (String.eqb p "two.yml").
  - inversion H; subst v. split; [reflexivity|].
    intros d E. inversion E; subst d. reflexivity.
  - destruct (String.eqb p "source.yml"); [|discriminate H].
    inversion H; subst v. split; [reflexivity|].
    intros d E. inversion E; subst d. reflexivity.
Qed.

Lemma re_group_reads_group_keys_instance :
  re_group (group_key accented_name "NXdetector" EmptyString)
  = Some (accented_name, "NXdetector", EmptyString).
Proof.
  apply (proj2 (re_group_reads_group_keys
                  (group_key accented_name "NXdetector" EmptyString)
                  accented_name "NXdetector" EmptyString)).
  split; [reflexivity|]. split; [reflexivity|]. split; reflexivity.
Defined.

Lemma group_naming_instance :
  parse_items [(group_key "NXentry" "NXobject" EmptyString, VNone)] level_init
  = parse_items []
      (add_group level_init (group_record "entry" "NXentry" []))
  /\ parse_items [(group_key EmptyString "NXdata" "efficiency", VNone)] level_init
     = parse_items []
         (add_group level_init (group_record "efficiency" "NXdata" []))
  /\ parse_items [(group_key EmptyString "NXdata" EmptyString, VNone)] level_init
     = parse_items [] (add_group level_init (group_record "data" "NXdata" [])).
Proof.
  split; [|split].
  - exact (proj2 (proj2 (proj2
             (group_naming "NXentry" "NXobject" EmptyString VNone [] []
                level_init eq_refl eq_refl eq_refl eq_refl)))
             "entry" eq_refl eq_refl).
  - refine (proj1 (proj2
              (group_naming EmptyString "NXdata" "efficiency" VNone [] []
                 level_init eq_refl eq_refl eq_refl eq_refl))
              eq_refl eq_refl _).
    discriminate.
  - exact (proj1 (proj2 (proj2
             (group_naming EmptyString "NXdata" EmptyString VNone [] []
                level_init eq_refl eq_refl eq_refl eq_refl)))
             eq_refl eq_refl).
Defined.

Lemma plain_level_parses_to_itself_instance :
  parse_nxdlyml_level (VDict plain_level) = Ok plain_level
  /\ parse_nxdlyml_level (VDict accented_level) = Ok accented_level.
Proof.
  split.
  - apply (plain_level_parses_to_itself plain_level); [reflexivity|].
    apply (proj1 (distinct_NoDup _)). reflexivity.
  - apply (plain_level_parses_to_itself accented_level); [reflexivity|].
    apply (proj1 (distinct_NoDup _)). reflexivity.
Defined.

Lemma choice_without_groups_raises_instance :
  parse_items [("detector(choice)", VNone)] level_init = Raise (KeyError "groups")
  /\ parse_items [("detector(choice)", VDict plain_level)] level_init
     = Raise (KeyError "groups").
Proof.
  split.
  - exact (choice_without_groups_raises "detector(choice)" "detector" VNone []
             level_init eq_refl (or_introl eq_refl)).
  - apply (choice_without_groups_raises "detector(choice)" "detector"
             (VDict plain_level) [] level_init eq_refl).
    right. exists plain_level. split; reflexivity.
Defined.

Lemma enumeration_keeps_only_keys_instance :
  parse_items [("enumeration", VDict probe_kinds)] level_init
  = parse_items []
      (set_result level_init "enumeration" (VList [VStr "x-ray"; VStr "neutron"]))
  /\ parse_items [("enumeration(NX_CHAR)", VList [VStr "x-ray"])] level_init
     = Raise AttributeError.
Proof.
  split.
  - exact (proj1 (enumeration_keeps_only_keys "enumeration" None
                    (VDict probe_kinds) [] level_init eq_refl)
             probe_kinds eq_refl).
  - refine (proj2 (enumeration_keeps_only_keys "enumeration(NX_CHAR)"
                     (Some "NX_CHAR") (VList [VStr "x-ray"]) [] level_init
                     eq_refl) eq_refl _).
    discriminate.
Defined.

Lemma stray_key_raises_instance :
  parse_items [("-shape", VNone)] level_init
  = Raise (ValueError [VStr "Unknown NeXus term: -shape"])
  /\ parse_items [(String "160" "shape", VNone)] level_init
     = Raise (ValueError
                [VStr (String.append "Unknown NeXus term: " (String "160" "shape"))]).
Proof.
  split.
  - exact (stray_key_raises "-shape" VNone [] level_init eq_refl).
  - exact (stray_key_raises (String "160" "shape") VNone [] level_init eq_refl).
Defined.

Lemma sort_converted_idempotent_instance :
  sort_converted (VDict (sort_converted (VDict unsorted_entry)))
  = sort_converted (VDict unsorted_entry).
Proof.
  exact (sort_converted_idempotent unsorted_entry eq_refl).
Defined.

Lemma kept_doc_is_one_trimmed_line_instance :
  exists t,
    lookup "doc" [("nxclass", VStr "NXfield"); ("doc", VStr "The beam  energy")]
    = Some (VStr t)
    /\ t = strip (replace_nl two_line_doc)
    /\ contains nl t = false /\ lstrip t = t /\ rstrip t = t.
Proof.
  exact (kept_doc_is_one_trimmed_line doc_level
           [("nxclass", VStr "NXfield"); ("doc", VStr "The beam  energy")]
           two_line_doc eq_refl eq_refl).
Defined.

Lemma simplified_conversion_is_stable_instance :
  convert_simplified np_dtype_name_of_strings sample_files flat_join flat_parent
    6 (VDict resolved_source) EmptyString false
  = Ok resolved_source.
Proof.
  exact (simplified_conversion_is_stable np_dtype_name_of_strings sample_files
           flat_join flat_parent 6 (VDict refers_to_source) EmptyString
           EmptyString false resolved_source sample_files_simplified eq_refl
           eq_refl).
Defined.

Lemma resolution_leaves_no_reference_instance :
  no_refs (VDict merged_source) = true /\ wf (VDict merged_source) = true.
Proof.
  exact (resolution_leaves_no_reference np_dtype_name_of_strings sample_files
           flat_join flat_parent 6 (VDict refers_to_source) EmptyString
           merged_source sample_files_simplified eq_refl eq_refl).
Defined.

Lemma classified_key_needs_mapping_instance :
  parse_items [("(NXentry)", VStr "text")] level_init = Raise AttributeError
  /\ parse_items [("energy(NX_FLOAT)", VInt 8)] level_init = Raise AttributeError.
Proof.
  split.
  - apply (classified_key_needs_mapping "(NXentry)" (VStr "text") [] level_init
             eq_refl eq_refl).
    left. discriminate.
  - apply (classified_key_needs_mapping "energy(NX_FLOAT)" (VInt 8) []
             level_init eq_refl eq_refl).
    right. right. right. right. exists "energy", "NX_FLOAT". reflexivity.
Defined.

Lemma parsed_fields_vanish_under_reduction_instance :
  (forall k, In k ["fields"] -> startswith "$" k = false)
  /\ convert_fields np_dtype_name_of_strings typed_field_records true = Ok [].
Proof.
  exact (parsed_fields_vanish_under_reduction np_dtype_name_of_strings
           typed_field_level [("fields", typed_field_records)]
           typed_field_records eq_refl eq_refl eq_refl).
Defined.

Lemma parsed_link_converts_instance :
  exists links,
    parse_nxdlyml_level (VDict [("data(link)", VDict link_level)])
    = Ok [("links", links)]
    /\ convert_links links = Ok [("data", link_entry link_level)].
Proof.
  apply (parsed_link_converts "data(link)" "data" link_level eq_refl eq_refl);
    [|reflexivity].
  apply (proj1 (distinct_NoDup _)). reflexivity.
Defined.

Lemma empty_group_is_a_class_tag_instance :
  convert_level_groups np_dtype_name_of_strings sample_files flat_join
    flat_parent 2
    (VDict [(group_key EmptyString "NXsample" EmptyString, VNone)])
    EmptyString true
  = Ok [("sample", VDict [("nxclass", VStr "NXsample")])]
  /\ reduce_converted (VDict [("sample", VDict [("nxclass", VStr "NXsample")])])
     = [].
Proof.
  exact (empty_group_is_a_class_tag np_dtype_name_of_strings sample_files
           flat_join flat_parent 0 EmptyString "NXsample" EmptyString VNone
           EmptyString true eq_refl eq_refl eq_refl eq_refl).
Defined.

Lemma enumeration_dtype_is_never_str_instance :
  exists name entry t,
    [("probe", VDict [("dtype", VStr "char");
                      ("enumeration", VList [VStr "x-ray"; VStr "neutron"])])]
    = dict_set [] name (VDict entry)
    /\ lookup "enumeration" entry = Some (get probe_attribute "enumeration")
    /\ lookup "dtype" entry = Some (VStr t)
    /\ startswith "str" t = false
    /\ (lookup "type" probe_attribute = Some (VStr "NX_CHAR") -> t = "char").
Proof.
  exact (enumeration_dtype_is_never_str np_dtype_name_of_strings [] _
           probe_attribute eq_refl (or_introl eq_refl)).
Defined.

Lemma original_root_checks_instance :
  convert_nxyaml np_dtype_name_of_strings two_roots_files flat_join flat_parent
    1 "NXtwo.yml" true true false
  = Raise (ValueError [VStr msg_root_keys]).
Proof.
  apply (proj2 (original_root_checks np_dtype_name_of_strings two_roots_files
                  flat_join flat_parent 0 "NXtwo.yml" two_roots true true false
                  eq_refl eq_refl)).
  - discriminate.
  - discriminate.
Defined.

Lemma deep_update_keeps_key_order_instance :
  exists g,
    merge_expected = VDict g
    /\ keys g
       = keys [("a", VInt 1); ("b", VDict [("x", VInt 1)])]
         ++ filter (fun k => negb (mem k [("a", VInt 1); ("b", VDict [("x", VInt 1)])]))
              (keys [("b", VDict [("y", VInt 2)]); ("c", VInt 3)]).
Proof.
  apply (deep_update_keeps_key_order
           [("a", VInt 1); ("b", VDict [("x", VInt 1)])]
           [("b", VDict [("y", VInt 2)]); ("c", VInt 3)] merge_expected);
    [|reflexivity].
  apply (proj1 (distinct_NoDup _)). reflexivity.
Defined.

Lemma deep_update_twice_instance :
  deep_update merge_expected merge_override = Ok merge_expected.
Proof.
  exact (deep_update_twice merge_override merge_base merge_expected eq_refl
           eq_refl).
Defined.

Lemma local_values_survive_resolution_instance :
  lookup "name" merged_source = Some (VStr "BESSY II").
Proof.
  apply (local_values_survive_resolution np_dtype_name_of_strings sample_files
           flat_join flat_parent 6 refers_to_source merged_source EmptyString
           "name" (VStr "BESSY II")); try reflexivity.
  - apply (proj1 (distinct_NoDup _)). reflexivity.
  - discriminate.
Defined.

Lemma plain_simplified_file_is_post_processed_instance :
  convert_nxyaml np_dtype_name_of_strings sample_files flat_join flat_parent
    4 "source.yml" true true false
  = post_process
      [("source",
        VDict [("nxclass", VStr "NXsource");
               ("probe", VDict [("nxclass", VStr "NXfield");
                                ("value", VStr "neutron")])])]
      true true false.
Proof.
  apply (plain_simplified_file_is_post_processed np_dtype_name_of_strings
           sample_files flat_join flat_parent 3 "source.yml"
           [("source",
             VDict [("nxclass", VStr "NXsource");
                    ("probe", VDict [("nxclass", VStr "NXfield");
                                     ("value", VStr "neutron")])])]
           true true false eq_refl eq_refl eq_refl).
  cbn. lia.
Defined.

Lemma self_reference_never_converts_instance :
  convert_nxyaml np_dtype_name_of_strings loop_files flat_join flat_parent
    1000 "self.yml" false true false = Raise OutOfFuel.
Proof.
  refine (self_reference_never_converts np_dtype_name_of_strings loop_files
            flat_join flat_parent "self.yml" "self.yml" loop_node
            false true false eq_refl eq_refl eq_refl _ eq_refl 1000).
  discriminate.
Defined.

Lemma pointer_errors_instance :
  resolve_nxdlrefs np_dtype_name_of_strings sample_files flat_join flat_parent
    1 (VDict [("$nxdlref", VInt 7); ("nxclass", VStr "NXsource")]) EmptyString
  = Raise TypeError.
Proof.
  apply (proj1 (pointer_errors np_dtype_name_of_strings sample_files flat_join
                  flat_parent 0
                  [("$nxdlref", VInt 7); ("nxclass", VStr "NXsource")]
                  EmptyString (VInt 7) eq_refl));
    [reflexivity|discriminate].
Defined.
